(** * Supplier quote optimizer

    A shallow embedding of [supplier_quote_optimizer.py] and of
    [auth_utils.py], with the properties of what they compute.

    From [supplier_quote_optimizer.py]: the cleaning filters, the automated
    optimization loop that fills [optimized_allocation] with its
    statistics, the cost analysis, the "Generate Final Allocation" loop
    that fills [final_allocation], the selection table with its click
    handler and its highlight, the colours of the allocation summary, the
    orders by supplier and the sheets "Order List" and "Suppliers" of the
    report.  From [auth_utils.py]: the users, the session, the lockout and
    the user management.

    Conventions of the embedding.
    - A DataFrame is the list of its rows, in index order; a boolean mask
      [df[mask]] is [filter]; [.iloc[0]] is the head of the list.  A row
      built as a dictionary is the list of its items in insertion order.
    - Numeric cells ([QtyRequired], [UnitPrice], [AvailableQty]) are exact
      integers of [Z]; rounding of binary floats is outside the model.
    - Part numbers and supplier names are strings; the dictionary
      [st.session_state.supplier_selections] is a [gmap string string].
    - [DataFrame.sort_values] is library code.  The script calls it with
      the default [kind]; it enters the model as a type class carrying
      exactly the documented contract: the result is a rearrangement of
      the rows, in ascending order of [UnitPrice].
    - What is drawn, written to a workbook or offered for download is
      outside the model; the values that go there are in it. *)

From Stdlib Require Import ZArith Lia.
From stdpp Require Import base list strings gmap sorting pretty.

Local Open Scope string_scope.
Local Open Scope list_scope.
Local Open Scope Z_scope.

(** ** Rows of the tables *)

Record OrderRow := mkOrder {
  order_PartNumber : string;
  order_QtyRequired : Z
}.

Record QuoteRow := mkQuote {
  quote_Supplier : string;
  quote_PartNumber : string;
  quote_UnitPrice : Z;
  quote_AvailableQty : Z
}.

(** A dictionary appended to [final_allocation]. *)
Record AllocationLine := mkLine {
  PartNumber : string;
  Supplier : string;
  QtyAllocated : Z;
  UnitPrice : Z;
  TotalCost : Z;
  AllocationSource : string
}.

(** A dictionary appended to [allocation] by the optimization engine. *)
Record EngineLine := mkEngineLine {
  eng_PartNumber : string;
  eng_Supplier : string;
  eng_AllocatedQty : Z;
  eng_UnitPrice : Z;
  eng_Total : Z;
  eng_QtyRequired : Z;
  eng_Status : string
}.

Global Instance OrderRow_eq_dec : EqDecision OrderRow.
Proof. solve_decision. Defined.
Global Instance QuoteRow_eq_dec : EqDecision QuoteRow.
Proof. solve_decision. Defined.
Global Instance AllocationLine_eq_dec : EqDecision AllocationLine.
Proof. solve_decision. Defined.
Global Instance EngineLine_eq_dec : EqDecision EngineLine.
Proof. solve_decision. Defined.

(** ** Sorting by price *)

Definition price_le (a b : QuoteRow) : Prop :=
  quote_UnitPrice a ≤ quote_UnitPrice b.

Global Instance price_le_dec a b : Decision (price_le a b).
Proof. unfold price_le. apply _. Defined.

Global Instance price_le_trans : Transitive price_le.
Proof. unfold price_le. intros a b c. lia. Qed.

Global Instance price_le_total : Total price_le.
Proof. unfold price_le. intros a b. lia. Qed.

(** [df.sort_values('UnitPrice')] with the default [kind]. *)
Class PriceSort := {
  sort_values : list QuoteRow → list QuoteRow;
  sort_values_perm : ∀ l, sort_values l ≡ₚ l;
  sort_values_sorted : ∀ l, Sorted price_le (sort_values l)
}.

(** Two sorts that meet the contract: a merge sort that keeps rows of
    equal price in input order, and one that reverses them. *)
Definition stable_sort : PriceSort :=
  {| sort_values := merge_sort price_le;
     sort_values_perm := merge_sort_Permutation price_le;
     sort_values_sorted := Sorted_merge_sort price_le |}.

Definition reversing_sort : PriceSort.
Proof.
  refine {| sort_values := λ l, merge_sort price_le (reverse l) |}.
  - intros l. by rewrite merge_sort_Permutation, reverse_Permutation.
  - intros l. apply Sorted_merge_sort, _.
Defined.

(** ** Cleaning filters (the "Filter out invalid data" block) *)



(** ** Column helpers *)

(** [Series.unique()]: the distinct values in order of first appearance. *)
Fixpoint unique (l : list string) : list string :=
  match l with
  | [] => []
  | x :: l' => x :: filter (λ y, y ≠ x) (unique l')
  end.

(** [orders[orders['PartNumber'] == part]['QtyRequired']] *)
Definition part_orders (orders : list OrderRow) (part : string) : list Z :=
  order_QtyRequired <$> filter (λ o, order_PartNumber o = part) orders.

(** [quotes_df[quotes_df['PartNumber'] == part]] *)
Definition quotes_of_part (quotes_df : list QuoteRow) (part : string)
  : list QuoteRow :=
  filter (λ q, quote_PartNumber q = part) quotes_df.

(** [quotes_df[(PartNumber == part) & (Supplier.astype(str) == selected)]] *)
Definition quotes_of_selected (quotes_df : list QuoteRow)
    (part selected_supplier : string) : list QuoteRow :=
  filter (λ q, quote_PartNumber q = part ∧ quote_Supplier q = selected_supplier)
         quotes_df.

(** [quotes_df[(PartNumber == part) & (Supplier.astype(str) != selected)
               & (AvailableQty > 0)]] *)
Definition quotes_of_others (quotes_df : list QuoteRow)
    (part selected_supplier : string) : list QuoteRow :=
  filter (λ q, quote_PartNumber q = part ∧ quote_Supplier q ≠ selected_supplier
               ∧ quote_AvailableQty q > 0)
         quotes_df.

(** ** The automated optimization engine *)

(** The walk over the sorted quotes of one order row. *)
Fixpoint engine_walk (part : string) (original_qty_needed qty_needed : Z)
    (rows : list QuoteRow) : list EngineLine * Z :=
  match rows with
  | [] => ([], qty_needed)
  | q :: rest =>
      if qty_needed <=? 0 then ([], qty_needed)
      else
        let alloc_qty := Z.min qty_needed (quote_AvailableQty q) in
        if alloc_qty >? 0 then
          let '(lines, leftover) :=
            engine_walk part original_qty_needed (qty_needed - alloc_qty) rest in
          (mkEngineLine part (quote_Supplier q) alloc_qty (quote_UnitPrice q)
                        (alloc_qty * quote_UnitPrice q) original_qty_needed
                        "Allocated" :: lines, leftover)
        else engine_walk part original_qty_needed qty_needed rest
  end.

Definition engine_order {PS : PriceSort} (quotes_df : list QuoteRow) (order : OrderRow)
  : list EngineLine :=
  let part := order_PartNumber order in
  let qty_needed := order_QtyRequired order in
  match quotes_of_part quotes_df part with
  | [] => [mkEngineLine part "NOT AVAILABLE" 0 0 0 qty_needed "Not Available"]
  | part_quotes =>
      let '(lines, leftover) :=
        engine_walk part qty_needed qty_needed (sort_values part_quotes) in
      if leftover =? 0 then lines
      else if leftover <? qty_needed then
        lines ++ [mkEngineLine part "SHORTAGE" leftover 0 0 qty_needed "Shortage"]
      else lines
  end.

Definition optimized_allocation {PS : PriceSort} (orders : list OrderRow)
    (quotes_df : list QuoteRow) : list EngineLine :=
  concat (engine_order quotes_df <$> orders).

(** ** Generate Final Allocation *)

(** The walk of the auto-optimization branch. *)
Fixpoint auto_walk (part : string) (qty_needed : Z) (rows : list QuoteRow)
  : list AllocationLine * Z :=
  match rows with
  | [] => ([], qty_needed)
  | quote :: rest =>
      if qty_needed <=? 0 then ([], qty_needed)
      else
        let alloc_qty := Z.min qty_needed (quote_AvailableQty quote) in
        if alloc_qty >? 0 then
          let '(lines, leftover) := auto_walk part (qty_needed - alloc_qty) rest in
          (mkLine part (quote_Supplier quote) alloc_qty (quote_UnitPrice quote)
                  (alloc_qty * quote_UnitPrice quote) "Auto-Optimized" :: lines,
           leftover)
        else auto_walk part qty_needed rest
  end.

(** The walk over [remaining_quotes] after a partial manual selection. *)
Fixpoint remaining_walk (part : string) (remaining_qty : Z)
    (rows : list QuoteRow) : list AllocationLine * Z :=
  match rows with
  | [] => ([], remaining_qty)
  | quote :: rest =>
      if remaining_qty <=? 0 then ([], remaining_qty)
      else
        let alloc_qty := Z.min remaining_qty (quote_AvailableQty quote) in
        let '(lines, leftover) := remaining_walk part (remaining_qty - alloc_qty) rest in
        (mkLine part (quote_Supplier quote) alloc_qty (quote_UnitPrice quote)
                (alloc_qty * quote_UnitPrice quote) "Auto-Optimized (Remaining)"
           :: lines,
         leftover)
  end.

Definition shortage_line (part : string) (qty_needed : Z) : AllocationLine :=
  mkLine part "N/A (SHORTAGE)" qty_needed 0 0 "Shortage".

(** The branch taken when [part in supplier_selections]. *)
Definition manual_branch {PS : PriceSort} (quotes_df : list QuoteRow)
    (part selected_supplier : string) (qty_needed : Z)
  : list AllocationLine * Z :=
  match quotes_of_selected quotes_df part selected_supplier with
  | [] => ([], qty_needed)
  | supplier_quote :: _ =>
      let available_qty := quote_AvailableQty supplier_quote in
      let unit_price := quote_UnitPrice supplier_quote in
      if available_qty >=? qty_needed then
        ([mkLine part selected_supplier qty_needed unit_price
                 (qty_needed * unit_price) "Manual Selection"], 0)
      else
        let remaining_quotes :=
          sort_values (quotes_of_others quotes_df part selected_supplier) in
        let '(lines, leftover) :=
          remaining_walk part (qty_needed - available_qty) remaining_quotes in
        (mkLine part selected_supplier available_qty unit_price
                (available_qty * unit_price) "Manual Selection (Partial)" :: lines,
         leftover)
  end.

(** One iteration of [for part in orders['PartNumber'].unique()]. *)
Definition allocate_part {PS : PriceSort} (orders : list OrderRow)
    (quotes_df : list QuoteRow) (supplier_selections : gmap string string)
    (part : string) : list AllocationLine :=
  match part_orders orders part with
  | [] => []
  | qty_needed :: _ =>
      let '(lines, leftover) :=
        match supplier_selections !! part with
        | Some selected_supplier =>
            manual_branch quotes_df part selected_supplier qty_needed
        | None =>
            auto_walk part qty_needed (sort_values (quotes_of_part quotes_df part))
        end in
      if leftover >? 0 then lines ++ [shortage_line part leftover] else lines
  end.

Definition final_allocation {PS : PriceSort} (orders : list OrderRow)
    (quotes_df : list QuoteRow) (supplier_selections : gmap string string)
  : list AllocationLine :=
  concat (allocate_part orders quotes_df supplier_selections
            <$> unique (order_PartNumber <$> orders)).

(** ** The session *)

Record Session := mkSession {
  st_orders : list OrderRow;
  st_quotes_df : list QuoteRow;
  st_supplier_selections : gmap string string;
  st_optimized_allocation : list EngineLine;
  st_final_allocation : list AllocationLine
}.

(** The "Generate Final Allocation" button: the list is rebuilt from the
    tables and the selections and stored in the session. *)
Definition generate_final_allocation {PS : PriceSort} (s : Session) : Session :=
  {| st_orders := st_orders s;
     st_quotes_df := st_quotes_df s;
     st_supplier_selections := st_supplier_selections s;
     st_optimized_allocation := st_optimized_allocation s;
     st_final_allocation :=
       final_allocation (st_orders s) (st_quotes_df s) (st_supplier_selections s) |}.

(** ** Readings of the tables and of an allocation list *)

(** The [QtyRequired] the loop reads for a part: that of its first order
    row ([part_orders.iloc[0]]); [None] when the part is not ordered. *)
Definition qty_required (orders : list OrderRow) (part : string) : option Z :=
  head (part_orders orders part).

(** The offer the manual branch reads for a pinned supplier
    ([part_quotes.iloc[0]]). *)
Definition selected_quote (quotes_df : list QuoteRow)
    (part selected_supplier : string) : option QuoteRow :=
  head (quotes_of_selected quotes_df part selected_supplier).

Definition lines_of_part (part : string) (lines : list AllocationLine)
  : list AllocationLine :=
  filter (λ l, PartNumber l = part) lines.

Definition lines_of_supplier (supplier : string) (lines : list AllocationLine)
  : list AllocationLine :=
  filter (λ l, Supplier l = supplier) lines.

Definition is_shortage (l : AllocationLine) : Prop :=
  AllocationSource l = "Shortage"%string.

Global Instance is_shortage_dec l : Decision (is_shortage l).
Proof. unfold is_shortage. apply _. Defined.

(** The line with another [AllocationSource]. *)
Definition relabel (source : string) (l : AllocationLine) : AllocationLine :=
  mkLine (PartNumber l) (Supplier l) (QtyAllocated l) (UnitPrice l)
         (TotalCost l) source.

(** The engine's dictionary for an allocated line: the same part,
    supplier, quantity, price and total, with the row's [QtyRequired] and
    status "Allocated". *)
Definition engine_line (original_qty_needed : Z) (l : AllocationLine)
  : EngineLine :=
  mkEngineLine (PartNumber l) (Supplier l) (QtyAllocated l) (UnitPrice l)
               (TotalCost l) original_qty_needed "Allocated".

Definition sum_Z (l : list Z) : Z := foldr Z.add 0 l.

(** What a supplier quotes for a part, all its rows for the part together. *)
Definition offered (quotes_df : list QuoteRow) (part supplier : string) : Z :=
  sum_Z (quote_AvailableQty <$> quotes_of_selected quotes_df part supplier).

Definition total_qty (lines : list AllocationLine) : Z :=
  sum_Z (QtyAllocated <$> lines).

Definition total_cost (lines : list AllocationLine) : Z :=
  sum_Z ((λ l, QtyAllocated l * UnitPrice l) <$> lines).

(** An assignment of quantities to offers: each row with the quantity
    taken from it. *)
Definition assignment_qty (xs : list (QuoteRow * Z)) : Z :=
  sum_Z (snd <$> xs).

Definition assignment_cost (xs : list (QuoteRow * Z)) : Z :=
  sum_Z ((λ rx, rx.2 * quote_UnitPrice rx.1) <$> xs).

(** The assignment takes from each of the rows, in their order, a quantity
    between 0 and the row's [AvailableQty]. *)
Definition feasible (rows : list QuoteRow) (xs : list (QuoteRow * Z)) : Prop :=
  xs.*1 = rows ∧ Forall (λ rx, 0 ≤ rx.2 ≤ quote_AvailableQty rx.1) xs.


(** ** The optimization engine with its statistics *)

(** [optimization_stats]. *)
Record OptimizationStats := mkStats {
  stat_total_parts : Z;
  stat_fully_allocated : Z;
  stat_partially_allocated : Z;
  stat_not_available : Z;
  stat_total_cost : Z
}.

(** The engine's walk, with [optimization_stats['total_cost']] added to as
    the lines are appended. *)
Fixpoint engine_walk_cost (part : string) (original_qty_needed qty_needed : Z)
    (rows : list QuoteRow) (stats_total_cost : Z) : list EngineLine * Z * Z :=
  match rows with
  | [] => ([], qty_needed, stats_total_cost)
  | q :: rest =>
      if qty_needed <=? 0 then ([], qty_needed, stats_total_cost)
      else
        let alloc_qty := Z.min qty_needed (quote_AvailableQty q) in
        if alloc_qty >? 0 then
          let total_cost := alloc_qty * quote_UnitPrice q in
          let '(lines, leftover, cost) :=
            engine_walk_cost part original_qty_needed (qty_needed - alloc_qty)
                             rest (stats_total_cost + total_cost) in
          (mkEngineLine part (quote_Supplier q) alloc_qty (quote_UnitPrice q)
                        total_cost original_qty_needed "Allocated" :: lines,
           leftover, cost)
        else engine_walk_cost part original_qty_needed qty_needed rest
                              stats_total_cost
  end.

(** One iteration of [for _, order in orders.iterrows()], on the list
    [allocation] and the statistics. *)
Definition engine_iteration {PS : PriceSort} (quotes_df : list QuoteRow)
    (state : list EngineLine * OptimizationStats) (order : OrderRow)
  : list EngineLine * OptimizationStats :=
  let '(allocation, stats) := state in
  let part := order_PartNumber order in
  let qty_needed := order_QtyRequired order in
  match quotes_of_part quotes_df part with
  | [] =>
      (allocation
         ++ [mkEngineLine part "NOT AVAILABLE" 0 0 0 qty_needed "Not Available"],
       mkStats (stat_total_parts stats) (stat_fully_allocated stats)
               (stat_partially_allocated stats) (stat_not_available stats + 1)
               (stat_total_cost stats))
  | part_quotes =>
      let '(lines, leftover, cost) :=
        engine_walk_cost part qty_needed qty_needed (sort_values part_quotes)
                         (stat_total_cost stats) in
      if leftover =? 0 then
        (allocation ++ lines,
         mkStats (stat_total_parts stats) (stat_fully_allocated stats + 1)
                 (stat_partially_allocated stats) (stat_not_available stats)
                 cost)
      else if leftover <? qty_needed then
        (allocation ++ lines
           ++ [mkEngineLine part "SHORTAGE" leftover 0 0 qty_needed "Shortage"],
         mkStats (stat_total_parts stats) (stat_fully_allocated stats)
                 (stat_partially_allocated stats + 1) (stat_not_available stats)
                 cost)
      else
        (allocation ++ lines,
         mkStats (stat_total_parts stats) (stat_fully_allocated stats)
                 (stat_partially_allocated stats) (stat_not_available stats + 1)
                 cost)
  end.

(** The "Run Optimization" block: the list stored in
    [st.session_state.optimized_allocation] and the statistics shown. *)
Definition run_optimization {PS : PriceSort} (orders : list OrderRow)
    (quotes_df : list QuoteRow) : list EngineLine * OptimizationStats :=
  fold_left (engine_iteration quotes_df) orders
            ([], mkStats (Z.of_nat (length orders)) 0 0 0 0).

(** ** Cost analysis *)

(** [auto_cost]: the [Total] of the items with status "Allocated". *)
Definition auto_cost (allocation : list EngineLine) : Z :=
  sum_Z (eng_Total <$> filter (λ l, eng_Status l = "Allocated") allocation).

(** A dictionary appended to [manual_allocation]. *)
Record ManualLine := mkManual {
  man_Part : string;
  man_Supplier : string;
  man_Qty : Z;
  man_Cost : Z;
  man_Type : string
}.

(** The walk over [remaining_quotes] of the cost analysis, on
    [manual_cost], [manual_allocation] and [remaining_qty]. *)
Fixpoint manual_remaining_walk (part : string) (rows : list QuoteRow)
    (manual_cost : Z) (manual_allocation : list ManualLine) (remaining_qty : Z)
  : Z * list ManualLine :=
  match rows with
  | [] => (manual_cost, manual_allocation)
  | quote :: rest =>
      if remaining_qty <=? 0 then (manual_cost, manual_allocation)
      else
        let alloc_qty := Z.min remaining_qty (quote_AvailableQty quote) in
        manual_remaining_walk part rest
          (manual_cost + alloc_qty * quote_UnitPrice quote)
          (manual_allocation
             ++ [mkManual part (quote_Supplier quote) alloc_qty
                          (alloc_qty * quote_UnitPrice quote)
                          "Auto-Optimized (Remaining)"])
          (remaining_qty - alloc_qty)
  end.

(** One iteration of the cost analysis loop over
    [orders['PartNumber'].unique()]. *)
Definition cost_analysis_iteration {PS : PriceSort} (orders : list OrderRow)
    (quotes_df : list QuoteRow) (supplier_selections : gmap string string)
    (state : Z * list ManualLine) (part : string) : Z * list ManualLine :=
  let '(manual_cost, manual_allocation) := state in
  match part_orders orders part with
  | [] => state
  | qty_needed :: _ =>
      match supplier_selections !! part with
      | Some selected_supplier =>
          match quotes_of_selected quotes_df part selected_supplier with
          | [] => state
          | supplier_quote :: _ =>
              let available_qty := quote_AvailableQty supplier_quote in
              let unit_price := quote_UnitPrice supplier_quote in
              if available_qty >=? qty_needed then
                (manual_cost + qty_needed * unit_price,
                 manual_allocation
                   ++ [mkManual part selected_supplier qty_needed
                                (qty_needed * unit_price) "Manual Selection"])
              else
                manual_remaining_walk part
                  (sort_values (quotes_of_others quotes_df part selected_supplier))
                  (manual_cost + available_qty * unit_price)
                  (manual_allocation
                     ++ [mkManual part selected_supplier available_qty
                                  (available_qty * unit_price)
                                  "Manual Selection (Partial)"])
                  (qty_needed - available_qty)
          end
      | None => state
      end
  end.

(** The cost analysis tab: [manual_cost] and [manual_allocation]. *)
Definition cost_analysis {PS : PriceSort} (orders : list OrderRow)
    (quotes_df : list QuoteRow) (supplier_selections : gmap string string)
  : Z * list ManualLine :=
  fold_left (cost_analysis_iteration orders quotes_df supplier_selections)
            (unique (order_PartNumber <$> orders)) (0, []).


(** The lines that come from a manual selection. *)
Definition from_selection (l : AllocationLine) : Prop :=
  AllocationSource l = "Manual Selection"
  ∨ AllocationSource l = "Manual Selection (Partial)"
  ∨ AllocationSource l = "Auto-Optimized (Remaining)".

Global Instance from_selection_dec l : Decision (from_selection l).
Proof. unfold from_selection. apply _. Defined.


(** ** Report sheets

    The sheets are modelled by their cell contents; fills, fonts, borders
    and column widths are not. *)

(** The supplier values that stand for no supplier. *)
Definition sentinels : list string :=
  ["NOT AVAILABLE"; "SHORTAGE"; "N/A (SHORTAGE)"].

(** [sorted] on a list of strings: ascending code points. *)
Definition sorted (l : list string) : list string := merge_sort String.le l.

(** A row of the sheet "No quotes available". *)
Record NotAvailableRow := mkNotAvailable {
  na_PartNumber : string;
  na_QtyRequired : Z;
  na_Status : string
}.

Definition create_not_available_sheet (order_df : list OrderRow)
    (quote_df : list QuoteRow) : list NotAvailableRow :=
  let quoted_parts : gset string :=
    list_to_set (unique (quote_PartNumber <$> quote_df)) in
  let ordered_parts : gset string :=
    list_to_set (unique (order_PartNumber <$> order_df)) in
  let not_available_parts := ordered_parts ∖ quoted_parts in
  if decide (not_available_parts ≠ ∅) then
    (λ o, mkNotAvailable (order_PartNumber o) (order_QtyRequired o)
                         "No quotes available")
      <$> filter (λ o, order_PartNumber o ∈ not_available_parts) order_df
  else [].

(** A cell of the sheet "Suppliers": a text or a number. *)
Inductive Cell :=
  | Text (s : string)
  | Number (z : Z).

Record SheetRow := mkRow {
  cell_PartNumber : Cell;
  cell_QtyOrdered : Cell;
  cell_UnitPrice : Cell;
  cell_TotalCost : Cell
}.

Global Instance Cell_eq_dec : EqDecision Cell.
Proof. solve_decision. Defined.
Global Instance SheetRow_eq_dec : EqDecision SheetRow.
Proof. solve_decision. Defined.

(** The loop over the rows of one supplier, on [combined_data],
    [supplier_total_qty] and [supplier_total_amount]. *)
Definition supplier_row_step (state : list SheetRow * Z * Z)
    (row : AllocationLine) : list SheetRow * Z * Z :=
  let '(combined_data, supplier_total_qty, supplier_total_amount) := state in
  let qty := QtyAllocated row in
  let total_cost := TotalCost row in
  (combined_data
     ++ [mkRow (Text (PartNumber row)) (Number qty) (Number (UnitPrice row))
               (Number total_cost)],
   supplier_total_qty + qty,
   supplier_total_amount + total_cost).

(** One iteration of [for supplier in suppliers], on [combined_data],
    [grand_total_qty] and [grand_total_amount]. *)
Definition supplier_iteration (final_df : list AllocationLine)
    (state : list SheetRow * Z * Z) (supplier : string)
  : list SheetRow * Z * Z :=
  let '(combined_data, grand_total_qty, grand_total_amount) := state in
  if decide (supplier ∈ sentinels) then state
  else
    match filter (λ l, Supplier l = supplier) final_df with
    | [] => state
    | supplier_data =>
        let supplier_name := String.substring 0 10 supplier in
        let combined_data :=
          combined_data
            ++ [mkRow (Text supplier_name) (Text "") (Text "") (Text "")]
            ++ [mkRow (Text "Part Number") (Text "Qty Ordered")
                      (Text "Unit Price") (Text "Total Cost")] in
        let '(combined_data, supplier_total_qty, supplier_total_amount) :=
          fold_left supplier_row_step supplier_data (combined_data, 0, 0) in
        (combined_data
           ++ [mkRow (Text "SUBTOTAL") (Number supplier_total_qty) (Text "")
                     (Number supplier_total_amount)]
           ++ [mkRow (Text "") (Text "") (Text "") (Text "")],
         grand_total_qty + supplier_total_qty,
         grand_total_amount + supplier_total_amount)
    end.

(** The supplier tables with [grand_total_qty] and [grand_total_amount]. *)
Definition supplier_sections (final_df : list AllocationLine)
  : list SheetRow * Z * Z :=
  fold_left (supplier_iteration final_df)
            (sorted (unique (Supplier <$> final_df))) ([], 0, 0).

(** [shortage_items]: part number and quantity. *)
Definition shortage_items (final_df : list AllocationLine) : list (string * Z) :=
  (λ row, (PartNumber row, QtyAllocated row))
    <$> filter (λ l, Supplier l = "N/A (SHORTAGE)") final_df.

(** [all_na_items]: part number, quantity and type. *)
Definition all_na_items (final_df : list AllocationLine)
    (quote_df : list QuoteRow) (order_df : list OrderRow)
  : list (string * Z * string) :=
  let not_available_df := create_not_available_sheet order_df quote_df in
  let shortage_part_numbers : gset string :=
    list_to_set (fst <$> shortage_items final_df) in
  ((λ item, (item.1, item.2, "Shortage")) <$> shortage_items final_df)
    ++ ((λ row, (na_PartNumber row, na_QtyRequired row, "Not Available"))
          <$> filter (λ row, na_PartNumber row ∉ shortage_part_numbers)
                     not_available_df).

(** The loop over [all_na_items], on [combined_data] and
    [not_available_total_qty]. *)
Definition na_item_step (state : list SheetRow * Z)
    (item : string * Z * string) : list SheetRow * Z :=
  let '(combined_data, not_available_total_qty) := state in
  let qty := item.1.2 in
  (combined_data ++ [mkRow (Text item.1.1) (Number qty) (Text "N/A") (Text "N/A")],
   not_available_total_qty + qty).

(** [not_available_total_qty] as the sheet shows it. *)
Definition not_available_total_qty (final_df : list AllocationLine)
    (quote_df : list QuoteRow) (order_df : list OrderRow) : Z :=
  (fold_left na_item_step (all_na_items final_df quote_df order_df) ([], 0)).2.

(** [total_qty_required]: [order_df['QtyRequired'].sum()]. *)
Definition total_qty_required (order_df : list OrderRow) : Z :=
  sum_Z (order_QtyRequired <$> order_df).

(** The rows written to the sheet "Suppliers". *)
Definition create_combined_suppliers_sheet (final_df : list AllocationLine)
    (quote_df : list QuoteRow) (order_df : list OrderRow) : list SheetRow :=
  let '(combined_data, grand_total_qty, grand_total_amount) :=
    supplier_sections final_df in
  let combined_data :=
    if grand_total_qty >? 0 then
      combined_data
        ++ [mkRow (Text "GRAND TOTAL") (Number grand_total_qty) (Text "")
                  (Number grand_total_amount)]
        ++ [mkRow (Text "") (Text "") (Text "") (Text "")]
    else combined_data in
  let combined_data :=
    match all_na_items final_df quote_df order_df with
    | [] => combined_data
    | items =>
        let '(combined_data, na_total) :=
          fold_left na_item_step items
            (combined_data ++ [mkRow (Text "N/A") (Text "") (Text "") (Text "")],
             0) in
        combined_data
          ++ [mkRow (Text "SUBTOTAL - N/A") (Number na_total) (Text "")
                    (Text "N/A")]
    end in
  combined_data
    ++ [mkRow (Text "") (Text "") (Text "") (Text "")]
    ++ [mkRow (Text "TOTAL QTY") (Number (total_qty_required order_df))
              (Text "") (Text "")].

(** ** Orders by supplier *)



(** "Total Final Cost": [final_df['TotalCost'].sum()]. *)
Definition total_final_cost (final_df : list AllocationLine) : Z :=
  sum_Z (TotalCost <$> final_df).

(** ** The selection table and its click handler *)

(** A value held by a row dictionary: a text or a number. *)
Inductive Value :=
  | VStr (s : string)
  | VNum (z : Z).

Global Instance Value_eq_dec : EqDecision Value.
Proof. solve_decision. Defined.

(** [d[k] = v] on a dictionary kept as its items in insertion order: an
    existing key keeps its place. *)
Fixpoint dict_set (k : string) (v : Value) (d : list (string * Value))
  : list (string * Value) :=
  match d with
  | [] => [(k, v)]
  | (k', v') :: d' =>
      if decide (k' = k) then (k, v) :: d' else (k', v') :: dict_set k v d'
  end.

(** [d[k]]; [None] stands for [KeyError]. *)
Fixpoint dict_get (k : string) (d : list (string * Value)) : option Value :=
  match d with
  | [] => None
  | (k', v') :: d' => if decide (k' = k) then Some v' else dict_get k d'
  end.

(** [f"${price:.2f} (Qty: {available_qty})"], on integers. *)
Definition format_offer (price available_qty : Z) : string :=
  "$" +:+ pretty price +:+ ".00 (Qty: " +:+ pretty available_qty +:+ ")".

(** [all_suppliers]. *)
Definition all_suppliers (quotes_df : list QuoteRow) : list string :=
  sorted (unique (quote_Supplier <$> quotes_df)).

(** The cell of a supplier in the row of a part. *)
Definition excel_cell (quotes_df : list QuoteRow) (part supplier : string)
  : Value :=
  match filter (λ q, quote_Supplier q = supplier) (quotes_of_part quotes_df part)
  with
  | supplier_quote :: _ =>
      if quote_AvailableQty supplier_quote >? 0 then
        VStr (format_offer (quote_UnitPrice supplier_quote)
                           (quote_AvailableQty supplier_quote))
      else VStr "N/A"
  | [] => VStr "N/A"
  end.

(** [row_data] for a part. *)
Definition excel_row (quotes_df : list QuoteRow)
    (supplier_selections : gmap string string) (part : string) (total_qty : Z)
  : list (string * Value) :=
  fold_left (λ row_data supplier,
               dict_set supplier (excel_cell quotes_df part supplier) row_data)
            (all_suppliers quotes_df)
            [("Part Number", VStr part);
             ("Qty Required", VNum total_qty);
             ("Current Selection",
              VStr (default "Auto-Optimized" (supplier_selections !! part)))].

(** [create_excel_dataframe()]: the rows of [excel_df]. *)
Definition create_excel_dataframe (orders : list OrderRow)
    (quotes_df : list QuoteRow) (supplier_selections : gmap string string)
  : list (list (string * Value)) :=
  omap (λ part,
          match part_orders orders part with
          | [] => None
          | total_qty :: _ =>
              Some (excel_row quotes_df supplier_selections part total_qty)
          end)
       (unique (order_PartNumber <$> orders)).

(** [excel_df.columns]: the keys of the rows, all rows having the same. *)
Definition excel_columns (excel_df : list (list (string * Value)))
  : list string :=
  match excel_df with
  | [] => []
  | row :: _ => fst <$> row
  end.

Definition fixed_columns : list string :=
  ["Part Number"; "Qty Required"; "Current Selection"].

(** What Streamlit reports for a selected cell: the column by name or by
    position. *)
Inductive ColumnId :=
  | ColName (s : string)
  | ColIndex (i : Z).

(** [event.selection], with its attributes [cells], [rows] and [columns]. *)
Record SelectionEvent := mkEvent {
  ev_cells : list (Z * ColumnId);
  ev_rows : list Z;
  ev_columns : list ColumnId
}.

(** The update made for a cell of [excel_df], given whether the column
    counts as a supplier column.  [None] from a lookup stands for the
    exception that the handler catches. *)
Definition select_cell (excel_df : list (list (string * Value)))
    (supplier_selections : gmap string string) (row_idx : Z) (col_name : string)
    (is_supplier_column : bool) : gmap string string :=
  match excel_df !! Z.to_nat row_idx with
  | None => supplier_selections
  | Some row =>
      match dict_get "Part Number" row with
      | Some (VStr part_number) =>
          if is_supplier_column then
            match dict_get col_name row with
            | Some cell_value =>
                if decide (cell_value ≠ VStr "N/A")
                then <[part_number := col_name]> supplier_selections
                else supplier_selections
            | None => supplier_selections
            end
          else supplier_selections
      | _ => supplier_selections
      end
  end.

(** The handling of a cell selection: the selections after it.  Where the
    script stops or catches an exception (a column given by name where a
    position is compared, a missing key) the selections are unchanged. *)
Definition handle_selection (orders : list OrderRow) (quotes_df : list QuoteRow)
    (supplier_selections : gmap string string) (event : SelectionEvent)
  : gmap string string :=
  let excel_df := create_excel_dataframe orders quotes_df supplier_selections in
  let columns := excel_columns excel_df in
  let n_rows := Z.of_nat (length excel_df) in
  let n_columns := Z.of_nat (length columns) in
  match ev_cells event with
  | (row_idx, col_identifier) :: _ =>
      let col_name :=
        match col_identifier with
        | ColName col_name =>
            if decide (col_name ∈ columns) then Some col_name else None
        | ColIndex col_idx =>
            if (0 <=? col_idx) && (col_idx <? n_columns)
            then columns !! Z.to_nat col_idx else None
        end in
      match col_name with
      | None => supplier_selections
      | Some col_name =>
          if (0 <=? row_idx) && (row_idx <? n_rows) then
            select_cell excel_df supplier_selections row_idx col_name
                        (bool_decide (col_name ∉ fixed_columns))
          else supplier_selections
      end
  | [] =>
      match ev_rows event, ev_columns event with
      | row_idx :: _, ColIndex col_idx :: _ =>
          if (0 <=? row_idx) && (row_idx <? n_rows)
             && (0 <=? col_idx) && (col_idx <? n_columns) then
            match columns !! Z.to_nat col_idx with
            | Some col_name =>
                select_cell excel_df supplier_selections row_idx col_name
                  (bool_decide (col_name ∉ fixed_columns)
                   && bool_decide (col_name ∈ all_suppliers quotes_df))
            | None => supplier_selections
            end
          else supplier_selections
      | _, _ => supplier_selections
      end
  end.

(** Every pin is to a supplier whose first offer for the part has a
    positive quantity. *)
Definition pins_have_offers (quotes_df : list QuoteRow)
    (supplier_selections : gmap string string) : Prop :=
  ∀ part supplier,
    supplier_selections !! part = Some supplier →
    ∃ q, selected_quote quotes_df part supplier = Some q
         ∧ quote_AvailableQty q > 0.

(** The selections after a series of selection events, from none. *)
Definition selections_after (orders : list OrderRow) (quotes_df : list QuoteRow)
    (events : list SelectionEvent) : gmap string string :=
  fold_left (handle_selection orders quotes_df) events ∅.

(** [highlight_selected_prices(df)]: for each row of the table the column
    whose cell gets the highlight, if any. *)
Definition highlight_selected_prices (df : list (list (string * Value)))
    (supplier_selections : gmap string string) : list (option string) :=
  let supplier_columns :=
    filter (λ col, col ∉ fixed_columns) (excel_columns df) in
  (λ row,
     match dict_get "Part Number" row with
     | Some (VStr part_number) =>
         let current_selection :=
           default "Auto-Optimized" (supplier_selections !! part_number) in
         if decide (current_selection ≠ "Auto-Optimized"
                    ∧ current_selection ∈ supplier_columns)
         then Some current_selection else None
     | _ => None
     end) <$> df.

(** ** The colours of the final allocation summary *)

(** [needle in s] on strings. *)
Fixpoint contains (needle s : string) : bool :=
  String.prefix needle s
  || match s with
     | EmptyString => false
     | String _ s' => contains needle s'
     end.

Definition gold_style : string :=
  "background-color: #FFD700; color: #8B4513; font-weight: bold".
Definition orange_style : string :=
  "background-color: #FFA500; color: #FF4500; font-weight: bold".
Definition green_style : string :=
  "background-color: #90EE90; color: #006400; font-weight: bold".

(** [highlight_allocation_source(row)]: the styles of the six cells of a
    row of [final_df]. *)
Definition highlight_allocation_source (row : AllocationLine) : list string :=
  let allocation_source := AllocationSource row in
  if contains "Manual Selection" allocation_source then
    if contains "Partial" allocation_source
    then replicate 6 orange_style
    else replicate 6 gold_style
  else if contains "Auto-Optimized" allocation_source
  then replicate 6 green_style
  else replicate 6 "".

(** ** The sheet "Order List" *)

(** [f"{price:.2f}"], on integers. *)
Definition format_price (price : Z) : string := pretty price +:+ ".00".

(** [str(supplier)[:10]]; the names are taken to be ASCII, a character
    being a byte here. *)
Definition supplier_short (supplier : string) : string :=
  String.substring 0 10 supplier.

(** The loop that adds the price and quantity columns of all suppliers to
    [row_data]. *)
Definition price_columns (quote_df : list QuoteRow) (part_number : string)
    (row_data : list (string * Value)) : list (string * Value) :=
  fold_left
    (λ row_data supplier,
       let supplier_quotes :=
         filter (λ q, quote_Supplier q = supplier
                      ∧ quote_PartNumber q = part_number) quote_df in
       let price_col := supplier_short supplier +:+ "_Price" in
       let qty_col := supplier_short supplier +:+ "_Qty" in
       match supplier_quotes with
       | supplier_quote :: _ =>
           dict_set qty_col (VNum (quote_AvailableQty supplier_quote))
             (dict_set price_col
                (VStr (format_price (quote_UnitPrice supplier_quote))) row_data)
       | [] =>
           dict_set qty_col (VStr "N/A")
             (dict_set price_col (VStr "N/A") row_data)
       end)
    (all_suppliers quote_df) row_data.

(** The rows appended to [allocation_rows] for one order row. *)
Definition comparison_rows (quote_df : list QuoteRow)
    (final_df : list AllocationLine) (order_row : OrderRow)
  : list (list (string * Value)) :=
  let part_number := order_PartNumber order_row in
  let qty_required := order_QtyRequired order_row in
  match filter (λ l, PartNumber l = part_number) final_df with
  | [] =>
      [price_columns quote_df part_number
         [("Part Number", VStr part_number);
          ("Qty Required", VNum qty_required);
          ("Allocated Qty", VNum 0);
          ("Selected Supplier", VStr "Not Selected");
          ("Selected Price", VStr "N/A");
          ("Total Cost", VNum 0);
          ("Allocation Source", VStr "Not Allocated")]]
  | part_allocations =>
      (λ allocation,
         price_columns quote_df part_number
           [("Part Number", VStr part_number);
            ("Qty Required", VNum qty_required);
            ("Allocated Qty", VNum (QtyAllocated allocation));
            ("Selected Supplier", VStr (Supplier allocation));
            ("Selected Price",
             if UnitPrice allocation >? 0
             then VStr (format_price (UnitPrice allocation)) else VStr "N/A");
            ("Total Cost", VNum (TotalCost allocation));
            ("Allocation Source", VStr (AllocationSource allocation))])
        <$> part_allocations
  end.

Definition allocation_rows (order_df : list OrderRow) (quote_df : list QuoteRow)
    (final_df : list AllocationLine) : list (list (string * Value)) :=
  concat (comparison_rows quote_df final_df <$> order_df).

Definition base_columns : list string :=
  ["Part Number"; "Qty Required"; "Allocated Qty"; "Selected Supplier";
   "Selected Price"; "Total Cost"; "Allocation Source"].

Definition supplier_columns (quote_df : list QuoteRow) : list string :=
  concat ((λ supplier, [supplier_short supplier +:+ "_Price";
                        supplier_short supplier +:+ "_Qty"])
            <$> all_suppliers quote_df).

(** [reindex(columns=..., fill_value="N/A")] on a row. *)
Definition reindex (columns : list string) (row : list (string * Value))
  : list (string * Value) :=
  (λ c, (c, default (VStr "N/A") (dict_get c row))) <$> columns.

(** [pd.to_numeric(df[column], errors='coerce').sum()]: the numbers of the
    column added up.  The cells of the two columns summed are numbers. *)
Definition to_numeric (cell : option Value) : Z :=
  match cell with
  | Some (VNum z) => z
  | _ => 0
  end.

Definition column_sum (column : string) (df : list (list (string * Value)))
  : Z :=
  sum_Z ((λ row, to_numeric (dict_get column row)) <$> df).

(** [totals_row], every label of which is assigned. *)
Definition totals_row (all_columns : list string)
    (allocated_qty_sum total_cost_sum : Z) : list (string * Value) :=
  (λ c, (c, if decide (c = "Part Number") then VStr "TOTALS"
            else if decide (c = "Allocated Qty") then VNum allocated_qty_sum
            else if decide (c = "Total Cost") then VNum total_cost_sum
            else VStr "")) <$> all_columns.

Definition empty_row (all_columns : list string) : list (string * Value) :=
  (λ c, (c, VStr "")) <$> all_columns.

(** [create_price_comparison_sheet(order_df, quote_df, final_df)]: the rows
    of [result_df]. *)
Definition create_price_comparison_sheet (order_df : list OrderRow)
    (quote_df : list QuoteRow) (final_df : list AllocationLine)
  : list (list (string * Value)) :=
  let all_columns := base_columns ++ supplier_columns quote_df in
  let result_df :=
    reindex all_columns <$> allocation_rows order_df quote_df final_df in
  match result_df with
  | [] => []
  | _ =>
      let allocated_qty_sum := column_sum "Allocated Qty" result_df in
      let total_cost_sum := column_sum "Total Cost" result_df in
      result_df ++ [empty_row all_columns;
                    totals_row all_columns allocated_qty_sum total_cost_sum]
  end.




(** ** Authentication ([auth_utils.py]) *)

(** Conventions of this part.
    - A [datetime] is a number of microseconds and so is a [timedelta];
      [isoformat] followed by [fromisoformat] gives the datetime back, so
      a stored time is kept as the number.  Every reading of
      [datetime.now()] is a parameter of the function that reads it.
    - [hashlib.sha256(...).hexdigest()] is library code and enters as a
      type class; [hmac.compare_digest] on two digests is their equality.
    - [users.json], when it can be read, holds a dictionary of users as
      [save_users] writes it: [None] stands for a file that is missing or
      cannot be parsed.
    - [st.session_state] is the record [AuthState]; the only exception
      in reach of these functions, [fromisoformat(None)], is [TypeError]. *)

Definition session_timeout_minutes : Z := 10.
Definition max_login_attempts : Z := 3.
Definition lockout_duration_minutes : Z := 15.
Definition session_refresh_threshold_minutes : Z := 3.
Definition auto_logout_warning_minutes : Z := 2.

(** [timedelta(minutes=n)]. *)
Definition timedelta_minutes (n : Z) : Z := n * 60000000.

(** [int(d.total_seconds() / 60)]: whole minutes, rounded towards zero. *)
Definition whole_minutes (d : Z) : Z := Z.quot d 60000000.

Class Sha256 := sha256_hexdigest : string → string.

Record User := mkUser {
  password_hash : string;
  role : string;
  created_at : Z
}.

Record AttemptsData := mkAttempts {
  count : Z;
  lockout_time : option Z
}.

Record AuthState := mkAuth {
  authenticated : bool;
  username : option string;
  user_role : option string;
  login_time : option Z;
  login_attempts : gmap string AttemptsData;
  session_token : option string
}.

(** The users outside the session: the module's dictionary [DEFAULT_USERS],
    the contents of [users.json], and whether the file can be opened for
    writing. *)
Record UsersStore := mkStore {
  DEFAULT_USERS : gmap string User;
  users_json : option (gmap string User);
  users_json_writable : bool
}.

Inductive Result (A : Type) :=
  | Ok (a : A)
  | TypeError.
Arguments Ok {A} a.
Arguments TypeError {A}.

(** [DEFAULT_USERS] as the module defines it when it is imported. *)
Definition DEFAULT_USERS_at_import (import_time : Z) : gmap string User :=
  {[ "aman" :=
       mkUser "ae2e12db5acb6575ce9bac996fe00676f680d2c773648b87485b39ba13fa7adb"
              "admin" import_time ]}.

Definition hash_password `{Sha256} (password : string) : string :=
  sha256_hexdigest password.

Definition verify_password `{Sha256} (password password_hash : string) : bool :=
  bool_decide (hash_password password = password_hash).

(** [load_users()]: the dictionary read from the file, or a shallow copy of
    [DEFAULT_USERS]. *)
Definition load_users (store : UsersStore) : gmap string User :=
  match users_json store with
  | Some users => users
  | None => DEFAULT_USERS store
  end.

(** [save_users(users)]: when the file cannot be written the error is
    shown and the file is as before. *)
Definition save_users (users : gmap string User) (store : UsersStore)
  : UsersStore :=
  if users_json_writable store
  then mkStore (DEFAULT_USERS store) (Some users) true
  else store.

(** An assignment [users[username][key] = ...] on the dictionary that
    [load_users] returned.  [copy()] being shallow, the inner dictionary
    is the one of [DEFAULT_USERS] when the users did not come from the
    file. *)
Definition set_inner (username : string) (user : User) (store : UsersStore)
  : UsersStore :=
  match users_json store with
  | Some _ => store
  | None =>
      mkStore (<[username := user]> (DEFAULT_USERS store)) None
              (users_json_writable store)
  end.

(** [initialize_session_state()] on a fresh session. *)
Definition initialize_session_state : AuthState :=
  mkAuth false None None None ∅ None.

Definition logout_user (s : AuthState) : AuthState :=
  mkAuth false None None None (login_attempts s) None.

(** [is_session_valid()]: the answer and the session state after it. *)
Definition is_session_valid (now : Z) (s : AuthState) : bool * AuthState :=
  if negb (authenticated s) then (false, s)
  else
    match login_time s with
    | None => (false, s)
    | Some login_time =>
        let session_duration := now - login_time in
        if session_duration >? timedelta_minutes session_timeout_minutes
        then (false, logout_user s)
        else (true, s)
    end.

(** The warning of [is_session_valid] for a session it accepts: shown when
    [Some minutes_left]. *)
Definition expiry_warning (now login_time : Z) : option Z :=
  let minutes_left := session_timeout_minutes - whole_minutes (now - login_time) in
  if minutes_left <=? auto_logout_warning_minutes then Some minutes_left
  else None.

Definition refresh_session (now : Z) (s : AuthState) : bool * AuthState :=
  if authenticated s
  then (true, mkAuth (authenticated s) (username s) (user_role s) (Some now)
                     (login_attempts s) (session_token s))
  else (false, s).

Record SessionInfo := mkInfo {
  info_username : option string;
  info_role : option string;
  info_login_time : Z;
  info_session_duration : Z;
  info_minutes_left : Z;
  info_needs_refresh : bool
}.

Definition get_session_info (now : Z) (s : AuthState)
  : Result (option SessionInfo) :=
  if negb (authenticated s) then Ok None
  else
    match login_time s with
    | None => TypeError
    | Some login_time =>
        let session_duration := now - login_time in
        let minutes_left :=
          session_timeout_minutes - whole_minutes session_duration in
        Ok (Some (mkInfo (username s) (user_role s) login_time session_duration
                         (Z.max 0 minutes_left)
                         (minutes_left <=? session_refresh_threshold_minutes)))
    end.

Definition set_login_attempts (login_attempts : gmap string AttemptsData)
    (s : AuthState) : AuthState :=
  mkAuth (authenticated s) (username s) (user_role s) (login_time s)
         login_attempts (session_token s).

Definition is_user_locked_out (username : string) (now : Z) (s : AuthState)
  : Result (bool * AuthState) :=
  match login_attempts s !! username with
  | None => Ok (false, s)
  | Some attempts_data =>
      if count attempts_data <? max_login_attempts then Ok (false, s)
      else
        match lockout_time attempts_data with
        | None => TypeError
        | Some lockout_time =>
            if now - lockout_time >? timedelta_minutes lockout_duration_minutes
            then Ok (false,
                     set_login_attempts
                       (<[username := mkAttempts 0 None]> (login_attempts s)) s)
            else Ok (true, s)
        end
  end.

Definition record_failed_login (username : string) (now : Z) (s : AuthState)
  : AuthState :=
  let attempts_data :=
    default (mkAttempts 0 None) (login_attempts s !! username) in
  let count := count attempts_data + 1 in
  set_login_attempts
    (<[username :=
         mkAttempts count
           (if count >=? max_login_attempts then Some now
            else lockout_time attempts_data)]> (login_attempts s)) s.

Definition reset_login_attempts (username : string) (s : AuthState)
  : AuthState :=
  match login_attempts s !! username with
  | Some _ =>
      set_login_attempts (<[username := mkAttempts 0 None]> (login_attempts s)) s
  | None => s
  end.

(** [authenticate_user(username, password)].  The clock is read once in
    [is_user_locked_out] ([now]) and once more ([later]) where the failure
    or the login is recorded; [token] is what [secrets.token_urlsafe]
    gives. *)
Definition authenticate_user `{Sha256} (username password : string)
    (now later : Z) (token : string) (store : UsersStore) (s : AuthState)
  : Result (bool * AuthState) :=
  match is_user_locked_out username now s with
  | TypeError => TypeError
  | Ok (true, s) => Ok (false, s)
  | Ok (false, s) =>
      let users := load_users store in
      match users !! username with
      | None => Ok (false, record_failed_login username later s)
      | Some user =>
          if negb (verify_password password (password_hash user))
          then Ok (false, record_failed_login username later s)
          else
            let s := reset_login_attempts username s in
            Ok (true, mkAuth true (Some username) (Some (role user))
                             (Some later) (login_attempts s) (Some token))
      end
  end.

(** What [show_login_form()] does with a submitted form. *)
Definition show_login_form `{Sha256} (username password : string)
    (now later : Z) (token : string) (store : UsersStore) (s : AuthState)
  : Result AuthState :=
  if decide (username = "" ∨ password = "") then Ok s
  else
    match authenticate_user username password now later token store s with
    | Ok (_, s) => Ok s
    | TypeError => TypeError
    end.

Definition create_new_user `{Sha256} (username password role : string)
    (now : Z) (s : AuthState) (store : UsersStore) : bool * UsersStore :=
  if decide (user_role s ≠ Some "admin") then (false, store)
  else
    let users := load_users store in
    match users !! username with
    | Some _ => (false, store)
    | None =>
        (true,
         save_users
           (<[username := mkUser (hash_password password) role now]> users)
           store)
    end.

Definition get_all_users (s : AuthState) (store : UsersStore)
  : gmap string User :=
  if decide (user_role s ≠ Some "admin") then ∅ else load_users store.

Definition delete_user (username : string) (s : AuthState)
    (store : UsersStore) : bool * UsersStore :=
  if decide (user_role s ≠ Some "admin") then (false, store)
  else if decide (username = "admin") then (false, store)
  else
    let users := load_users store in
    match users !! username with
    | Some _ => (true, save_users (delete username users) store)
    | None => (false, store)
    end.

Definition update_user_password `{Sha256} (username new_password : string)
    (s : AuthState) (store : UsersStore) : bool * UsersStore :=
  if decide (user_role s ≠ Some "admin") then (false, store)
  else
    let users := load_users store in
    match users !! username with
    | Some user =>
        let user :=
          mkUser (hash_password new_password) (role user) (created_at user) in
        (true,
         save_users (<[username := user]> users) (set_inner username user store))
    | None => (false, store)
    end.

Definition update_user_role (username new_role : string) (s : AuthState)
    (store : UsersStore) : bool * UsersStore :=
  if decide (user_role s ≠ Some "admin") then (false, store)
  else if decide (username = "admin") then (false, store)
  else
    let users := load_users store in
    match users !! username with
    | Some user =>
        let user := mkUser (password_hash user) new_role (created_at user) in
        (true,
         save_users (<[username := user]> users) (set_inner username user store))
    | None => (false, store)
    end.

(** A call of one of the module's functions, with what it reads from the
    form, the clock and the token generator. *)
Inductive Call :=
  | call_is_session_valid (now : Z)
  | call_refresh_session (now : Z)
  | call_get_session_info (now : Z)
  | call_is_user_locked_out (username : string) (now : Z)
  | call_record_failed_login (username : string) (now : Z)
  | call_reset_login_attempts (username : string)
  | call_authenticate_user (username password : string) (now later : Z)
                           (token : string)
  | call_show_login_form (username password : string) (now later : Z)
                         (token : string)
  | call_logout_user
  | call_create_new_user (username password role : string) (now : Z)
  | call_delete_user (username : string)
  | call_update_user_password (username new_password : string)
  | call_update_user_role (username new_role : string).

(** The users and the session state after a call; [TypeError] when the
    call raises. *)
Definition call `{Sha256} (c : Call) (st : UsersStore * AuthState)
  : Result (UsersStore * AuthState) :=
  let '(store, s) := st in
  match c with
  | call_is_session_valid now => Ok (store, (is_session_valid now s).2)
  | call_refresh_session now => Ok (store, (refresh_session now s).2)
  | call_get_session_info now =>
      match get_session_info now s with
      | Ok _ => Ok (store, s)
      | TypeError => TypeError
      end
  | call_is_user_locked_out username now =>
      match is_user_locked_out username now s with
      | Ok (_, s) => Ok (store, s)
      | TypeError => TypeError
      end
  | call_record_failed_login username now =>
      Ok (store, record_failed_login username now s)
  | call_reset_login_attempts username =>
      Ok (store, reset_login_attempts username s)
  | call_authenticate_user username password now later token =>
      match authenticate_user username password now later token store s with
      | Ok (_, s) => Ok (store, s)
      | TypeError => TypeError
      end
  | call_show_login_form username password now later token =>
      match show_login_form username password now later token store s with
      | Ok s => Ok (store, s)
      | TypeError => TypeError
      end
  | call_logout_user => Ok (store, logout_user s)
  | call_create_new_user username password role now =>
      Ok ((create_new_user username password role now s store).2, s)
  | call_delete_user username => Ok ((delete_user username s store).2, s)
  | call_update_user_password username new_password =>
      Ok ((update_user_password username new_password s store).2, s)
  | call_update_user_role username new_role =>
      Ok ((update_user_role username new_role s store).2, s)
  end.

(** A series of calls, stopped by the first that raises. *)
Fixpoint calls `{Sha256} (cs : list Call) (st : UsersStore * AuthState)
  : Result (UsersStore * AuthState) :=
  match cs with
  | [] => Ok st
  | c :: cs =>
      match call c st with
      | Ok st => calls cs st
      | TypeError => TypeError
      end
  end.

(** A login attempt, with the users as they are when it is made. *)
Record LoginAttempt := mkAttempt {
  att_store : UsersStore;
  att_username : string;
  att_password : string;
  att_now : Z;
  att_later : Z;
  att_token : string
}.

Definition attempt `{Sha256} (a : LoginAttempt) (s : AuthState)
  : Result (bool * AuthState) :=
  authenticate_user (att_username a) (att_password a) (att_now a) (att_later a)
                    (att_token a) (att_store a) s.

(** The session state after a series of login attempts. *)
Fixpoint attempts `{Sha256} (l : list LoginAttempt) (s : AuthState)
  : Result AuthState :=
  match l with
  | [] => Ok s
  | a :: l =>
      match attempt a s with
      | Ok (_, s) => attempts l s
      | TypeError => TypeError
      end
  end.

(** The attempt names no user with this password. *)
Definition wrong_credentials `{Sha256} (a : LoginAttempt) : Prop :=
  match load_users (att_store a) !! att_username a with
  | None => True
  | Some user => verify_password (att_password a) (password_hash user) = false
  end.

(** The failures recorded for a user. *)
Definition recorded_failures (s : AuthState) (username : string) : Z :=
  default 0 (count <$> login_attempts s !! username).

(** The time from which the lockout of a user counts once the attempts
    [mine], still to come, are made: the time of the last of them. *)
Definition lock_time (s : AuthState) (username : string)
    (mine : list LoginAttempt) : option Z :=
  match last mine with
  | Some a => Some (att_later a)
  | None => login_attempts s !! username ≫= lockout_time
  end.

(** A counter at the limit has its lockout time, and a session that is
    authenticated has its login time. *)
Definition attempts_ok (s : AuthState) : Prop :=
  ∀ username attempts_data,
    login_attempts s !! username = Some attempts_data →
    max_login_attempts ≤ count attempts_data →
    is_Some (lockout_time attempts_data).

Definition session_ok (s : AuthState) : Prop :=
  authenticated s = true → is_Some (login_time s).

(** ** Example tables *)

(** A digest, users and an administrator's session for the examples of
    the authentication. *)
Definition ex_digest : Sha256 := λ password, "#" +:+ password.

Definition ex_store : UsersStore :=
  mkStore (DEFAULT_USERS_at_import 0) None false.

Definition ex_admin : AuthState :=
  mkAuth true (Some "aman") (Some "admin") (Some 0) ∅ (Some "token").

(** The same users with a file that can be written, and users read from a
    file. *)
Definition ex_writable_store : UsersStore :=
  mkStore (DEFAULT_USERS_at_import 0) None true.

Definition ex_file_store : UsersStore :=
  mkStore (DEFAULT_USERS_at_import 0)
          (Some {[ "admin" := mkUser "#root" "admin" 0;
                   "bob" := mkUser "#secret" "user" 1 ]})
          true.

(** Three wrong guesses for aman, with an attempt for bob in between. *)
Definition ex_wrong (now later : Z) : LoginAttempt :=
  mkAttempt ex_store "aman" "guess" now later "token".

Definition ex_attempts : list LoginAttempt :=
  [ex_wrong 1 2; mkAttempt ex_file_store "bob" "secret" 5 6 "token";
   ex_wrong 3 4; ex_wrong 7 8].

(** Scenario 1: the cheaper supplier covers P1. *)
Definition ex1_orders : list OrderRow := [mkOrder "P1" 10].
Definition ex1_quotes : list QuoteRow :=
  [mkQuote "SupplierA" "P1" 5 6; mkQuote "SupplierB" "P1" 4 20].

(** Scenario 2: the offers for P2 fall short by 2. *)
Definition ex2_orders : list OrderRow := [mkOrder "P2" 10].
Definition ex2_quotes : list QuoteRow :=
  [mkQuote "SupplierA" "P2" 5 4; mkQuote "SupplierB" "P2" 6 4].

(** Scenario 3: P3 is pinned to SupplierC, who quotes 3 of the 10. *)
Definition ex3_orders : list OrderRow := [mkOrder "P3" 10].
Definition ex3_quotes : list QuoteRow :=
  [mkQuote "SupplierC" "P3" 8 3; mkQuote "SupplierD" "P3" 3 20].
Definition ex3_selections : gmap string string := {[ "P3" := "SupplierC" ]}.

(** Clicks in the selection table of scenario 3: on SupplierD's cell in the
    row of P3, the column given by name, and on SupplierC's cell in the same
    row, given by positions. *)
Definition ex3_click_D : SelectionEvent :=
  mkEvent [(0, ColName "SupplierD")] [] [].
Definition ex3_click_C_by_position : SelectionEvent :=
  mkEvent [] [0] [ColIndex 3].

(** Scenario 4, with a cheaper supplier beside the pinned one. *)
Definition ex4_orders : list OrderRow := [mkOrder "P4" 5].
Definition ex4_quotes : list QuoteRow :=
  [mkQuote "SupplierE" "P4" 10 10; mkQuote "SupplierF" "P4" 2 50].
Definition ex4_selections : gmap string string := {[ "P4" := "SupplierE" ]}.

(** Scenario 5, with P5 ordered in two rows: no offer names P5. *)
Definition ex5_orders : list OrderRow := [mkOrder "P5" 5; mkOrder "P5" 7].
Definition ex5_quotes : list QuoteRow := [mkQuote "SupplierA" "P1" 5 6].

(** Scenario 6: P6 is pinned to SupplierX, who has no offer for it. *)
Definition ex6_orders : list OrderRow := [mkOrder "P6" 5].
Definition ex6_quotes : list QuoteRow :=
  [mkQuote "SupplierA" "P6" 4 20; mkQuote "SupplierB" "P6" 6 20].
Definition ex6_selections : gmap string string := {[ "P6" := "SupplierX" ]}.

(** SupplierA quotes P7 twice. *)
Definition ex7_orders : list OrderRow := [mkOrder "P7" 10].
Definition ex7_quotes : list QuoteRow :=
  [mkQuote "SupplierA" "P7" 5 4; mkQuote "SupplierA" "P7" 6 4].


(** Two sessions with the same tables and selections, holding different
    lists from earlier runs. *)
Definition ex9_session_1 : Session :=
  mkSession ex3_orders ex3_quotes ex3_selections [] [].
Definition ex9_session_2 : Session :=
  mkSession ex3_orders ex3_quotes ex3_selections []
            [mkLine "P3" "SupplierD" 10 3 30 "Auto-Optimized"].

(** P2 falls short by 2 and nobody quotes P5. *)
Definition ex11_orders : list OrderRow := [mkOrder "P2" 10; mkOrder "P5" 5].

(** Two offers at the same price. *)
Definition ex8_orders : list OrderRow := [mkOrder "P8" 5].
Definition ex8_quotes : list QuoteRow :=
  [mkQuote "SupplierA" "P8" 5 5; mkQuote "SupplierB" "P8" 5 5].

(** ** Structure of the allocation list *)

Lemma unique_elem_of (l : list string) (x : string) : x ∈ unique l ↔ x ∈ l.
Proof.
  induction l as [|y l IH]; simpl; [done|].
  rewrite !elem_of_cons, list_elem_of_filter, IH.
  destruct (decide (x = y)); tauto.
Qed.

Lemma unique_NoDup (l : list string) : NoDup (unique l).
Proof.
  induction l as [|y l IH]; simpl; [constructor|].
  constructor; [|by apply NoDup_filter].
  rewrite list_elem_of_filter. tauto.
Qed.

Lemma auto_walk_part part qty_needed rows :
  Forall (λ l, PartNumber l = part) (auto_walk part qty_needed rows).1.
Proof.
  revert qty_needed. induction rows as [|q rows IH]; intros qty_needed; simpl.
  - constructor.
  - destruct (qty_needed <=? 0); [constructor|].
    destruct (Z.min qty_needed (quote_AvailableQty q) >? 0); [|apply IH].
    specialize (IH (qty_needed - Z.min qty_needed (quote_AvailableQty q))).
    destruct (auto_walk _ _ rows). simpl in *. by constructor.
Qed.

Lemma remaining_walk_part part remaining_qty rows :
  Forall (λ l, PartNumber l = part) (remaining_walk part remaining_qty rows).1.
Proof.
  revert remaining_qty.
  induction rows as [|q rows IH]; intros remaining_qty; simpl.
  - constructor.
  - destruct (remaining_qty <=? 0); [constructor|].
    specialize (IH (remaining_qty - Z.min remaining_qty (quote_AvailableQty q))).
    destruct (remaining_walk _ _ rows). simpl in *. by constructor.
Qed.

Section structure.
Context {PS : PriceSort}.

Lemma manual_branch_part quotes_df part selected_supplier qty_needed :
  Forall (λ l, PartNumber l = part)
         (manual_branch quotes_df part selected_supplier qty_needed).1.
Proof.
  unfold manual_branch.
  destruct (quotes_of_selected _ _ _) as [|supplier_quote ?]; [constructor|].
  destruct (_ >=? _); [by repeat constructor|].
  pose proof (remaining_walk_part part
    (qty_needed - quote_AvailableQty supplier_quote)
    (sort_values (quotes_of_others quotes_df part selected_supplier))) as Hw.
  destruct (remaining_walk _ _ _). simpl in *. by constructor.
Qed.

Lemma allocate_part_part orders quotes_df supplier_selections part :
  Forall (λ l, PartNumber l = part)
         (allocate_part orders quotes_df supplier_selections part).
Proof.
  unfold allocate_part.
  destruct (part_orders orders part) as [|qty_needed ?]; [constructor|].
  assert (∀ r : list AllocationLine * Z,
    Forall (λ l, PartNumber l = part) r.1 →
    Forall (λ l, PartNumber l = part)
      (let '(lines, leftover) := r in
       if leftover >? 0 then lines ++ [shortage_line part leftover] else lines))
    as Hfin.
  { intros [lines leftover] Hl. simpl in *.
    destruct (leftover >? 0); [|done].
    apply Forall_app. split; [done|]. by repeat constructor. }
  destruct (supplier_selections !! part) as [selected_supplier|].
  - apply Hfin, manual_branch_part.
  - apply Hfin, auto_walk_part.
Qed.

Lemma lines_of_part_concat_None (f : string → list AllocationLine)
    (parts : list string) (part : string) :
  (∀ p, Forall (λ l, PartNumber l = p) (f p)) →
  part ∉ parts →
  lines_of_part part (concat (f <$> parts)) = [].
Proof.
  intros Hf. unfold lines_of_part.
  induction parts as [|p parts IH]; intros Hp; [done|].
  apply not_elem_of_cons in Hp as [Hp1 Hp2].
  csimpl. rewrite filter_app, IH, app_nil_r by done.
  specialize (Hf p). induction Hf as [|l ls Hl _ IHl]; [done|].
  rewrite filter_cons_False; [done|congruence].
Qed.

Lemma lines_of_part_concat (f : string → list AllocationLine)
    (parts : list string) (part : string) :
  (∀ p, Forall (λ l, PartNumber l = p) (f p)) →
  NoDup parts → part ∈ parts →
  lines_of_part part (concat (f <$> parts)) = f part.
Proof.
  intros Hf. unfold lines_of_part.
  assert (∀ p, p ≠ part → filter (λ l, PartNumber l = part) (f p) = []) as Hne.
  { intros p Hp. specialize (Hf p).
    induction Hf as [|l ls Hl _ IH]; [done|].
    rewrite filter_cons_False; [done|congruence]. }
  assert (filter (λ l, PartNumber l = part) (f part) = f part) as Heq.
  { specialize (Hf part).
    induction Hf as [|l ls Hl _ IH]; [done|].
    by rewrite filter_cons_True, IH. }
  induction parts as [|p parts IH]; intros Hnd Hin.
  - by apply elem_of_nil in Hin.
  - apply NoDup_cons in Hnd as [Hp Hnd]. csimpl. rewrite filter_app.
    destruct (decide (p = part)) as [->|Hpp].
    + rewrite Heq.
      pose proof (lines_of_part_concat_None f parts part Hf Hp) as Hnone.
      unfold lines_of_part in Hnone. by rewrite Hnone, app_nil_r.
    + rewrite Hne by done. apply IH; [done|].
      by apply elem_of_cons in Hin as [->|Hin].
Qed.

(** The lines of an ordered part are those of its own iteration. *)
Lemma lines_of_part_final orders quotes_df supplier_selections part :
  part ∈ order_PartNumber <$> orders →
  lines_of_part part (final_allocation orders quotes_df supplier_selections)
  = allocate_part orders quotes_df supplier_selections part.
Proof.
  intros Hin. unfold final_allocation.
  apply lines_of_part_concat.
  - intros p. apply allocate_part_part.
  - apply unique_NoDup.
  - by apply unique_elem_of.
Qed.
End structure.

Lemma qty_required_Some orders part qty :
  qty_required orders part = Some qty →
  part ∈ order_PartNumber <$> orders ∧
  ∃ rest, part_orders orders part = qty :: rest.
Proof.
  unfold qty_required, part_orders. intros Hq. split.
  - destruct (filter _ orders) as [|o os] eqn:Hf; [done|].
    assert (o ∈ filter (λ o, order_PartNumber o = part) orders) as Ho
      by (rewrite Hf; left).
    apply list_elem_of_filter in Ho as [<- Ho].
    by apply list_elem_of_fmap_2.
  - destruct (order_QtyRequired <$> _) as [|q qs]; [done|].
    simpl in Hq. injection Hq as ->. by exists qs.
Qed.

(** ** Manual selections *)

Section manual_selection.
Context {PS : PriceSort}.


(** The allocation of a pinned part whose pinned supplier has no offer
    for it: nothing is allocated and the whole quantity is a shortage. *)
Lemma allocate_part_absent orders quotes_df
    (supplier_selections : gmap string string) part supplier qty :
  qty_required orders part = Some qty →
  0 < qty →
  supplier_selections !! part = Some supplier →
  quotes_of_selected quotes_df part supplier = [] →
  allocate_part orders quotes_df supplier_selections part
  = [shortage_line part qty].
Proof.
  intros Hqty Hpos Hsel Hq.
  apply qty_required_Some in Hqty as [_ [rest Hrest]].
  unfold allocate_part, manual_branch. rewrite Hrest, Hsel, Hq.
  rewrite Z.gtb_ltb. by destruct (Z.ltb_spec 0 qty); [|lia].
Qed.
End manual_selection.

(** ** The greedy walk *)

Lemma total_qty_cons l ls : total_qty (l :: ls) = QtyAllocated l + total_qty ls.
Proof. reflexivity. Qed.

Lemma total_qty_app ls1 ls2 : total_qty (ls1 ++ ls2) = total_qty ls1 + total_qty ls2.
Proof.
  induction ls1 as [|l ls1 IH]; [done|].
  simpl. rewrite !total_qty_cons, IH. lia.
Qed.

Lemma total_cost_cons l ls :
  total_cost (l :: ls) = QtyAllocated l * UnitPrice l + total_cost ls.
Proof. reflexivity. Qed.

Lemma total_cost_app ls1 ls2 :
  total_cost (ls1 ++ ls2) = total_cost ls1 + total_cost ls2.
Proof.
  induction ls1 as [|l ls1 IH]; [done|].
  simpl. rewrite !total_cost_cons, IH. lia.
Qed.

(** One step of the walk, on a row that is reached with a positive need. *)
Lemma auto_walk_cons part qty_needed quote rest :
  0 ≤ qty_needed → 0 ≤ quote_AvailableQty quote →
  let alloc_qty := Z.min qty_needed (quote_AvailableQty quote) in
  let tail := auto_walk part (qty_needed - alloc_qty) rest in
  total_qty (auto_walk part qty_needed (quote :: rest)).1
    = alloc_qty + total_qty tail.1
  ∧ total_cost (auto_walk part qty_needed (quote :: rest)).1
    = alloc_qty * quote_UnitPrice quote + total_cost tail.1
  ∧ (auto_walk part qty_needed (quote :: rest)).2 = tail.2.
Proof.
  intros Hq Ha. simpl.
  destruct (Z.leb_spec qty_needed 0) as [Hle|Hlt].
  - assert (qty_needed = 0) as -> by lia.
    rewrite Z.min_l by lia. rewrite Z.sub_0_r.
    destruct rest; simpl; done.
  - rewrite Z.gtb_ltb.
    destruct (Z.ltb_spec 0 (Z.min qty_needed (quote_AvailableQty quote)))
      as [Hpos|Hnpos].
    + destruct (auto_walk part _ rest) as [lines leftover]; simpl.
      rewrite total_qty_cons, total_cost_cons. simpl. done.
    + assert (Z.min qty_needed (quote_AvailableQty quote) = 0) as -> by lia.
      rewrite Z.sub_0_r. lia.
Qed.

Lemma auto_walk_conserve part qty_needed rows :
  0 ≤ qty_needed →
  total_qty (auto_walk part qty_needed rows).1
    + (auto_walk part qty_needed rows).2 = qty_needed
  ∧ 0 ≤ (auto_walk part qty_needed rows).2.
Proof.
  revert qty_needed. induction rows as [|q rows IH]; intros qty_needed Hq.
  - simpl. unfold total_qty. simpl. lia.
  - simpl. destruct (Z.leb_spec qty_needed 0).
    + simpl. unfold total_qty. simpl. lia.
    + rewrite Z.gtb_ltb.
      destruct (Z.ltb_spec 0 (Z.min qty_needed (quote_AvailableQty q))).
      * specialize (IH (qty_needed - Z.min qty_needed (quote_AvailableQty q))).
        destruct (auto_walk part _ rows) as [lines leftover]; simpl in *.
        rewrite total_qty_cons. simpl. lia.
      * by apply IH.
Qed.

Lemma auto_walk_source part qty_needed rows :
  Forall (λ l, AllocationSource l = "Auto-Optimized"%string)
         (auto_walk part qty_needed rows).1.
Proof.
  revert qty_needed. induction rows as [|q rows IH]; intros qty_needed; simpl.
  - constructor.
  - destruct (qty_needed <=? 0); [constructor|].
    destruct (_ >? 0); [|apply IH].
    specialize (IH (qty_needed - Z.min qty_needed (quote_AvailableQty q))).
    destruct (auto_walk part _ rows). simpl in *. by constructor.
Qed.

(** Every emitted line takes its supplier and price from one of the rows,
    and no more than that row's availability. *)
Lemma auto_walk_rows (P : string → Z → Z → Prop) part qty_needed rows :
  Forall (λ r, ∀ a, 0 < a ≤ quote_AvailableQty r →
               P (quote_Supplier r) (quote_UnitPrice r) a) rows →
  Forall (λ l, P (Supplier l) (UnitPrice l) (QtyAllocated l))
         (auto_walk part qty_needed rows).1.
Proof.
  intros Hrows. revert qty_needed.
  induction Hrows as [|q rows Hq _ IH]; intros qty_needed; simpl.
  - constructor.
  - destruct (qty_needed <=? 0); [constructor|].
    rewrite Z.gtb_ltb.
    destruct (Z.ltb_spec 0 (Z.min qty_needed (quote_AvailableQty q))); [|apply IH].
    specialize (IH (qty_needed - Z.min qty_needed (quote_AvailableQty q))).
    destruct (auto_walk part _ rows). simpl in *.
    constructor; [|done]. simpl. apply Hq. lia.
Qed.


(** Over rows with positive availability the walk over
    [remaining_quotes] is the walk of the auto branch, with the source of
    its lines changed. *)
Lemma remaining_walk_auto part remaining_qty rows :
  Forall (λ r, quote_AvailableQty r > 0) rows →
  remaining_walk part remaining_qty rows
  = (relabel "Auto-Optimized (Remaining)" <$> (auto_walk part remaining_qty rows).1,
     (auto_walk part remaining_qty rows).2).
Proof.
  intros Hrows. revert remaining_qty.
  induction Hrows as [|q rows Hq _ IH]; intros remaining_qty; simpl; [done|].
  destruct (Z.leb_spec remaining_qty 0); [done|].
  rewrite Z.gtb_ltb.
  destruct (Z.ltb_spec 0 (Z.min remaining_qty (quote_AvailableQty q))); [|lia].
  rewrite IH. by destruct (auto_walk part _ rows).
Qed.

Lemma total_qty_relabel source lines :
  total_qty (relabel source <$> lines) = total_qty lines.
Proof.
  induction lines as [|l lines IH]; [done|].
  csimpl. by rewrite !total_qty_cons, IH.
Qed.

Lemma total_cost_relabel source lines :
  total_cost (relabel source <$> lines) = total_cost lines.
Proof.
  induction lines as [|l lines IH]; [done|].
  csimpl. by rewrite !total_cost_cons, IH.
Qed.

(** ** One part of the final allocation *)

Section one_part.
Context {PS : PriceSort}.

Lemma quotes_of_others_positive quotes_df part selected_supplier :
  Forall (λ r, quote_AvailableQty r > 0)
         (sort_values (quotes_of_others quotes_df part selected_supplier)).
Proof.
  rewrite sort_values_perm. apply Forall_forall. intros r Hr.
  apply list_elem_of_filter in Hr. tauto.
Qed.

(** The manual branch when the pinned supplier quotes less than needed:
    its line, then the walk of the auto branch over the other rows,
    relabelled. *)
Lemma manual_branch_partial quotes_df part selected_supplier qty_needed q :
  selected_quote quotes_df part selected_supplier = Some q →
  quote_AvailableQty q < qty_needed →
  let rest := auto_walk part (qty_needed - quote_AvailableQty q)
                (sort_values (quotes_of_others quotes_df part selected_supplier)) in
  manual_branch quotes_df part selected_supplier qty_needed
  = (mkLine part selected_supplier (quote_AvailableQty q) (quote_UnitPrice q)
            (quote_AvailableQty q * quote_UnitPrice q)
            "Manual Selection (Partial)"
       :: (relabel "Auto-Optimized (Remaining)" <$> rest.1),
     rest.2).
Proof.
  intros Hq Hlt. unfold selected_quote in Hq. unfold manual_branch.
  destruct (quotes_of_selected _ _ _) as [|q' ?]; [done|].
  simpl in Hq. injection Hq as ->.
  rewrite Z.geb_leb.
  destruct (Z.leb_spec qty_needed (quote_AvailableQty q)); [lia|].
  rewrite remaining_walk_auto by apply quotes_of_others_positive.
  reflexivity.
Qed.

Lemma manual_branch_conserve quotes_df part selected_supplier qty_needed :
  0 ≤ qty_needed →
  let r := manual_branch quotes_df part selected_supplier qty_needed in
  total_qty r.1 + r.2 = qty_needed ∧ 0 ≤ r.2
  ∧ Forall (λ l, ¬ is_shortage l) r.1.
Proof.
  intros Hq.
  destruct (selected_quote quotes_df part selected_supplier) as [q|] eqn:Hsel.
  - destruct (Z.le_gt_cases qty_needed (quote_AvailableQty q)) as [Hle|Hlt].
    + unfold selected_quote in Hsel. unfold manual_branch.
      destruct (quotes_of_selected _ _ _) as [|q' ?]; [done|].
      simpl in Hsel. injection Hsel as ->.
      rewrite Z.geb_leb.
      destruct (Z.leb_spec qty_needed (quote_AvailableQty q)); [|lia].
      simpl. rewrite total_qty_cons. simpl. unfold total_qty. simpl.
      split_and!; [lia|lia|]. by repeat constructor.
    + rewrite (manual_branch_partial _ _ _ _ q) by done. simpl.
      rewrite total_qty_cons, total_qty_relabel. simpl.
      pose proof (auto_walk_conserve part (qty_needed - quote_AvailableQty q)
        (sort_values (quotes_of_others quotes_df part selected_supplier)))
        as [Hsum Hpos]; [lia|].
      split_and!; [lia|lia|].
      constructor; [done|]. apply Forall_fmap, Forall_true. done.
  - unfold selected_quote in Hsel. unfold manual_branch.
    destruct (quotes_of_selected _ _ _); [|done].
    simpl. unfold total_qty. simpl. split_and!; [lia|lia|constructor].
Qed.

(** The shape of one part's allocation: the supplied lines, whose
    quantities leave [leftover] uncovered, then the shortage line when
    [leftover] is positive. *)
Lemma allocate_part_shape orders quotes_df
    (supplier_selections : gmap string string) part qty :
  qty_required orders part = Some qty →
  0 ≤ qty →
  ∃ lines leftover,
    allocate_part orders quotes_df supplier_selections part
    = (lines ++ if leftover >? 0 then [shortage_line part leftover] else [])%list
    ∧ total_qty lines + leftover = qty ∧ 0 ≤ leftover
    ∧ Forall (λ l, ¬ is_shortage l) lines.
Proof.
  intros Hqty Hpos.
  apply qty_required_Some in Hqty as [_ [rest Hrest]].
  unfold allocate_part. rewrite Hrest.
  destruct (supplier_selections !! part) as [selected_supplier|].
  - pose proof (manual_branch_conserve quotes_df part selected_supplier qty Hpos)
      as (Hsum & Hleft & Hsrc).
    destruct (manual_branch _ _ _ _) as [lines leftover]. simpl in *.
    exists lines, leftover. split_and!; try done.
    destruct (leftover >? 0); by rewrite ?app_nil_r.
  - pose proof (auto_walk_conserve part qty
      (sort_values (quotes_of_part quotes_df part)) Hpos) as [Hsum Hleft].
    pose proof (auto_walk_source part qty
      (sort_values (quotes_of_part quotes_df part))) as Hsrc.
    destruct (auto_walk _ _ _) as [lines leftover]. simpl in *.
    exists lines, leftover. split_and!; try done.
    + destruct (leftover >? 0); by rewrite ?app_nil_r.
    + eapply Forall_impl; [exact Hsrc|]. unfold is_shortage.
      intros l ->. done.
Qed.
End one_part.

(** ** The optimization engine, part by part *)

Lemma engine_walk_part part original_qty_needed qty_needed rows :
  Forall (λ l, eng_PartNumber l = part)
         (engine_walk part original_qty_needed qty_needed rows).1.
Proof.
  revert qty_needed. induction rows as [|q rows IH]; intros qty_needed; simpl.
  - constructor.
  - destruct (qty_needed <=? 0); [constructor|].
    destruct (_ >? 0); [|apply IH].
    specialize (IH (qty_needed - Z.min qty_needed (quote_AvailableQty q))).
    destruct (engine_walk _ _ _ rows). simpl in *. by constructor.
Qed.

(** The engine and the auto branch of the final allocation walk the rows
    alike: same lines, same uncovered quantity. *)
Lemma engine_walk_auto part original_qty_needed qty_needed rows :
  engine_walk part original_qty_needed qty_needed rows
  = (engine_line original_qty_needed <$> (auto_walk part qty_needed rows).1,
     (auto_walk part qty_needed rows).2).
Proof.
  revert qty_needed. induction rows as [|q rows IH]; intros qty_needed; simpl.
  - done.
  - destruct (qty_needed <=? 0); [done|].
    destruct (_ >? 0); [|apply IH].
    rewrite IH. by destruct (auto_walk part _ rows).
Qed.

Lemma engine_order_part {PS : PriceSort} quotes_df order :
  Forall (λ l, eng_PartNumber l = order_PartNumber order)
         (engine_order quotes_df order).
Proof.
  unfold engine_order.
  destruct (quotes_of_part quotes_df (order_PartNumber order)) as [|q qs].
  - by repeat constructor.
  - pose proof (engine_walk_part (order_PartNumber order)
      (order_QtyRequired order) (order_QtyRequired order)
      (sort_values (q :: qs))) as Hw.
    destruct (engine_walk _ _ _ _) as [lines leftover]. simpl in *.
    destruct (leftover =? 0); [done|].
    destruct (leftover <? _); [|done].
    apply Forall_app. split; [done|]. by repeat constructor.
Qed.

Lemma quotes_of_selected_of_part quotes_df part supplier :
  quotes_of_selected quotes_df part supplier
  = filter (λ r, quote_Supplier r = supplier) (quotes_of_part quotes_df part).
Proof.
  unfold quotes_of_selected, quotes_of_part.
  rewrite list_filter_filter. apply list_filter_iff. tauto.
Qed.

Lemma sort_values_nil {PS : PriceSort} : sort_values [] = [].
Proof. apply Permutation_nil_r, sort_values_perm. Qed.

(** ** Properties of the final allocation *)

Section final_allocation_properties.
Context {PS : PriceSort}.
Implicit Types (orders : list OrderRow) (quotes_df : list QuoteRow).
Implicit Types (supplier_selections : gmap string string).
Implicit Types (part supplier : string) (qty : Z).


(** C1, as the code has it. A part pinned to a supplier that has no offer
    for it is not allocated at all: whatever the other suppliers offer,
    its allocation is the single line "N/A (SHORTAGE)" carrying the whole
    [QtyRequired], with source "Shortage". *)
Theorem pin_without_offer orders quotes_df supplier_selections part supplier qty :
  qty_required orders part = Some qty →
  0 < qty →
  supplier_selections !! part = Some supplier →
  quotes_of_selected quotes_df part supplier = [] →
  lines_of_part part (final_allocation orders quotes_df supplier_selections)
  = [mkLine part "N/A (SHORTAGE)" qty 0 0 "Shortage"].
Proof.
  intros Hqty Hpos Hsel Hq.
  rewrite lines_of_part_final by (by apply qty_required_Some in Hqty as [? _]).
  by eapply allocate_part_absent.
Qed.

(** C2, as the code has it. An ordered part without any offer gets
    exactly one line in the final allocation, pinned or not: the line
    "N/A (SHORTAGE)" with [QtyAllocated] equal to the whole [QtyRequired],
    price 0 and source "Shortage".  The line "NOT AVAILABLE" with quantity
    0 and status "Not Available" is what the optimization engine appends
    to [optimized_allocation], once for each order row of the part. *)
Theorem no_offer_lines orders quotes_df supplier_selections part qty :
  qty_required orders part = Some qty →
  0 < qty →
  quotes_of_part quotes_df part = [] →
  lines_of_part part (final_allocation orders quotes_df supplier_selections)
  = [mkLine part "N/A (SHORTAGE)" qty 0 0 "Shortage"]
  ∧ filter (λ l, eng_PartNumber l = part) (optimized_allocation orders quotes_df)
    = (λ o, mkEngineLine part "NOT AVAILABLE" 0 0 0 (order_QtyRequired o)
                         "Not Available")
      <$> filter (λ o, order_PartNumber o = part) orders.
Proof.
  intros Hqty Hpos Hnone. split.
  - destruct (supplier_selections !! part) as [supplier|] eqn:Hsel.
    + rewrite lines_of_part_final
        by (by apply qty_required_Some in Hqty as [? _]).
      apply (allocate_part_absent _ _ _ _ supplier); try done.
      by rewrite quotes_of_selected_of_part, Hnone.
    + rewrite lines_of_part_final
        by (by apply qty_required_Some in Hqty as [? _]).
      apply qty_required_Some in Hqty as [_ [rest Hrest]].
      unfold allocate_part. rewrite Hrest, Hsel, Hnone, sort_values_nil.
      simpl. rewrite Z.gtb_ltb. by destruct (Z.ltb_spec 0 qty); [|lia].
  - clear Hqty Hpos. unfold optimized_allocation.
    induction orders as [|o orders IH]; [done|].
    csimpl. rewrite filter_app, IH. clear IH.
    destruct (decide (order_PartNumber o = part)) as [Ho|Ho].
    + rewrite (filter_cons_True _ o) by done. csimpl.
      unfold engine_order. rewrite Ho, Hnone. by rewrite filter_cons_True.
    + rewrite (filter_cons_False _ o) by done.
      pose proof (engine_order_part quotes_df o) as Hf.
      induction Hf as [|l ls Hl _ IHl]; [done|].
      rewrite filter_cons_False by congruence. apply IHl.
Qed.

(** C3. Conservation: for an ordered part (with offers or without), the
    [QtyAllocated] of its lines, the shortage line included, add up to its
    [QtyRequired]; the lines other than the shortage line cover at most
    [QtyRequired]; and what they leave uncovered is carried by exactly one
    line "N/A (SHORTAGE)" with [UnitPrice] 0 and source "Shortage", which
    is absent when nothing is left uncovered. *)
Theorem conservation orders quotes_df supplier_selections part qty :
  qty_required orders part = Some qty →
  0 < qty →
  let lines :=
    lines_of_part part (final_allocation orders quotes_df supplier_selections) in
  let supplied := filter (λ l, ¬ is_shortage l) lines in
  total_qty lines = qty
  ∧ total_qty supplied ≤ qty
  ∧ filter is_shortage lines
    = if decide (total_qty supplied < qty)
      then [mkLine part "N/A (SHORTAGE)" (qty - total_qty supplied) 0 0 "Shortage"]
      else [].
Proof.
  intros Hqty Hpos lines supplied. subst supplied lines.
  rewrite lines_of_part_final by (by apply qty_required_Some in Hqty as [? _]).
  destruct (allocate_part_shape orders quotes_df supplier_selections part qty)
    as (lines & leftover & -> & Hsum & Hleft & Hsrc); [done|lia|].
  assert (filter is_shortage lines = []) as Hno.
  { clear Hsum. induction Hsrc as [|l ls Hl _ IH]; [done|].
    by rewrite filter_cons_False. }
  assert (filter (λ l, ¬ is_shortage l) lines = lines) as Hall.
  { clear Hsum Hno. induction Hsrc as [|l ls Hl _ IH]; [done|].
    by rewrite filter_cons_True, IH. }
  rewrite !filter_app, total_qty_app, Hno, Hall, Z.gtb_ltb.
  destruct (Z.ltb_spec 0 leftover) as [Hl|Hl].
  - assert (filter is_shortage [shortage_line part leftover]
            = [shortage_line part leftover]) as -> by done.
    assert (filter (λ l, ¬ is_shortage l) [shortage_line part leftover] = [])
      as -> by done.
    rewrite app_nil_r. unfold shortage_line.
    rewrite total_qty_cons. simpl. unfold total_qty at 2. simpl.
    split_and!; [lia|lia|].
    destruct (decide _); [|lia]. do 2 f_equal. lia.
  - simpl. rewrite app_nil_r. unfold total_qty at 2. simpl.
    split_and!; [lia|lia|]. destruct (decide _); [lia|done].
Qed.


(** C9. Two runs of "Generate Final Allocation" on sessions with the same
    orders, quotes and selections store the same allocation list,
    whatever list each session held before; a run leaves the orders, the
    quotes and the selections as they were, so that running again changes
    nothing. *)
Theorem consolidation_idempotent (s1 s2 : Session) :
  st_orders s1 = st_orders s2 →
  st_quotes_df s1 = st_quotes_df s2 →
  st_supplier_selections s1 = st_supplier_selections s2 →
  st_final_allocation (generate_final_allocation s1)
  = st_final_allocation (generate_final_allocation s2)
  ∧ generate_final_allocation (generate_final_allocation s1)
    = generate_final_allocation s1
  ∧ st_orders (generate_final_allocation s1) = st_orders s1
  ∧ st_quotes_df (generate_final_allocation s1) = st_quotes_df s1
  ∧ st_supplier_selections (generate_final_allocation s1)
    = st_supplier_selections s1.
Proof.
  intros Ho Hq Hs. unfold generate_final_allocation. simpl.
  by rewrite Ho, Hq, Hs.
Qed.

(** *** Repeated order rows *)







(** *** Availability caps *)

Lemma sum_Z_cons x l : sum_Z (x :: l) = x + sum_Z l.
Proof. reflexivity. Qed.

Lemma sum_Z_app l1 l2 : sum_Z (l1 ++ l2) = sum_Z l1 + sum_Z l2.
Proof.
  induction l1 as [|x l1 IH]; [done|].
  rewrite <-app_comm_cons, !sum_Z_cons, IH. lia.
Qed.

Lemma sum_Z_perm l1 l2 : l1 ≡ₚ l2 → sum_Z l1 = sum_Z l2.
Proof.
  induction 1 as [|x l1 l2 _ IH|x y l|l1 l2 l3 _ IH1 _ IH2];
    rewrite ?sum_Z_cons; lia.
Qed.

Lemma sum_Z_nonneg l : Forall (λ x, 0 ≤ x) l → 0 ≤ sum_Z l.
Proof.
  induction 1 as [|x l Hx _ IH]; [done|]. rewrite sum_Z_cons. lia.
Qed.

Lemma lines_of_supplier_cons supplier l lines :
  lines_of_supplier supplier (l :: lines)
  = if decide (Supplier l = supplier)
    then l :: lines_of_supplier supplier lines
    else lines_of_supplier supplier lines.
Proof. unfold lines_of_supplier. by rewrite filter_cons. Qed.

Lemma lines_of_supplier_relabel supplier source lines :
  lines_of_supplier supplier (relabel source <$> lines)
  = relabel source <$> lines_of_supplier supplier lines.
Proof.
  unfold lines_of_supplier. induction lines as [|l lines IH]; [done|].
  csimpl. rewrite !filter_cons, IH. simpl.
  by destruct (decide (Supplier l = supplier)).
Qed.

(** A walk gives a supplier no more than its rows quote together. *)
Lemma auto_walk_cap supplier part qty_needed rows :
  Forall (λ r, 0 ≤ quote_AvailableQty r) rows →
  total_qty (lines_of_supplier supplier (auto_walk part qty_needed rows).1)
  ≤ sum_Z (quote_AvailableQty <$> filter (λ r, quote_Supplier r = supplier) rows).
Proof.
  intros Hrows. revert qty_needed.
  induction Hrows as [|q rows Hq Hrows IH]; intros qty_needed; [done|].
  assert (0 ≤ sum_Z (quote_AvailableQty <$>
                       filter (λ r, quote_Supplier r = supplier) rows)) as Hnn.
  { apply sum_Z_nonneg, Forall_fmap.
    apply Forall_forall. intros r Hr. apply list_elem_of_filter in Hr as [_ Hr].
    by eapply Forall_forall in Hrows. }
  assert (sum_Z (quote_AvailableQty <$>
                   filter (λ r, quote_Supplier r = supplier) rows)
          ≤ sum_Z (quote_AvailableQty <$>
                     filter (λ r, quote_Supplier r = supplier) (q :: rows)))
    as Hmono.
  { rewrite filter_cons. destruct (decide _); [|done].
    rewrite fmap_cons, sum_Z_cons. lia. }
  simpl auto_walk.
  destruct (Z.leb_spec qty_needed 0); [simpl; unfold total_qty; simpl; lia|].
  rewrite Z.gtb_ltb.
  destruct (Z.ltb_spec 0 (Z.min qty_needed (quote_AvailableQty q)));
    [|etrans; [apply IH|done]].
  specialize (IH (qty_needed - Z.min qty_needed (quote_AvailableQty q))).
  destruct (auto_walk part _ rows) as [lines leftover]. simpl in *.
  unfold lines_of_supplier in *. rewrite !filter_cons. simpl.
  destruct (decide (quote_Supplier q = supplier)); [|done].
  rewrite fmap_cons, total_qty_cons, sum_Z_cons. simpl. lia.
Qed.

Lemma others_offered quotes_df part selected_supplier supplier :
  Forall (λ r, 0 ≤ quote_AvailableQty r) quotes_df →
  sum_Z (quote_AvailableQty <$>
           filter (λ r, quote_Supplier r = supplier)
                  (quotes_of_others quotes_df part selected_supplier))
  ≤ offered quotes_df part supplier.
Proof.
  unfold offered, quotes_of_others, quotes_of_selected.
  induction 1 as [|q rows Hq _ IH]; [done|].
  rewrite (filter_cons _ q), (filter_cons (λ r, _ ∧ _ = supplier) q).
  destruct (decide (_ ∧ _ ∧ _)) as [(Hp & Hs & Ha)|Hn].
  - rewrite filter_cons.
    destruct (decide (quote_Supplier q = supplier)) as [Hsup|Hsup].
    + rewrite decide_True by done. rewrite !fmap_cons, !sum_Z_cons. lia.
    + rewrite decide_False by tauto. done.
  - destruct (decide (_ ∧ _)); [|done]. rewrite fmap_cons, sum_Z_cons. lia.
Qed.

Lemma selected_quote_offered quotes_df part supplier q :
  Forall (λ r, 0 ≤ quote_AvailableQty r) quotes_df →
  selected_quote quotes_df part supplier = Some q →
  quote_AvailableQty q ≤ offered quotes_df part supplier.
Proof.
  intros Hpos. unfold selected_quote, offered.
  assert (Forall (λ r, 0 ≤ quote_AvailableQty r)
                 (quotes_of_selected quotes_df part supplier)) as Hf.
  { apply Forall_forall. intros r Hr. apply list_elem_of_filter in Hr as [_ Hr].
    by eapply Forall_forall in Hpos. }
  destruct (quotes_of_selected _ _ _) as [|q' rows]; [done|].
  intros [= ->]. apply Forall_cons in Hf as [_ Hf].
  rewrite fmap_cons, sum_Z_cons.
  pose proof (sum_Z_nonneg (quote_AvailableQty <$> rows)) as Hnn.
  rewrite Forall_fmap in Hnn. specialize (Hnn Hf). lia.
Qed.

Lemma selected_quote_elem quotes_df part supplier q :
  selected_quote quotes_df part supplier = Some q →
  q ∈ quotes_df ∧ quote_PartNumber q = part ∧ quote_Supplier q = supplier.
Proof.
  unfold selected_quote. intros Hq.
  destruct (quotes_of_selected _ _ _) as [|q' rows] eqn:Hf; [done|].
  injection Hq as ->.
  assert (q ∈ quotes_of_selected quotes_df part supplier) as Hin
    by (rewrite Hf; left).
  apply list_elem_of_filter in Hin. tauto.
Qed.

Lemma selected_quote_nonneg quotes_df part supplier q :
  Forall (λ r, 0 ≤ quote_AvailableQty r) quotes_df →
  selected_quote quotes_df part supplier = Some q →
  0 ≤ quote_AvailableQty q.
Proof.
  intros Hpos Hq. apply selected_quote_elem in Hq as [Hq _].
  by eapply Forall_forall in Hpos.
Qed.

Lemma offered_nonneg quotes_df part supplier :
  Forall (λ r, 0 ≤ quote_AvailableQty r) quotes_df →
  0 ≤ offered quotes_df part supplier.
Proof.
  intros Hpos. unfold offered. apply sum_Z_nonneg, Forall_fmap.
  apply Forall_forall. intros r Hr. apply list_elem_of_filter in Hr as [_ Hr].
  by eapply Forall_forall in Hpos.
Qed.


Lemma manual_branch_full quotes_df part selected_supplier qty_needed q :
  selected_quote quotes_df part selected_supplier = Some q →
  qty_needed ≤ quote_AvailableQty q →
  manual_branch quotes_df part selected_supplier qty_needed
  = ([mkLine part selected_supplier qty_needed (quote_UnitPrice q)
             (qty_needed * quote_UnitPrice q) "Manual Selection"], 0).
Proof.
  unfold selected_quote, manual_branch. intros Hq Hle.
  destruct (quotes_of_selected _ _ _) as [|q' ?]; [done|].
  injection Hq as ->. rewrite Z.geb_leb.
  by destruct (Z.leb_spec qty_needed (quote_AvailableQty q)); [|lia].
Qed.

Lemma manual_branch_absent quotes_df part selected_supplier qty_needed :
  selected_quote quotes_df part selected_supplier = None →
  manual_branch quotes_df part selected_supplier qty_needed = ([], qty_needed).
Proof.
  unfold selected_quote, manual_branch.
  by destruct (quotes_of_selected _ _ _).
Qed.

Lemma sort_values_offered (rows : list QuoteRow) supplier :
  sum_Z (quote_AvailableQty <$>
           filter (λ r, quote_Supplier r = supplier) (sort_values rows))
  = sum_Z (quote_AvailableQty <$> filter (λ r, quote_Supplier r = supplier) rows).
Proof. apply sum_Z_perm. by rewrite sort_values_perm. Qed.

Lemma manual_branch_cap quotes_df part selected_supplier qty_needed supplier :
  Forall (λ r, 0 ≤ quote_AvailableQty r) quotes_df →
  let assigned :=
    total_qty (lines_of_supplier supplier
      (manual_branch quotes_df part selected_supplier qty_needed).1) in
  assigned ≤ offered quotes_df part supplier
  ∧ (supplier = selected_supplier →
     ∀ q, selected_quote quotes_df part selected_supplier = Some q →
          assigned ≤ quote_AvailableQty q).
Proof.
  intros Hpos assigned. subst assigned.
  pose proof (offered_nonneg quotes_df part supplier Hpos) as Hnn.
  destruct (selected_quote quotes_df part selected_supplier) as [q|] eqn:Hsel.
  - pose proof (selected_quote_offered _ _ _ _ Hpos Hsel) as Hq.
    destruct (Z.le_gt_cases qty_needed (quote_AvailableQty q)) as [Hle|Hlt].
    + rewrite (manual_branch_full _ _ _ _ q) by done. simpl.
      unfold lines_of_supplier. rewrite filter_cons. simpl.
      destruct (decide (selected_supplier = supplier)) as [->|Hne].
      * rewrite filter_nil, total_qty_cons. simpl. unfold total_qty. simpl.
        split; [lia|]. intros _ q' [= <-]. lia.
      * rewrite filter_nil. unfold total_qty. simpl.
        split; [lia|]. intros ->. done.
    + rewrite (manual_branch_partial _ _ _ _ q) by done. simpl.
      set (rows := sort_values (quotes_of_others quotes_df part selected_supplier)).
      set (w := auto_walk part (qty_needed - quote_AvailableQty q) rows).
      assert (Forall (λ r, 0 ≤ quote_AvailableQty r) rows) as Hrows.
      { subst rows. rewrite sort_values_perm. apply Forall_forall.
        intros r Hr. apply list_elem_of_filter in Hr. lia. }
      rewrite lines_of_supplier_cons, lines_of_supplier_relabel. simpl.
      destruct (decide (selected_supplier = supplier)) as [->|Hne].
      * assert (lines_of_supplier supplier w.1 = []) as ->.
        { assert (Forall (λ l, Supplier l ≠ supplier) w.1) as Hw.
          { apply (auto_walk_rows (λ s _ _, s ≠ supplier)).
            subst rows. rewrite sort_values_perm. apply Forall_forall.
            intros r Hr _ _. apply list_elem_of_filter in Hr. tauto. }
          unfold lines_of_supplier.
          induction Hw as [|l ls Hl _ IH]; [done|].
          by rewrite filter_cons_False. }
        rewrite total_qty_cons. simpl. unfold total_qty. simpl.
        split; [lia|]. intros _ q' [= <-]. lia.
      * split; [|by intros ->]. rewrite total_qty_relabel.
        etrans; [apply auto_walk_cap; exact Hrows|].
        subst rows. rewrite sort_values_offered. by apply others_offered.
  - rewrite manual_branch_absent by done. simpl.
    unfold total_qty. simpl. split; [lia|done].
Qed.

(** C7, as the code has it. Over quotes with positive availability, the
    quantity that the lines of a part give to a supplier (the shortage
    pseudo-supplier apart) never exceeds what the rows of that supplier
    for that part quote together: each row caps the line made from it.
    With a single row for the pair this is that row's [AvailableQty].
    Only for the pinned supplier of the part is the first row the one that
    counts: what it is given never exceeds the [AvailableQty] of its first
    row. *)
Theorem availability_cap orders quotes_df supplier_selections part supplier :
  Forall (λ r, quote_AvailableQty r > 0) quotes_df →
  supplier ≠ "N/A (SHORTAGE)" →
  let assigned :=
    total_qty (lines_of_supplier supplier
      (lines_of_part part
         (final_allocation orders quotes_df supplier_selections))) in
  assigned ≤ offered quotes_df part supplier
  ∧ (∀ q, quotes_of_selected quotes_df part supplier = [q] →
          assigned ≤ quote_AvailableQty q)
  ∧ (∀ q, supplier_selections !! part = Some supplier →
          selected_quote quotes_df part supplier = Some q →
          assigned ≤ quote_AvailableQty q).
Proof.
  intros Hpos' Hsup assigned.
  assert (Forall (λ r, 0 ≤ quote_AvailableQty r) quotes_df) as Hpos
    by (eapply Forall_impl; [exact Hpos'|]; intros r; simpl; lia).
  pose proof (offered_nonneg quotes_df part supplier Hpos) as Hnn.
  assert (assigned ≤ offered quotes_df part supplier
          ∧ (∀ q, supplier_selections !! part = Some supplier →
                  selected_quote quotes_df part supplier = Some q →
                  assigned ≤ quote_AvailableQty q)) as [Hall Hpin].
  { subst assigned.
    destruct (decide (part ∈ order_PartNumber <$> orders)) as [Hin|Hout].
    - rewrite lines_of_part_final by done. unfold allocate_part.
      destruct (part_orders orders part) as [|qty_needed ?].
      { unfold total_qty. simpl. split; [lia|].
        intros q _ Hq. by eapply selected_quote_nonneg. }
      assert (∀ lines leftover,
        lines_of_supplier supplier
          (if leftover >? 0 then lines ++ [shortage_line part leftover]
           else lines)
        = lines_of_supplier supplier lines) as Hshort.
      { intros lines leftover. destruct (leftover >? 0); [|done].
        unfold lines_of_supplier. rewrite filter_app.
        rewrite (filter_cons_False _ (shortage_line part leftover))
          by (simpl; congruence).
        by rewrite filter_nil, app_nil_r. }
      destruct (supplier_selections !! part) as [selected_supplier|].
      + pose proof (manual_branch_cap quotes_df part selected_supplier
          qty_needed supplier Hpos) as [Hcap Hfirst].
        destruct (manual_branch _ _ _ _) as [lines leftover].
        rewrite Hshort. simpl in *. split; [done|].
        intros q [= ->] Hq. by apply Hfirst.
      + pose proof (auto_walk_cap supplier part qty_needed
          (sort_values (quotes_of_part quotes_df part))) as Hcap.
        destruct (auto_walk _ _ _) as [lines leftover].
        rewrite Hshort. simpl in *. split; [|done].
        etrans; [apply Hcap|].
        * rewrite sort_values_perm. apply Forall_forall. intros r Hr.
          apply list_elem_of_filter in Hr as [_ Hr].
          by eapply Forall_forall in Hpos.
        * rewrite sort_values_offered. unfold offered.
          by rewrite quotes_of_selected_of_part.
    - unfold final_allocation.
      rewrite lines_of_part_concat_None.
      + unfold total_qty. simpl. split; [lia|].
        intros q _ Hq. by eapply selected_quote_nonneg.
      + intros p. apply allocate_part_part.
      + by rewrite unique_elem_of. }
  split_and!; [done| |done].
  intros q Hq. unfold offered in Hall. rewrite Hq in Hall.
  unfold sum_Z in Hall. simpl in Hall. lia.
Qed.


(** *** Cost minimality of the greedy walk *)

Lemma auto_walk_total part qty_needed rows :
  0 ≤ qty_needed →
  Forall (λ r, 0 ≤ quote_AvailableQty r) rows →
  total_qty (auto_walk part qty_needed rows).1
  = Z.min qty_needed (sum_Z (quote_AvailableQty <$> rows)).
Proof.
  intros Hq Hrows. revert qty_needed Hq.
  induction Hrows as [|r rows Hr Hrows IH]; intros qty_needed Hq.
  - simpl. unfold total_qty, sum_Z. simpl. lia.
  - destruct (auto_walk_cons part qty_needed r rows Hq Hr) as (-> & _ & _).
    rewrite IH by lia. rewrite fmap_cons, sum_Z_cons.
    pose proof (sum_Z_nonneg (quote_AvailableQty <$> rows)) as Hnn.
    rewrite Forall_fmap in Hnn. specialize (Hnn Hrows). lia.
Qed.

(** Over rows priced at [p] or more, a larger need is met at [p] or more
    for each unit it adds. *)
Lemma auto_walk_marginal part p rows qty_needed qty_needed' :
  Forall (λ r, p ≤ quote_UnitPrice r ∧ 0 ≤ quote_AvailableQty r) rows →
  0 ≤ qty_needed ≤ qty_needed' →
  p * (total_qty (auto_walk part qty_needed' rows).1
       - total_qty (auto_walk part qty_needed rows).1)
  ≤ total_cost (auto_walk part qty_needed' rows).1
    - total_cost (auto_walk part qty_needed rows).1.
Proof.
  intros Hrows. revert qty_needed qty_needed'.
  induction Hrows as [|r rows [Hp Hr] _ IH]; intros qty_needed qty_needed' Hq.
  - simpl. unfold total_qty, total_cost, sum_Z. simpl. lia.
  - destruct (auto_walk_cons part qty_needed r rows) as (-> & -> & _);
      [lia|done|].
    destruct (auto_walk_cons part qty_needed' r rows) as (-> & -> & _);
      [lia|done|].
    set (m := Z.min qty_needed (quote_AvailableQty r)).
    set (m' := Z.min qty_needed' (quote_AvailableQty r)).
    specialize (IH (qty_needed - m) (qty_needed' - m')).
    assert (0 ≤ (m' - m) * (quote_UnitPrice r - p)) by (subst m m'; nia).
    lia.
Qed.

Lemma feasible_qty rows xs :
  feasible rows xs →
  0 ≤ assignment_qty xs ≤ sum_Z (quote_AvailableQty <$> rows).
Proof.
  intros [<- Hxs]. unfold assignment_qty.
  induction Hxs as [|[r x] xs Hx _ IH]; [by unfold sum_Z|].
  rewrite !fmap_cons, !sum_Z_cons. simpl in *. lia.
Qed.

(** Among the assignments that take from rows in ascending price the
    total quantity the walk allocates, none costs less than the walk. *)
Lemma greedy_optimal part rows :
  StronglySorted price_le rows →
  Forall (λ r, 0 ≤ quote_AvailableQty r) rows →
  ∀ qty_needed xs,
    0 ≤ qty_needed →
    feasible rows xs →
    assignment_qty xs = total_qty (auto_walk part qty_needed rows).1 →
    total_cost (auto_walk part qty_needed rows).1 ≤ assignment_cost xs.
Proof.
  induction 1 as [|r rows Hsorted IH Hr]; intros Hrows qty_needed xs Hq Hxs Hqty.
  - destruct Hxs as [Hfst _]. apply fmap_nil_inv in Hfst as ->.
    simpl. by unfold total_cost, assignment_cost, sum_Z.
  - apply Forall_cons in Hrows as [Hav Hrows].
    destruct Hxs as [Hfst Hxs].
    apply fmap_cons_inv in Hfst as ([r' x] & xs' & Hr' & Hfst & ->).
    simpl in Hr'. subst r'. symmetry in Hfst.
    apply Forall_cons in Hxs as [Hx Hxs]. simpl in Hx.
    assert (feasible rows xs') as Hfeas by done.
    pose proof (feasible_qty rows xs' Hfeas) as Hbound.
    destruct (auto_walk_cons part qty_needed r rows Hq Hav) as (HG & -> & _).
    rewrite HG in Hqty. clear HG.
    set (m := Z.min qty_needed (quote_AvailableQty r)) in *.
    unfold assignment_qty in Hqty. rewrite fmap_cons, sum_Z_cons in Hqty.
    fold (assignment_qty xs') in Hqty. simpl in Hqty.
    unfold assignment_cost. rewrite fmap_cons, sum_Z_cons.
    fold (assignment_cost xs'). simpl.
    pose proof (auto_walk_total part (qty_needed - m) rows) as Hrest.
    rewrite Hrest in Hqty by (done || lia).
    assert (x ≤ m) as Hxm by lia.
    pose proof (auto_walk_total part (qty_needed - x) rows) as Hmore.
    assert (assignment_qty xs'
            = total_qty (auto_walk part (qty_needed - x) rows).1) as Hqty'
      by (rewrite Hmore by (done || lia); lia).
    specialize (IH Hrows (qty_needed - x) xs').
    pose proof (auto_walk_marginal part (quote_UnitPrice r) rows
      (qty_needed - m) (qty_needed - x)) as Hmarg.
    rewrite Hrest, Hmore in Hmarg by (done || lia).
    assert (Z.min (qty_needed - x) (sum_Z (quote_AvailableQty <$> rows))
            - Z.min (qty_needed - m) (sum_Z (quote_AvailableQty <$> rows))
            = m - x) as Hdiff by lia.
    rewrite Hdiff in Hmarg.
    assert (total_cost (auto_walk part (qty_needed - x) rows).1
            ≤ assignment_cost xs') as Hih by (apply IH; (done || lia)).
    assert (quote_UnitPrice r * (m - x)
            ≤ total_cost (auto_walk part (qty_needed - x) rows).1
              - total_cost (auto_walk part (qty_needed - m) rows).1) as Hm.
    { apply Hmarg; [|lia]. apply Forall_forall. intros r' Hr'.
      split; [by eapply Forall_forall in Hr|by eapply Forall_forall in Hrows]. }
    lia.
Qed.

Lemma fst_Permutation_inv (xs : list (QuoteRow * Z)) (rows : list QuoteRow) :
  xs.*1 ≡ₚ rows → ∃ xs', xs' ≡ₚ xs ∧ xs'.*1 = rows.
Proof.
  intros Hperm. remember (xs.*1) as l eqn:Hl. revert xs Hl.
  induction Hperm as [|r l l' _ IH|r1 r2 l|l1 l2 l3 _ IH1 _ IH2]; intros xs Hl.
  - symmetry in Hl. apply fmap_nil_inv in Hl as ->. by exists [].
  - symmetry in Hl. apply fmap_cons_inv in Hl as (rx & xs1 & -> & -> & ->).
    destruct (IH xs1 eq_refl) as (xs' & Hp & <-).
    exists (rx :: xs'). split; [by constructor|done].
  - symmetry in Hl. apply fmap_cons_inv in Hl as (rx2 & xs1 & -> & Hl & ->).
    symmetry in Hl. apply fmap_cons_inv in Hl as (rx1 & xs2 & -> & -> & ->).
    exists (rx1 :: rx2 :: xs2). split; [constructor|done].
  - destruct (IH1 xs Hl) as (xs1 & Hp1 & Hf1).
    destruct (IH2 xs1 (eq_sym Hf1)) as (xs2 & Hp2 & Hf2).
    exists xs2. split; [by etrans|done].
Qed.


Lemma allocate_part_auto orders quotes_df supplier_selections part qty :
  qty_required orders part = Some qty →
  supplier_selections !! part = None →
  let w := auto_walk part qty (sort_values (quotes_of_part quotes_df part)) in
  allocate_part orders quotes_df supplier_selections part
  = (w.1 ++ if w.2 >? 0 then [shortage_line part w.2] else [])%list.
Proof.
  intros Hqty Hsel w. subst w.
  apply qty_required_Some in Hqty as [_ [rest Hrest]].
  unfold allocate_part. rewrite Hrest, Hsel.
  destruct (auto_walk _ _ _) as [lines leftover]. simpl.
  by destruct (leftover >? 0); rewrite ?app_nil_r.
Qed.

Lemma supplied_lines part lines leftover :
  Forall (λ l, ¬ is_shortage l) lines →
  filter (λ l, ¬ is_shortage l)
         (lines ++ if leftover >? 0 then [shortage_line part leftover] else [])%list
  = lines.
Proof.
  intros Hsrc. rewrite filter_app.
  assert (filter (λ l, ¬ is_shortage l) lines = lines) as ->.
  { induction Hsrc as [|l ls Hl _ IH]; [done|].
    by rewrite filter_cons_True, IH. }
  destruct (leftover >? 0); [|by rewrite app_nil_r].
  assert (filter (λ l, ¬ is_shortage l) [shortage_line part leftover] = [])
    as -> by done.
  by rewrite app_nil_r.
Qed.

(** C4. Cost minimality for an unpinned part, over quotes with positive
    availability: take any assignment that gives each offer row of the
    part a quantity between 0 and the row's [AvailableQty] and that
    assigns in total the quantity the part's allocation gets from
    suppliers (its lines other than the shortage line).  The cost of the
    part's allocation, the sum of [QtyAllocated * UnitPrice] over its
    lines, is at most the cost of that assignment. *)
Theorem cost_minimality orders quotes_df supplier_selections part qty xs :
  qty_required orders part = Some qty →
  0 < qty →
  supplier_selections !! part = None →
  Forall (λ r, quote_AvailableQty r > 0) quotes_df →
  feasible (quotes_of_part quotes_df part) xs →
  let lines :=
    lines_of_part part (final_allocation orders quotes_df supplier_selections) in
  assignment_qty xs = total_qty (filter (λ l, ¬ is_shortage l) lines) →
  total_cost lines ≤ assignment_cost xs.
Proof.
  intros Hqty Hpos Hsel Hav [Hfst Hxs] lines. subst lines.
  rewrite lines_of_part_final by (by apply qty_required_Some in Hqty as [? _]).
  rewrite (allocate_part_auto _ _ _ _ qty) by done. simpl.
  set (rows := sort_values (quotes_of_part quotes_df part)).
  assert (Forall (λ l, ¬ is_shortage l) (auto_walk part qty rows).1) as Hsrc.
  { eapply Forall_impl; [apply auto_walk_source|].
    unfold is_shortage. by intros l ->. }
  rewrite supplied_lines by done. intros Hsame.
  assert (total_cost
            ((auto_walk part qty rows).1
             ++ if (auto_walk part qty rows).2 >? 0
                then [shortage_line part (auto_walk part qty rows).2]
                else [])%list
          = total_cost (auto_walk part qty rows).1) as ->.
  { rewrite total_cost_app.
    destruct (_ >? 0); unfold total_cost, sum_Z; simpl; lia. }
  destruct (fst_Permutation_inv xs rows) as (xs' & Hperm & Hfst').
  { rewrite Hfst. subst rows. by rewrite sort_values_perm. }
  assert (assignment_qty xs' = assignment_qty xs) as Hq'
    by (apply sum_Z_perm; by rewrite Hperm).
  assert (assignment_cost xs' = assignment_cost xs) as <-
    by (apply sum_Z_perm; by rewrite Hperm).
  apply greedy_optimal.
  - apply Sorted_StronglySorted; [apply _|]. apply sort_values_sorted.
  - subst rows. rewrite sort_values_perm. apply Forall_forall. intros r Hr.
    apply list_elem_of_filter in Hr as [_ Hr].
    eapply Forall_forall in Hav; [|exact Hr]. simpl in Hav. lia.
  - lia.
  - split; [done|]. by rewrite Hperm.
  - by rewrite Hq'.
Qed.

End final_allocation_properties.

(** ** The cleaned tables *)



(** ** Worked examples *)

Section examples.
Local Existing Instance stable_sort.

Example scenario_1 :
  final_allocation [mkOrder "P1" 10]
    [mkQuote "SupplierA" "P1" 5 6; mkQuote "SupplierB" "P1" 4 20] ∅
  = [mkLine "P1" "SupplierB" 10 4 40 "Auto-Optimized"].
Proof. vm_compute. reflexivity. Qed.

Example scenario_2 :
  final_allocation [mkOrder "P2" 10]
    [mkQuote "SupplierA" "P2" 5 4; mkQuote "SupplierB" "P2" 6 4] ∅
  = [mkLine "P2" "SupplierA" 4 5 20 "Auto-Optimized";
     mkLine "P2" "SupplierB" 4 6 24 "Auto-Optimized";
     mkLine "P2" "N/A (SHORTAGE)" 2 0 0 "Shortage"].
Proof. vm_compute. reflexivity. Qed.

Example scenario_3 :
  final_allocation [mkOrder "P3" 10]
    [mkQuote "SupplierC" "P3" 8 3; mkQuote "SupplierD" "P3" 3 20]
    {[ "P3" := "SupplierC" ]}
  = [mkLine "P3" "SupplierC" 3 8 24 "Manual Selection (Partial)";
     mkLine "P3" "SupplierD" 7 3 21 "Auto-Optimized (Remaining)"].
Proof. vm_compute. reflexivity. Qed.

Example scenario_4 :
  final_allocation [mkOrder "P4" 5]
    [mkQuote "SupplierE" "P4" 10 10] {[ "P4" := "SupplierE" ]}
  = [mkLine "P4" "SupplierE" 5 10 50 "Manual Selection"].
Proof. vm_compute. reflexivity. Qed.

Example scenario_5_engine :
  optimized_allocation [mkOrder "P5" 5] [mkQuote "SupplierA" "P1" 5 6]
  = [mkEngineLine "P5" "NOT AVAILABLE" 0 0 0 5 "Not Available"].
Proof. vm_compute. reflexivity. Qed.

Example scenario_5_final :
  final_allocation [mkOrder "P5" 5] [mkQuote "SupplierA" "P1" 5 6] ∅
  = [mkLine "P5" "N/A (SHORTAGE)" 5 0 0 "Shortage"].
Proof. vm_compute. reflexivity. Qed.

Example scenario_6_pinned :
  final_allocation ex6_orders ex6_quotes ex6_selections
  = [mkLine "P6" "N/A (SHORTAGE)" 5 0 0 "Shortage"].
Proof. vm_compute. reflexivity. Qed.

Example scenario_6_unpinned :
  final_allocation ex6_orders ex6_quotes (delete "P6" ex6_selections)
  = [mkLine "P6" "SupplierA" 5 4 20 "Auto-Optimized"].
Proof. vm_compute. reflexivity. Qed.

Example duplicate_offers_final :
  final_allocation ex7_orders ex7_quotes ∅
  = [mkLine "P7" "SupplierA" 4 5 20 "Auto-Optimized";
     mkLine "P7" "SupplierA" 4 6 24 "Auto-Optimized";
     mkLine "P7" "N/A (SHORTAGE)" 2 0 0 "Shortage"].
Proof. vm_compute. reflexivity. Qed.

(** Rows of equal price: the two sorts that meet the contract of
    [sort_values] give the part to different suppliers. *)
Example tie_order_follows_the_sort :
  final_allocation (PS := stable_sort) ex8_orders ex8_quotes ∅
  = [mkLine "P8" "SupplierA" 5 5 25 "Auto-Optimized"]
  ∧ final_allocation (PS := reversing_sort) ex8_orders ex8_quotes ∅
    = [mkLine "P8" "SupplierB" 5 5 25 "Auto-Optimized"].
Proof. split; vm_compute; reflexivity. Qed.

(** C1, refuted as stated: with the pin to SupplierX, who has no offer for
    P6, the allocation of P6 is the shortage line for all 5 units; without
    the pin it is 5 units from SupplierA. *)
Lemma pin_without_offer_not_ignored :
  lines_of_part "P6" (final_allocation ex6_orders ex6_quotes ex6_selections)
  ≠ lines_of_part "P6"
      (final_allocation ex6_orders ex6_quotes (delete "P6" ex6_selections)).
Proof. vm_compute. discriminate. Qed.

(** C2, refuted as stated: the only line of the final allocation for P5,
    which has no offer, is not a "NOT AVAILABLE" line with quantity 0. *)
Lemma no_offer_not_available_line :
  ¬ ∃ l, lines_of_part "P5"
           (final_allocation [mkOrder "P5" 5] [mkQuote "SupplierA" "P1" 5 6] ∅)
         = [l]
         ∧ Supplier l = "NOT AVAILABLE" ∧ QtyAllocated l = 0
         ∧ AllocationSource l = "Not Available".
Proof.
  intros (l & Hl & Hs & _). vm_compute in Hl. injection Hl as <-.
  discriminate Hs.
Qed.

(** C7, refuted as stated: SupplierA quotes P7 twice, 4 units each; the
    allocation gives SupplierA 8 units, more than the 4 of its first
    offer. *)
Lemma duplicate_offers_exceed_first :
  ¬ ∀ q, selected_quote ex7_quotes "P7" "SupplierA" = Some q →
         total_qty (lines_of_supplier "SupplierA"
           (lines_of_part "P7" (final_allocation ex7_orders ex7_quotes ∅)))
         ≤ quote_AvailableQty q.
Proof.
  intros Hcap. specialize (Hcap (mkQuote "SupplierA" "P7" 5 4) eq_refl).
  vm_compute in Hcap. by apply Hcap.
Qed.


(** *** The properties at the examples *)

Lemma pin_without_offer_witness :
  lines_of_part "P6" (final_allocation ex6_orders ex6_quotes ex6_selections)
  = [mkLine "P6" "N/A (SHORTAGE)" 5 0 0 "Shortage"].
Proof.
  apply (pin_without_offer ex6_orders ex6_quotes ex6_selections
           "P6" "SupplierX" 5); [reflexivity|lia|reflexivity|reflexivity].
Defined.

Lemma no_offer_lines_witness :
  lines_of_part "P5" (final_allocation ex5_orders ex5_quotes ∅)
  = [mkLine "P5" "N/A (SHORTAGE)" 5 0 0 "Shortage"]
  ∧ filter (λ l, eng_PartNumber l = "P5")
           (optimized_allocation ex5_orders ex5_quotes)
    = (λ o, mkEngineLine "P5" "NOT AVAILABLE" 0 0 0 (order_QtyRequired o)
                         "Not Available")
      <$> filter (λ o, order_PartNumber o = "P5") ex5_orders.
Proof.
  apply (no_offer_lines ex5_orders ex5_quotes ∅ "P5" 5);
    [reflexivity|lia|reflexivity].
Defined.

Lemma conservation_witness :
  let lines := lines_of_part "P2" (final_allocation ex2_orders ex2_quotes ∅) in
  let supplied := filter (λ l, ¬ is_shortage l) lines in
  total_qty lines = 10
  ∧ total_qty supplied ≤ 10
  ∧ filter is_shortage lines
    = if decide (total_qty supplied < 10)
      then [mkLine "P2" "N/A (SHORTAGE)" (10 - total_qty supplied) 0 0 "Shortage"]
      else [].
Proof.
  apply (conservation ex2_orders ex2_quotes ∅ "P2" 10); [reflexivity|lia].
Defined.

(** Six units from SupplierA and four from SupplierB cost 46; the
    allocation, ten units from SupplierB, costs 40. *)
Lemma cost_minimality_witness :
  total_cost (lines_of_part "P1" (final_allocation ex1_orders ex1_quotes ∅))
  ≤ assignment_cost [(mkQuote "SupplierA" "P1" 5 6, 6);
                     (mkQuote "SupplierB" "P1" 4 20, 4)].
Proof.
  apply (cost_minimality ex1_orders ex1_quotes ∅ "P1" 10).
  - reflexivity.
  - lia.
  - reflexivity.
  - repeat constructor.
  - split; [reflexivity|]. repeat constructor; simpl; lia.
  - reflexivity.
Defined.



Lemma availability_cap_witness :
  let assigned :=
    total_qty (lines_of_supplier "SupplierA"
      (lines_of_part "P7" (final_allocation ex7_orders ex7_quotes ∅))) in
  assigned ≤ offered ex7_quotes "P7" "SupplierA"
  ∧ (∀ q, quotes_of_selected ex7_quotes "P7" "SupplierA" = [q] →
          assigned ≤ quote_AvailableQty q)
  ∧ (∀ q, (∅ : gmap string string) !! "P7" = Some "SupplierA" →
          selected_quote ex7_quotes "P7" "SupplierA" = Some q →
          assigned ≤ quote_AvailableQty q).
Proof.
  apply (availability_cap ex7_orders ex7_quotes ∅ "P7" "SupplierA");
    [repeat constructor|discriminate].
Defined.

Lemma consolidation_idempotent_witness :
  st_final_allocation (generate_final_allocation ex9_session_1)
  = st_final_allocation (generate_final_allocation ex9_session_2)
  ∧ generate_final_allocation (generate_final_allocation ex9_session_1)
    = generate_final_allocation ex9_session_1
  ∧ st_orders (generate_final_allocation ex9_session_1)
    = st_orders ex9_session_1
  ∧ st_quotes_df (generate_final_allocation ex9_session_1)
    = st_quotes_df ex9_session_1
  ∧ st_supplier_selections (generate_final_allocation ex9_session_1)
    = st_supplier_selections ex9_session_1.
Proof.
  apply (consolidation_idempotent ex9_session_1 ex9_session_2); reflexivity.
Defined.


End examples.

(** ** The optimization engine and the cost analysis *)

Lemma engine_walk_cost_spec part original_qty_needed qty_needed rows cost :
  engine_walk_cost part original_qty_needed qty_needed rows cost
  = ((engine_walk part original_qty_needed qty_needed rows).1,
     (engine_walk part original_qty_needed qty_needed rows).2,
     cost + sum_Z (eng_Total <$>
                     (engine_walk part original_qty_needed qty_needed rows).1)).
Proof.
  revert qty_needed cost.
  induction rows as [|q rows IH]; intros qty_needed cost; simpl.
  - unfold sum_Z. simpl. f_equal. lia.
  - destruct (qty_needed <=? 0); [unfold sum_Z; simpl; f_equal; lia|].
    destruct (_ >? 0); [|apply IH].
    rewrite IH. destruct (engine_walk _ _ _ rows) as [lines leftover]. simpl.
    unfold sum_Z. simpl. f_equal. symmetry. apply Z.add_assoc.
Qed.

Lemma engine_walk_allocated part original_qty_needed qty_needed rows :
  Forall (λ l, eng_Status l = "Allocated"
               ∧ eng_QtyRequired l = original_qty_needed)
         (engine_walk part original_qty_needed qty_needed rows).1.
Proof.
  rewrite engine_walk_auto. simpl. apply Forall_fmap, Forall_true. done.
Qed.

Lemma auto_cost_app ls1 ls2 : auto_cost (ls1 ++ ls2) = auto_cost ls1 + auto_cost ls2.
Proof. unfold auto_cost. by rewrite filter_app, fmap_app, sum_Z_app. Qed.

Lemma auto_cost_allocated lines :
  Forall (λ l, eng_Status l = "Allocated") lines →
  auto_cost lines = sum_Z (eng_Total <$> lines).
Proof.
  unfold auto_cost. induction 1 as [|l ls Hl _ IH]; [done|].
  by rewrite filter_cons_True, !fmap_cons, !sum_Z_cons, IH.
Qed.

(** Over rows with positive availability the walk takes something from
    the first row. *)
Lemma auto_walk_progress part qty_needed rows :
  0 < qty_needed → rows ≠ [] →
  Forall (λ r, quote_AvailableQty r > 0) rows →
  (auto_walk part qty_needed rows).2 < qty_needed.
Proof.
  intros Hq Hne Hrows. destruct Hrows as [|r rows Hr Hrows]; [done|].
  destruct (auto_walk_cons part qty_needed r rows) as (_ & _ & ->); [lia..|].
  pose proof (auto_walk_conserve part
    (qty_needed - Z.min qty_needed (quote_AvailableQty r)) rows) as [Hsum Hleft];
    [lia|].
  assert (0 ≤ total_qty (auto_walk part
    (qty_needed - Z.min qty_needed (quote_AvailableQty r)) rows).1) as Hnn.
  { rewrite auto_walk_total; [|lia|].
    - pose proof (sum_Z_nonneg (quote_AvailableQty <$> rows)) as Hs.
      rewrite Forall_fmap in Hs.
      assert (0 ≤ sum_Z (quote_AvailableQty <$> rows)); [|lia].
      apply Hs. eapply Forall_impl; [exact Hrows|]. intros x. simpl. lia.
    - eapply Forall_impl; [exact Hrows|]. intros x. simpl. lia. }
  lia.
Qed.

Section engine_properties.
Context {PS : PriceSort}.
Implicit Types (orders : list OrderRow) (quotes_df : list QuoteRow).
Implicit Types (supplier_selections : gmap string string).

(** What one order row gets from the engine, for a part with offers. *)
Lemma engine_order_offers quotes_df order :
  0 < order_QtyRequired order →
  quotes_of_part quotes_df (order_PartNumber order) ≠ [] →
  Forall (λ r, quote_AvailableQty r > 0) quotes_df →
  let w := auto_walk (order_PartNumber order) (order_QtyRequired order)
             (sort_values (quotes_of_part quotes_df (order_PartNumber order))) in
  engine_order quotes_df order
  = (engine_line (order_QtyRequired order) <$> w.1)
    ++ (if w.2 >? 0
        then [mkEngineLine (order_PartNumber order) "SHORTAGE" w.2 0 0
                           (order_QtyRequired order) "Shortage"]
        else [])
  ∧ 0 ≤ w.2 < order_QtyRequired order.
Proof.
  intros Hq Hne Hpos w.
  assert (0 ≤ w.2 < order_QtyRequired order) as Hbound.
  { subst w. split.
    - apply auto_walk_conserve. lia.
    - apply auto_walk_progress; [done| |].
      + intros Hnil. apply Hne. apply Permutation_nil_r.
        rewrite <-(sort_values_perm _). by rewrite Hnil.
      + rewrite sort_values_perm. apply Forall_forall. intros r Hr.
        apply list_elem_of_filter in Hr as [_ Hr].
        by eapply Forall_forall in Hpos. }
  split; [|done]. unfold engine_order.
  destruct (quotes_of_part quotes_df (order_PartNumber order)) as [|q qs] eqn:Hqs;
    [done|].
  rewrite engine_walk_auto. fold w. rewrite Z.gtb_ltb.
  destruct (Z.eqb_spec w.2 0) as [->|Hnz].
  - simpl. by rewrite app_nil_r.
  - destruct (Z.ltb_spec w.2 (order_QtyRequired order)); [|lia].
    by destruct (Z.ltb_spec 0 w.2); [|lia].
Qed.


(** X1. Over the cleaned quotes, an order row with a positive quantity
    for a part that has offers gets lines whose [AllocatedQty], the
    "SHORTAGE" line included, add up to its [QtyRequired]; each line
    records that [QtyRequired], and none has the status "Not Available". *)
Theorem engine_conservation quotes_df order :
  0 < order_QtyRequired order →
  quotes_of_part quotes_df (order_PartNumber order) ≠ [] →
  Forall (λ r, quote_AvailableQty r > 0) quotes_df →
  sum_Z (eng_AllocatedQty <$> engine_order quotes_df order)
  = order_QtyRequired order
  ∧ Forall (λ l, eng_QtyRequired l = order_QtyRequired order
                 ∧ eng_Status l ≠ "Not Available")
           (engine_order quotes_df order).
Proof.
  intros Hq Hne Hpos.
  destruct (engine_order_offers quotes_df order Hq Hne Hpos) as [-> Hleft].
  set (w := auto_walk _ _ _) in *.
  pose proof (auto_walk_conserve (order_PartNumber order)
    (order_QtyRequired order)
    (sort_values (quotes_of_part quotes_df (order_PartNumber order))))
    as [Hsum _]; [lia|].
  fold w in Hsum. split.
  - rewrite fmap_app, sum_Z_app, <-list_fmap_compose.
    assert (sum_Z (eng_AllocatedQty ∘ engine_line (order_QtyRequired order)
                     <$> w.1) = total_qty w.1) as -> by done.
    rewrite Z.gtb_ltb. destruct (Z.ltb_spec 0 w.2).
    + rewrite fmap_cons, sum_Z_cons. simpl. unfold sum_Z. simpl. lia.
    + unfold sum_Z. simpl. lia.
  - apply Forall_app. split.
    + apply Forall_fmap, Forall_true. done.
    + destruct (w.2 >? 0); by repeat constructor.
Qed.


(** X3. The statistics of a run agree with the list it stores: the list
    is the engine's allocation; every order row is counted once, as fully
    allocated, partially allocated or not available; and the total cost
    shown is the [auto_cost] that the cost analysis computes from the
    list. *)
Theorem run_optimization_statistics orders quotes_df :
  (run_optimization orders quotes_df).1 = optimized_allocation orders quotes_df
  ∧ stat_total_parts (run_optimization orders quotes_df).2
    = Z.of_nat (length orders)
  ∧ stat_fully_allocated (run_optimization orders quotes_df).2
    + stat_partially_allocated (run_optimization orders quotes_df).2
    + stat_not_available (run_optimization orders quotes_df).2
    = Z.of_nat (length orders)
  ∧ stat_total_cost (run_optimization orders quotes_df).2
    = auto_cost (run_optimization orders quotes_df).1.
Proof.
  unfold run_optimization.
  assert (∀ rows allocation stats,
    let r := fold_left (engine_iteration quotes_df) rows (allocation, stats) in
    r.1 = allocation ++ optimized_allocation rows quotes_df
    ∧ stat_total_parts r.2 = stat_total_parts stats
    ∧ stat_fully_allocated r.2 + stat_partially_allocated r.2
      + stat_not_available r.2
      = stat_fully_allocated stats + stat_partially_allocated stats
        + stat_not_available stats + Z.of_nat (length rows)
    ∧ stat_total_cost r.2
      = stat_total_cost stats + auto_cost (optimized_allocation rows quotes_df))
    as Hfold.
  { induction rows as [|order rows IH]; intros allocation stats.
    - simpl. unfold optimized_allocation, auto_cost, sum_Z. simpl.
      rewrite app_nil_r. split_and!; [done|done|lia|lia].
    - cbn [fold_left].
      assert (∃ stats',
        engine_iteration quotes_df (allocation, stats) order
        = (allocation ++ engine_order quotes_df order, stats')
        ∧ stat_total_parts stats' = stat_total_parts stats
        ∧ stat_fully_allocated stats' + stat_partially_allocated stats'
          + stat_not_available stats'
          = stat_fully_allocated stats + stat_partially_allocated stats
            + stat_not_available stats + 1
        ∧ stat_total_cost stats'
          = stat_total_cost stats + auto_cost (engine_order quotes_df order))
        as (stats' & -> & Hparts & Hcount & Hcost).
      { unfold engine_iteration, engine_order.
        destruct (quotes_of_part quotes_df (order_PartNumber order))
          as [|q qs].
        - eexists. split; [reflexivity|]. simpl.
          unfold auto_cost, sum_Z. simpl. split_and!; [done|lia|lia].
        - rewrite engine_walk_cost_spec.
          pose proof (engine_walk_allocated (order_PartNumber order)
            (order_QtyRequired order) (order_QtyRequired order)
            (sort_values (q :: qs))) as Hal.
          destruct (engine_walk _ _ _ _) as [lines leftover]. simpl in *.
          assert (auto_cost lines = sum_Z (eng_Total <$> lines)) as Hac.
          { apply auto_cost_allocated. eapply Forall_impl; [exact Hal|].
            by intros l [? ?]. }
          destruct (leftover =? 0).
          + eexists. split; [reflexivity|]. simpl. split_and!; [done|lia|lia].
          + destruct (leftover <? order_QtyRequired order).
            * eexists. split; [by rewrite app_assoc|]. simpl.
              rewrite auto_cost_app.
              assert (∀ p l q,
                auto_cost [mkEngineLine p "SHORTAGE" l 0 0 q "Shortage"] = 0)
                as -> by done.
              split_and!; [done|lia|lia].
            * eexists. split; [reflexivity|]. simpl.
              split_and!; [done|lia|lia]. }
      destruct (IH (allocation ++ engine_order quotes_df order) stats')
        as (Hl & Hp & Hc & Ht).
      cbv zeta. rewrite Hl, Hp, Hc, Ht, Hparts, Hcost.
      unfold optimized_allocation. rewrite fmap_cons. simpl concat.
      fold (optimized_allocation rows quotes_df).
      rewrite auto_cost_app, app_assoc.
      split_and!; [done|done| |lia].
      rewrite Hcount. cbn [length]. lia. }
  destruct (Hfold orders [] (mkStats (Z.of_nat (length orders)) 0 0 0 0))
    as (Hl & Hp & Hc & Ht).
  cbv zeta in *. simpl in *. rewrite Hl, Hp, Hc, Ht.
  split_and!; [done|done|lia|lia].
Qed.



Lemma remaining_walk_source part remaining_qty rows :
  Forall (λ l, AllocationSource l = "Auto-Optimized (Remaining)")
         (remaining_walk part remaining_qty rows).1.
Proof.
  revert remaining_qty.
  induction rows as [|q rows IH]; intros remaining_qty; simpl.
  - constructor.
  - destruct (remaining_qty <=? 0); [constructor|].
    specialize (IH (remaining_qty - Z.min remaining_qty (quote_AvailableQty q))).
    destruct (remaining_walk part _ rows). simpl in *. by constructor.
Qed.






End engine_properties.

(** ** Grouping the lines by supplier *)

Lemma sorted_perm (l : list string) : sorted l ≡ₚ l.
Proof. apply merge_sort_Permutation. Qed.





Lemma elem_of_concat {A} (x : A) (ls : list (list A)) :
  x ∈ concat ls ↔ ∃ l, l ∈ ls ∧ x ∈ l.
Proof.
  induction ls as [|l ls IH]; simpl.
  - split; [by intros ?%elem_of_nil|by intros (l & ?%elem_of_nil & _)].
  - rewrite elem_of_app, IH. split.
    + intros [Hx|(l' & Hl' & Hx)]; [exists l; split; [left|done]|].
      exists l'. split; [by right|done].
    + intros (l' & [->|Hl']%elem_of_cons & Hx); [by left|].
      right. by exists l'.
Qed.

Lemma filter_nil_Forall {A} (Q : A → Prop) `{!∀ x, Decision (Q x)} (l : list A) :
  Forall (λ x, ¬ Q x) l → filter Q l = [].
Proof.
  induction 1 as [|x l Hx _ IH]; [done|]. by rewrite filter_cons_False.
Qed.


Lemma qty_required_ordered orders part :
  part ∈ order_PartNumber <$> orders →
  Forall (λ o, order_QtyRequired o > 0) orders →
  ∃ qty, qty_required orders part = Some qty ∧ 0 < qty.
Proof.
  intros Hin Hpos. unfold qty_required, part_orders.
  apply list_elem_of_fmap in Hin as (o & -> & Ho).
  assert (o ∈ filter (λ o', order_PartNumber o' = order_PartNumber o) orders)
    as Hf by (by apply list_elem_of_filter).
  destruct (filter _ orders) as [|o' os] eqn:Heq; [by apply elem_of_nil in Hf|].
  exists (order_QtyRequired o'). split; [done|].
  assert (o' ∈ filter (λ o', order_PartNumber o' = order_PartNumber o) orders)
    as Ho' by (rewrite Heq; left).
  apply list_elem_of_filter in Ho' as [_ Ho'].
  eapply Forall_forall in Hpos; [|exact Ho']. simpl in Hpos. lia.
Qed.

Section report_properties.
Context {PS : PriceSort}.
Implicit Types (orders : list OrderRow) (quotes_df : list QuoteRow).
Implicit Types (supplier_selections : gmap string string).

Lemma allocate_part_no_offer orders quotes_df supplier_selections part qty :
  qty_required orders part = Some qty →
  0 < qty →
  quotes_of_part quotes_df part = [] →
  allocate_part orders quotes_df supplier_selections part
  = [shortage_line part qty].
Proof.
  intros Hqty Hpos Hnone.
  destruct (supplier_selections !! part) as [supplier|] eqn:Hsel.
  - apply (allocate_part_absent _ _ _ _ supplier); try done.
    by rewrite quotes_of_selected_of_part, Hnone.
  - rewrite (allocate_part_auto _ _ _ _ qty) by done.
    rewrite Hnone, sort_values_nil. simpl.
    rewrite Z.gtb_ltb. by destruct (Z.ltb_spec 0 qty); [|lia].
Qed.

Lemma allocate_part_elem orders quotes_df supplier_selections part l :
  part ∈ order_PartNumber <$> orders →
  l ∈ allocate_part orders quotes_df supplier_selections part →
  l ∈ final_allocation orders quotes_df supplier_selections.
Proof.
  intros Hp Hl. unfold final_allocation. apply elem_of_concat.
  exists (allocate_part orders quotes_df supplier_selections part).
  split; [|done]. apply list_elem_of_fmap_2. by apply unique_elem_of.
Qed.




Lemma filter_ext_Forall {A} (P Q : A → Prop) `{!∀ x, Decision (P x)}
    `{!∀ x, Decision (Q x)} (l : list A) :
  Forall (λ x, P x ↔ Q x) l → filter P l = filter Q l.
Proof.
  induction 1 as [|x l Hx _ IH]; [done|].
  rewrite !filter_cons, IH. destruct (decide (P x)), (decide (Q x)); tauto.
Qed.









Lemma not_available_rows order_df quotes_df :
  Forall (λ row, na_PartNumber row ∈ order_PartNumber <$> order_df
                 ∧ quotes_of_part quotes_df (na_PartNumber row) = []
                 ∧ na_Status row = "No quotes available")
         (create_not_available_sheet order_df quotes_df).
Proof.
  unfold create_not_available_sheet. destruct (decide _); [|constructor].
  apply Forall_fmap, Forall_forall. intros o Ho. simpl.
  apply list_elem_of_filter in Ho as [Hset Ho].
  apply elem_of_difference in Hset as [_ Hnq].
  rewrite elem_of_list_to_set, unique_elem_of in Hnq.
  split_and!; [by apply list_elem_of_fmap_2| |done].
  apply filter_nil_Forall, Forall_forall. intros r Hr Heq.
  apply Hnq. rewrite <-Heq. by apply list_elem_of_fmap_2.
Qed.

Lemma na_section_is_shortage_items orders quotes_df supplier_selections :
  Forall (λ o, order_QtyRequired o > 0) orders →
  all_na_items (final_allocation orders quotes_df supplier_selections)
               quotes_df orders
  = (λ l, (PartNumber l, QtyAllocated l, "Shortage"))
      <$> filter (λ l, Supplier l = "N/A (SHORTAGE)")
                 (final_allocation orders quotes_df supplier_selections).
Proof.
  intros Hpos. unfold all_na_items, shortage_items.
  rewrite (filter_nil_Forall _ (create_not_available_sheet orders quotes_df)).
  - rewrite fmap_nil, app_nil_r, <-list_fmap_compose. done.
  - eapply Forall_impl; [apply not_available_rows|].
    intros row (Hin & Hnone & _) Hnot. apply Hnot.
    destruct (qty_required_ordered orders (na_PartNumber row) Hin Hpos)
      as (qty & Hqty & Hq).
    rewrite elem_of_list_to_set, <-list_fmap_compose.
    apply list_elem_of_fmap. exists (shortage_line (na_PartNumber row) qty).
    split; [done|]. apply list_elem_of_filter. split; [done|].
    apply (allocate_part_elem _ _ _ (na_PartNumber row)); [done|].
    rewrite (allocate_part_no_offer _ _ _ _ qty) by done. left.
Qed.

(** X5. In the "N/A" section of the suppliers sheet built from the final
    allocation of the same tables (order quantities positive), every item
    is a shortage line of the final allocation, with type "Shortage": a
    part without any quote is already there through its shortage line, so
    that no item of type "Not Available" is ever added. *)
Theorem na_section_is_shortage orders quotes_df supplier_selections :
  Forall (λ o, order_QtyRequired o > 0) orders →
  let final_df := final_allocation orders quotes_df supplier_selections in
  all_na_items final_df quotes_df orders
  = (λ l, (PartNumber l, QtyAllocated l, "Shortage"))
      <$> filter (λ l, Supplier l = "N/A (SHORTAGE)") final_df
  ∧ Forall (λ item, item.2 = "Shortage")
           (all_na_items final_df quotes_df orders).
Proof.
  intros Hpos final_df. subst final_df.
  rewrite na_section_is_shortage_items by done.
  split; [done|]. apply Forall_fmap, Forall_true. done.
Qed.





End report_properties.

(** ** The engine and the reports at the examples *)

Section report_examples.
Local Existing Instance stable_sort.

Example suppliers_sheet_example :
  create_combined_suppliers_sheet (final_allocation ex11_orders ex2_quotes ∅)
    ex2_quotes ex11_orders
  = [mkRow (Text "SupplierA") (Text "") (Text "") (Text "");
     mkRow (Text "Part Number") (Text "Qty Ordered") (Text "Unit Price")
           (Text "Total Cost");
     mkRow (Text "P2") (Number 4) (Number 5) (Number 20);
     mkRow (Text "SUBTOTAL") (Number 4) (Text "") (Number 20);
     mkRow (Text "") (Text "") (Text "") (Text "");
     mkRow (Text "SupplierB") (Text "") (Text "") (Text "");
     mkRow (Text "Part Number") (Text "Qty Ordered") (Text "Unit Price")
           (Text "Total Cost");
     mkRow (Text "P2") (Number 4) (Number 6) (Number 24);
     mkRow (Text "SUBTOTAL") (Number 4) (Text "") (Number 24);
     mkRow (Text "") (Text "") (Text "") (Text "");
     mkRow (Text "GRAND TOTAL") (Number 8) (Text "") (Number 44);
     mkRow (Text "") (Text "") (Text "") (Text "");
     mkRow (Text "N/A") (Text "") (Text "") (Text "");
     mkRow (Text "P2") (Number 2) (Text "N/A") (Text "N/A");
     mkRow (Text "P5") (Number 5) (Text "N/A") (Text "N/A");
     mkRow (Text "SUBTOTAL - N/A") (Number 7) (Text "") (Text "N/A");
     mkRow (Text "") (Text "") (Text "") (Text "");
     mkRow (Text "TOTAL QTY") (Number 15) (Text "") (Text "")].
Proof. vm_compute. reflexivity. Qed.

Lemma engine_conservation_witness :
  sum_Z (eng_AllocatedQty <$> engine_order ex2_quotes (mkOrder "P2" 10)) = 10
  ∧ Forall (λ l, eng_QtyRequired l = 10 ∧ eng_Status l ≠ "Not Available")
           (engine_order ex2_quotes (mkOrder "P2" 10)).
Proof.
  apply (engine_conservation ex2_quotes (mkOrder "P2" 10));
    [simpl; lia|discriminate|repeat constructor].
Defined.


Lemma na_section_is_shortage_witness :
  let final_df := final_allocation ex11_orders ex2_quotes ∅ in
  all_na_items final_df ex2_quotes ex11_orders
  = (λ l, (PartNumber l, QtyAllocated l, "Shortage"))
      <$> filter (λ l, Supplier l = "N/A (SHORTAGE)") final_df
  ∧ Forall (λ item, item.2 = "Shortage")
           (all_na_items final_df ex2_quotes ex11_orders).
Proof.
  apply (na_section_is_shortage ex11_orders ex2_quotes ∅). repeat constructor.
Defined.



End report_examples.

(** ** The selection table *)

Lemma dict_get_set k k' v d :
  dict_get k (dict_set k' v d)
  = if decide (k' = k) then Some v else dict_get k d.
Proof.
  induction d as [|[k0 v0] d IH]; simpl.
  - by destruct (decide (k' = k)).
  - destruct (decide (k0 = k')) as [->|Hne]; simpl.
    + by destruct (decide (k' = k)).
    + destruct (decide (k0 = k)) as [->|Hne']; [by rewrite decide_False|].
      apply IH.
Qed.

Lemma dict_get_fold (f : string → Value) k keys d :
  dict_get k (fold_left (λ row_data s, dict_set s (f s) row_data) keys d)
  = if decide (k ∈ keys) then Some (f k) else dict_get k d.
Proof.
  revert d. induction keys as [|s keys IH]; intros d; cbn [fold_left].
  - by rewrite decide_False by apply not_elem_of_nil.
  - rewrite IH, dict_get_set.
    destruct (decide (k ∈ keys)) as [Hin|Hout].
    + by rewrite decide_True by (by right).
    + destruct (decide (s = k)) as [->|Hne].
      * by rewrite decide_True by left.
      * rewrite decide_False; [done|].
        intros [?|?]%elem_of_cons; congruence.
Qed.

Lemma format_offer_not_na price available_qty :
  format_offer price available_qty ≠ "N/A".
Proof. unfold format_offer. simpl. discriminate. Qed.

(** A cell shows an offer exactly when the supplier's first row for the
    part has a positive quantity. *)
Lemma excel_cell_offer quotes_df part supplier :
  excel_cell quotes_df part supplier ≠ VStr "N/A"
  ↔ ∃ q, selected_quote quotes_df part supplier = Some q
         ∧ quote_AvailableQty q > 0.
Proof.
  unfold excel_cell, selected_quote.
  rewrite quotes_of_selected_of_part.
  destruct (filter _ (quotes_of_part quotes_df part)) as [|q qs]; cbn [head].
  - split; [done|]. by intros (q & ? & _).
  - rewrite Z.gtb_ltb. destruct (Z.ltb_spec 0 (quote_AvailableQty q)).
    + split.
      * intros _. exists q. split; [done|lia].
      * intros _ Heq.
        apply (format_offer_not_na (quote_UnitPrice q) (quote_AvailableQty q)).
        congruence.
    + split; [done|]. intros (q' & [= <-] & ?). lia.
Qed.

Lemma all_suppliers_elem quotes_df supplier :
  supplier ∈ all_suppliers quotes_df ↔ supplier ∈ quote_Supplier <$> quotes_df.
Proof. unfold all_suppliers. by rewrite sorted_perm, unique_elem_of. Qed.

Lemma excel_row_get quotes_df supplier_selections part total_qty k :
  dict_get k (excel_row quotes_df supplier_selections part total_qty)
  = if decide (k ∈ all_suppliers quotes_df)
    then Some (excel_cell quotes_df part k)
    else dict_get k
           [("Part Number", VStr part); ("Qty Required", VNum total_qty);
            ("Current Selection",
             VStr (default "Auto-Optimized" (supplier_selections !! part)))].
Proof. unfold excel_row. apply dict_get_fold. Qed.

Lemma create_excel_dataframe_rows orders quotes_df supplier_selections :
  create_excel_dataframe orders quotes_df supplier_selections
  = (λ part, excel_row quotes_df supplier_selections part
               (default 0 (qty_required orders part)))
      <$> unique (order_PartNumber <$> orders).
Proof.
  unfold create_excel_dataframe.
  assert (∀ parts, Forall (λ p, p ∈ order_PartNumber <$> orders) parts →
    omap (λ part,
            match part_orders orders part with
            | [] => None
            | total_qty :: _ =>
                Some (excel_row quotes_df supplier_selections part total_qty)
            end) parts
    = (λ part, excel_row quotes_df supplier_selections part
                 (default 0 (qty_required orders part))) <$> parts) as Hall.
  { induction 1 as [|p parts Hp _ IH]; [done|].
    csimpl. rewrite IH.
    destruct (part_orders orders p) as [|qty qs] eqn:Hqs;
      [|by unfold qty_required; rewrite Hqs].
    exfalso. unfold part_orders in Hqs.
    apply list_elem_of_fmap in Hp as (o & -> & Ho).
    assert (o ∈ filter (λ o', order_PartNumber o' = order_PartNumber o) orders)
      as Hf by (by apply list_elem_of_filter).
    apply fmap_nil_inv in Hqs. rewrite Hqs in Hf. by apply elem_of_nil in Hf. }
  apply Hall, Forall_forall. intros p. by rewrite unique_elem_of.
Qed.

(** The update for a cell keeps the pins on offers, when no supplier is
    named like a fixed column. *)
Lemma select_cell_keeps_offers orders quotes_df supplier_selections
    row_idx col_name is_supplier_column :
  Forall (λ r, quote_Supplier r ∉ fixed_columns) quotes_df →
  (is_supplier_column = true → col_name ∉ fixed_columns) →
  pins_have_offers quotes_df supplier_selections →
  pins_have_offers quotes_df
    (select_cell (create_excel_dataframe orders quotes_df supplier_selections)
                 supplier_selections row_idx col_name is_supplier_column).
Proof.
  intros Hfixed Hcol Hpins. unfold select_cell.
  rewrite create_excel_dataframe_rows.
  destruct (_ !! Z.to_nat row_idx) as [row|] eqn:Hrow; [|done].
  apply list_lookup_fmap_Some in Hrow as (part & -> & _).
  assert (∀ k, k ∈ fixed_columns → k ∉ all_suppliers quotes_df) as Hnot.
  { intros k Hk Hin. apply all_suppliers_elem in Hin.
    apply list_elem_of_fmap in Hin as (r & -> & Hr).
    by eapply Forall_forall in Hfixed. }
  rewrite excel_row_get, decide_False by (apply Hnot; set_solver). simpl.
  destruct is_supplier_column; [|done]. specialize (Hcol eq_refl).
  rewrite excel_row_get.
  destruct (decide (col_name ∈ all_suppliers quotes_df)).
  - destruct (decide (excel_cell quotes_df part col_name ≠ VStr "N/A"))
      as [Hcell|_]; [|done].
    apply excel_cell_offer in Hcell.
    intros part' supplier' Hlook.
    destruct (decide (part = part')) as [<-|Hne].
    + rewrite lookup_insert_eq in Hlook. by injection Hlook as <-.
    + rewrite lookup_insert_ne in Hlook by done. by apply Hpins.
  - assert (dict_get col_name
              [("Part Number", VStr part);
               ("Qty Required",
                VNum (default 0 (qty_required orders part)));
               ("Current Selection",
                VStr (default "Auto-Optimized" (supplier_selections !! part)))]
            = None) as ->; [|done].
    simpl. repeat (rewrite decide_False; [|intros <-; apply Hcol; set_solver]).
    done.
Qed.

Lemma selection_keeps_offers_step orders quotes_df
    (supplier_selections : gmap string string) event :
  Forall (λ r, quote_Supplier r ∉ fixed_columns) quotes_df →
  pins_have_offers quotes_df supplier_selections →
  pins_have_offers quotes_df
    (handle_selection orders quotes_df supplier_selections event).
Proof.
  intros Hfixed Hpins. unfold handle_selection.
  destruct (ev_cells event) as [|[row_idx col_identifier] ?].
  - destruct (ev_rows event) as [|row_idx ?]; [done|].
    destruct (ev_columns event) as [|[?|col_idx] ?]; [done|done|].
    destruct (_ && _); [|done].
    destruct (_ !! Z.to_nat col_idx) as [col_name|]; [|done].
    apply select_cell_keeps_offers; [done| |done].
    intros [Hc _]%andb_prop. by apply bool_decide_eq_true in Hc.
  - assert (∀ col_name,
      pins_have_offers quotes_df
        (if (0 <=? row_idx)
            && (row_idx <? Z.of_nat (length (create_excel_dataframe orders
                                        quotes_df supplier_selections)))
         then select_cell (create_excel_dataframe orders quotes_df
                             supplier_selections)
                supplier_selections row_idx col_name
                (bool_decide (col_name ∉ fixed_columns))
         else supplier_selections)) as Hsel.
    { intros col_name. destruct (_ && _); [|done].
      apply select_cell_keeps_offers; [done| |done].
      intros Hc. by apply bool_decide_eq_true in Hc. }
    destruct col_identifier as [col_name|col_idx].
    + destruct (decide _); [apply Hsel|done].
    + destruct ((0 <=? col_idx) && _); [|done].
      destruct (_ !! Z.to_nat col_idx) as [col_name|]; [apply Hsel|done].
Qed.

(** X8. Selections made through the table keep every pin on an offer:
    when no supplier is named like one of the fixed columns, and every pin
    is to a supplier whose first offer for the part has a positive
    quantity, the same holds after any series of selection events,
    whichever cells, column names or positions they report. *)
Theorem selection_keeps_offers orders quotes_df
    (supplier_selections : gmap string string) events :
  Forall (λ r, quote_Supplier r ∉ fixed_columns) quotes_df →
  pins_have_offers quotes_df supplier_selections →
  pins_have_offers quotes_df
    (fold_left (handle_selection orders quotes_df) events supplier_selections).
Proof.
  intros Hfixed. revert supplier_selections.
  induction events as [|event events IH]; intros supplier_selections Hpins.
  - done.
  - cbn [fold_left]. by apply IH, selection_keeps_offers_step.
Qed.

Lemma dict_get_keys k d : is_Some (dict_get k d) ↔ k ∈ d.*1.
Proof.
  induction d as [|[k' v'] d IH]; cbn [dict_get].
  - split; [by intros [? ?]|by intros ?%elem_of_nil].
  - rewrite fmap_cons, elem_of_cons. simpl.
    destruct (decide (k' = k)) as [->|Hne]; [by split; [left|eexists]|].
    rewrite IH. split; [by right|]. by intros [?|?].
Qed.

Lemma excel_row_keys quotes_df supplier_selections part total_qty k :
  k ∈ (excel_row quotes_df supplier_selections part total_qty).*1
  ↔ k ∈ all_suppliers quotes_df ∨ k ∈ fixed_columns.
Proof.
  rewrite <-dict_get_keys, excel_row_get.
  destruct (decide (k ∈ all_suppliers quotes_df)) as [Hin|Hout].
  - split; [by left|by eexists].
  - rewrite dict_get_keys. simpl. unfold fixed_columns. tauto.
Qed.

(** X9. A click on the cell of a supplier (a column given by name) in the
    row of a part, no supplier being named like a fixed column: when the
    supplier's first offer for the part has a positive quantity the part is
    pinned to that supplier and nothing else changes; otherwise the
    selections stay as they were. *)
Theorem selection_of_cell orders quotes_df
    (supplier_selections : gmap string string) row_idx part supplier rows cols :
  Forall (λ r, quote_Supplier r ∉ fixed_columns) quotes_df →
  0 ≤ row_idx →
  unique (order_PartNumber <$> orders) !! Z.to_nat row_idx = Some part →
  supplier ∈ quote_Supplier <$> quotes_df →
  handle_selection orders quotes_df supplier_selections
    (mkEvent [(row_idx, ColName supplier)] rows cols)
  = match selected_quote quotes_df part supplier with
    | Some q =>
        if quote_AvailableQty q >? 0
        then <[part := supplier]> supplier_selections
        else supplier_selections
    | None => supplier_selections
    end.
Proof.
  intros Hfixed Hrow Hpart Hsup.
  assert (supplier ∈ all_suppliers quotes_df) as Hall
    by (by apply all_suppliers_elem).
  assert (supplier ∉ fixed_columns) as Hnf.
  { apply list_elem_of_fmap in Hsup as (r & -> & Hr).
    by eapply Forall_forall in Hfixed. }
  unfold handle_selection. cbn [ev_cells].
  rewrite create_excel_dataframe_rows.
  set (row := λ p, excel_row quotes_df supplier_selections p
                     (default 0 (qty_required orders p))).
  assert ((row <$> unique (order_PartNumber <$> orders)) !! Z.to_nat row_idx
          = Some (row part)) as Hlook
    by (by rewrite list_lookup_fmap, Hpart).
  pose proof (lookup_lt_Some _ _ _ Hlook) as Hlen.
  assert (supplier ∈ excel_columns (row <$> unique (order_PartNumber <$> orders)))
    as Hcol.
  { destruct (unique (order_PartNumber <$> orders)) as [|p ps] eqn:Hps;
      [done|].
    rewrite fmap_cons. simpl. apply excel_row_keys. by left. }
  rewrite decide_True by done.
  assert ((0 <=? row_idx)
          && (row_idx <? Z.of_nat (length (row <$> unique
                                     (order_PartNumber <$> orders)))) = true)
    as ->.
  { apply andb_true_intro. split; [by apply Z.leb_le|].
    apply Z.ltb_lt. lia. }
  unfold select_cell. rewrite Hlook. unfold row at 1 2.
  rewrite !excel_row_get.
  assert ("Part Number" ∉ all_suppliers quotes_df) as Hpn.
  { intros Hin. apply all_suppliers_elem in Hin.
    apply list_elem_of_fmap in Hin as (r & Heq & Hr).
    eapply Forall_forall in Hfixed; [|exact Hr]. simpl in Hfixed.
    apply Hfixed. rewrite <-Heq. left. }
  rewrite decide_False by done. simpl.
  rewrite bool_decide_eq_true_2 by done.
  rewrite decide_True by done.
  pose proof (excel_cell_offer quotes_df part supplier) as Hoffer.
  destruct (decide (excel_cell quotes_df part supplier ≠ VStr "N/A"))
    as [Hcell|Hcell].
  - apply Hoffer in Hcell as (q & -> & Hq).
    rewrite Z.gtb_ltb. by destruct (Z.ltb_spec 0 (quote_AvailableQty q)); [|lia].
  - destruct (selected_quote quotes_df part supplier) as [q|]; [|done].
    rewrite Z.gtb_ltb. destruct (Z.ltb_spec 0 (quote_AvailableQty q)); [|done].
    exfalso. apply Hcell, Hoffer. exists q. split; [done|lia].
Qed.

Section pinned_first.
Context {PS : PriceSort}.


End pinned_first.

(** ** The selection table at the examples *)

Section selection_examples.
Local Existing Instance stable_sort.

Lemma ex3_no_fixed_names :
  Forall (λ r, quote_Supplier r ∉ fixed_columns) ex3_quotes.
Proof. repeat constructor; compute_done. Qed.

Lemma selection_keeps_offers_witness :
  pins_have_offers ex3_quotes
    (fold_left (handle_selection ex3_orders ex3_quotes)
               [ex3_click_D; ex3_click_C_by_position] ex3_selections).
Proof.
  apply (selection_keeps_offers ex3_orders ex3_quotes ex3_selections
           [ex3_click_D; ex3_click_C_by_position]).
  - exact ex3_no_fixed_names.
  - unfold ex3_selections. intros part supplier [<- <-]%lookup_singleton_Some.
    exists (mkQuote "SupplierC" "P3" 8 3). split; [reflexivity|simpl; lia].
Defined.

Lemma selection_of_cell_witness :
  handle_selection ex3_orders ex3_quotes ex3_selections ex3_click_D
  = <["P3" := "SupplierD"]> ex3_selections.
Proof.
  unfold ex3_click_D.
  rewrite (selection_of_cell ex3_orders ex3_quotes ex3_selections 0
             "P3" "SupplierD" [] []);
    [reflexivity|exact ex3_no_fixed_names|lia|reflexivity|compute_done].
Defined.


End selection_examples.

(** ** Authentication: no call raises *)

Section authentication.
Context `{Sha256}.

Lemma attempts_ok_insert s username attempts_data :
  attempts_ok s →
  (max_login_attempts ≤ count attempts_data →
   is_Some (lockout_time attempts_data)) →
  attempts_ok
    (set_login_attempts (<[username := attempts_data]> (login_attempts s)) s).
Proof.
  intros Hok Hnew u a. simpl.
  destruct (decide (username = u)) as [->|Hne].
  - rewrite lookup_insert_eq. by intros [= <-].
  - rewrite lookup_insert_ne by done. apply Hok.
Qed.

Lemma record_failed_login_ok username now s :
  attempts_ok s → attempts_ok (record_failed_login username now s).
Proof.
  intros Hok. apply attempts_ok_insert; [done|]. simpl.
  intros Hmax. rewrite Z.geb_leb.
  by destruct (Z.leb_spec max_login_attempts
                 (count (default (mkAttempts 0 None)
                                 (login_attempts s !! username)) + 1));
    [|lia].
Qed.

Lemma reset_login_attempts_ok username s :
  attempts_ok s → attempts_ok (reset_login_attempts username s).
Proof.
  intros Hok. unfold reset_login_attempts.
  destruct (login_attempts s !! username); [|done].
  apply attempts_ok_insert; [done|]. simpl. unfold max_login_attempts. lia.
Qed.

(** [is_user_locked_out] returns when the counters are in order, and
    touches nothing but the counter of its user. *)
Lemma is_user_locked_out_ok username now s :
  attempts_ok s →
  ∃ locked s',
    is_user_locked_out username now s = Ok (locked, s')
    ∧ attempts_ok s'
    ∧ authenticated s' = authenticated s
    ∧ login_time s' = login_time s.
Proof.
  intros Hok. unfold is_user_locked_out.
  destruct (login_attempts s !! username) as [a|] eqn:Ha;
    [|by exists false, s].
  destruct (Z.ltb_spec (count a) max_login_attempts) as [Hlt|Hge];
    [by exists false, s|].
  destruct (Hok _ _ Ha Hge) as [t ->].
  destruct (_ >? _).
  - eexists false, _. split_and!; [done| |done|done].
    apply attempts_ok_insert; [done|]. simpl. unfold max_login_attempts. lia.
  - by exists true, s.
Qed.

Lemma authenticate_user_ok username password now later token store s :
  attempts_ok s →
  ∃ ok s',
    authenticate_user username password now later token store s = Ok (ok, s')
    ∧ attempts_ok s'
    ∧ (session_ok s → session_ok s').
Proof.
  intros Hok. unfold authenticate_user.
  destruct (is_user_locked_out_ok username now s Hok)
    as (locked & s1 & -> & Hok1 & Hauth & Htime).
  assert (session_ok s → session_ok s1) as Hs1
    by (unfold session_ok; by rewrite Hauth, Htime).
  destruct locked; [by exists false, s1|].
  destruct (load_users store !! username) as [user|].
  - destruct (verify_password password (password_hash user)); simpl.
    + eexists true, _. split_and!; [done| |by eexists].
      intros u a. simpl.
      apply (reset_login_attempts_ok username s1 Hok1).
    + eexists false, _. split_and!; [done| |].
      * by apply record_failed_login_ok.
      * intros Hs. by apply Hs1 in Hs.
  - eexists false, _. split_and!; [done| |].
    + by apply record_failed_login_ok.
    + intros Hs. by apply Hs1 in Hs.
Qed.

Lemma call_ok c store s :
  attempts_ok s → session_ok s →
  ∃ store' s',
    call c (store, s) = Ok (store', s') ∧ attempts_ok s' ∧ session_ok s'.
Proof.
  intros Hok Hs.
  destruct c as [now|now|now|u now|u now|u|u p now later token
                |u p now later token| |u p r now|u|u p|u r]; cbn [call].
  - eexists _, _. split; [done|]. unfold is_session_valid.
    destruct (authenticated s) eqn:Hauth; simpl; [|done].
    destruct (login_time s) eqn:Htime; [|done].
    destruct (_ >? _); [|done]. by split.
  - eexists _, _. split; [done|]. unfold refresh_session.
    destruct (authenticated s) eqn:Hauth; simpl; [|done].
    split; [done|]. by eexists.
  - exists store, s. unfold get_session_info.
    destruct (authenticated s) eqn:Hauth; simpl; [|done].
    by destruct (Hs Hauth) as [t ->].
  - destruct (is_user_locked_out_ok u now s Hok)
      as (locked & s1 & -> & Hok1 & Hauth & Htime).
    exists store, s1. split_and!; [done|done|].
    unfold session_ok. by rewrite Hauth, Htime.
  - eexists _, _. split_and!; [done| |done]. by apply record_failed_login_ok.
  - eexists _, _. split_and!; [done| |].
    + by apply reset_login_attempts_ok.
    + unfold reset_login_attempts. by destruct (login_attempts s !! u).
  - destruct (authenticate_user_ok u p now later token store s Hok)
      as (ok & s1 & -> & Hok1 & Hs1).
    exists store, s1. split_and!; [done|done|by apply Hs1].
  - unfold show_login_form. destruct (decide _); [by exists store, s|].
    destruct (authenticate_user_ok u p now later token store s Hok)
      as (ok & s1 & -> & Hok1 & Hs1).
    exists store, s1. split_and!; [done|done|by apply Hs1].
  - by eexists _, _.
  - by eexists _, _.
  - by eexists _, _.
  - by eexists _, _.
  - by eexists _, _.
Qed.

(** X11. From a fresh session state no series of calls of the module's
    functions raises, whatever the users, the forms, the clock readings
    and the order of the calls: [fromisoformat] never meets a missing
    lockout time or login time, because in every state reached a counter
    at the limit has its lockout time and an authenticated session has its
    login time. *)
Theorem calls_never_raise cs store :
  ∃ st,
    calls cs (store, initialize_session_state) = Ok st
    ∧ attempts_ok st.2 ∧ session_ok st.2.
Proof.
  assert (∀ st, attempts_ok st.2 → session_ok st.2 →
            ∃ st', calls cs st = Ok st' ∧ attempts_ok st'.2 ∧ session_ok st'.2)
    as Hall.
  { induction cs as [|c cs IH]; intros [store0 s] Hok Hs; cbn [calls].
    - by exists (store0, s).
    - destruct (call_ok c store0 s Hok Hs) as (store' & s' & -> & Hok' & Hs').
      by apply IH. }
  apply Hall.
  - intros u a Hu. simpl in Hu. by rewrite lookup_empty in Hu.
  - done.
Qed.

End authentication.

(** ** Authentication: the lockout *)

Section lockout.
Context `{Sha256}.

Lemma is_user_locked_out_frame username now s locked s' other :
  is_user_locked_out username now s = Ok (locked, s') →
  other ≠ username →
  login_attempts s' !! other = login_attempts s !! other.
Proof.
  unfold is_user_locked_out. intros Hout Hne.
  destruct (login_attempts s !! username) as [a|]; [|by injection Hout as _ <-].
  destruct (_ <? _); [by injection Hout as _ <-|].
  destruct (lockout_time a); [|done].
  destruct (_ >? _); injection Hout as _ <-; [|done].
  simpl. by rewrite lookup_insert_ne.
Qed.

Lemma attempt_frame a s ok s' other :
  attempt a s = Ok (ok, s') →
  other ≠ att_username a →
  login_attempts s' !! other = login_attempts s !! other.
Proof.
  unfold attempt, authenticate_user. intros Hatt Hne.
  destruct (is_user_locked_out _ _ s) as [[locked s1]|] eqn:Hout; [|done].
  pose proof (is_user_locked_out_frame _ _ _ _ _ other Hout Hne) as Hframe.
  assert (login_attempts (record_failed_login (att_username a) (att_later a) s1)
          !! other = login_attempts s !! other) as Hrecord
    by (simpl; by rewrite lookup_insert_ne).
  destruct locked; [by injection Hatt as _ <-|].
  destruct (load_users _ !! _) as [user|]; [|by injection Hatt as _ <-].
  destruct (verify_password _ _); simpl in Hatt; injection Hatt as _ <-; [|done].
  simpl. unfold reset_login_attempts.
  destruct (login_attempts s1 !! att_username a); [|done].
  simpl. by rewrite lookup_insert_ne.
Qed.

(** A failed attempt below the limit is counted, and the one that
    reaches the limit starts the lockout. *)
Lemma attempt_wrong a s :
  recorded_failures s (att_username a) < max_login_attempts →
  wrong_credentials a →
  attempt a s = Ok (false, record_failed_login (att_username a) (att_later a) s).
Proof.
  unfold recorded_failures, wrong_credentials, attempt, authenticate_user,
    is_user_locked_out.
  intros Hlt Hwrong.
  destruct (login_attempts s !! att_username a) as [d|] eqn:Hd; simpl in Hlt.
  - destruct (Z.ltb_spec (count d) max_login_attempts); [|lia].
    destruct (load_users _ !! _); [|done]. by rewrite Hwrong.
  - destruct (load_users _ !! _); [|done]. by rewrite Hwrong.
Qed.

Lemma attempt_locked a s c t :
  login_attempts s !! att_username a = Some (mkAttempts c (Some t)) →
  max_login_attempts ≤ c →
  att_now a - t ≤ timedelta_minutes lockout_duration_minutes →
  attempt a s = Ok (false, s).
Proof.
  unfold attempt, authenticate_user, is_user_locked_out.
  intros -> Hc Ht. simpl.
  destruct (Z.ltb_spec c max_login_attempts); [lia|].
  rewrite Z.gtb_ltb.
  by destruct (Z.ltb_spec (timedelta_minutes lockout_duration_minutes)
                 (att_now a - t)); [lia|].
Qed.

Lemma attempt_unlocked a s c t user :
  login_attempts s !! att_username a = Some (mkAttempts c (Some t)) →
  max_login_attempts ≤ c →
  att_now a - t > timedelta_minutes lockout_duration_minutes →
  load_users (att_store a) !! att_username a = Some user →
  verify_password (att_password a) (password_hash user) = true →
  ∃ s', attempt a s = Ok (true, s')
        ∧ recorded_failures s' (att_username a) = 0
        ∧ username s' = Some (att_username a)
        ∧ user_role s' = Some (role user).
Proof.
  unfold attempt, authenticate_user, is_user_locked_out.
  intros -> Hc Ht -> ->. simpl.
  destruct (Z.ltb_spec c max_login_attempts); [lia|].
  rewrite Z.gtb_ltb.
  destruct (Z.ltb_spec (timedelta_minutes lockout_duration_minutes)
              (att_now a - t)); [|lia].
  eexists. split_and!; [done| |done|done].
  unfold recorded_failures, reset_login_attempts. simpl.
  rewrite lookup_insert_eq. simpl. by rewrite lookup_insert_eq.
Qed.

Lemma attempts_lock username t l : ∀ s,
  attempts_ok s →
  0 ≤ recorded_failures s username →
  recorded_failures s username
  + Z.of_nat (length (filter (λ a, att_username a = username) l))
  = max_login_attempts →
  Forall wrong_credentials (filter (λ a, att_username a = username) l) →
  lock_time s username (filter (λ a, att_username a = username) l) = Some t →
  ∃ s', attempts l s = Ok s'
        ∧ login_attempts s' !! username
          = Some (mkAttempts max_login_attempts (Some t)).
Proof.
  induction l as [|a l IH]; intros s Hok Hpos Hcount Hwrong Htime.
  - exists s. split; [done|]. unfold lock_time, recorded_failures in *.
    simpl in *. rewrite Z.add_0_r in Hcount.
    destruct (login_attempts s !! username) as [[c lt]|]; simpl in *; [|done].
    by subst.
  - cbn [attempts].
    destruct (decide (att_username a = username)) as [Hmine|Hother].
    + rewrite filter_cons_True in Hcount, Hwrong, Htime by done.
      apply Forall_cons in Hwrong as [Ha Hwrong].
      cbn [length] in Hcount.
      rewrite attempt_wrong; [|rewrite Hmine; lia|done].
      assert (recorded_failures
                (record_failed_login (att_username a) (att_later a) s) username
              = recorded_failures s username + 1) as Hrec.
      { unfold recorded_failures. simpl. rewrite Hmine, lookup_insert_eq.
        simpl. by destruct (login_attempts s !! username). }
      apply IH.
      * by apply record_failed_login_ok.
      * lia.
      * lia.
      * done.
      * unfold lock_time in *.
        destruct (filter _ l) as [|b bs] eqn:Hrest.
        -- simpl in *. injection Htime as <-.
           rewrite Hmine, lookup_insert_eq. simpl.
           rewrite Z.geb_leb.
           assert (recorded_failures s username = 2) as Hs
             by (unfold max_login_attempts in Hcount; lia).
           unfold recorded_failures in Hs.
           destruct (login_attempts s !! username) as [d|]; simpl in *;
             [by rewrite Hs|done].
        -- rewrite last_cons_cons in Htime.
           destruct (last (b :: bs)) eqn:Hl; [done|].
           by apply last_None in Hl.
    + rewrite filter_cons_False in Hcount, Hwrong, Htime by done.
      destruct (authenticate_user_ok (att_username a) (att_password a)
                  (att_now a) (att_later a) (att_token a) (att_store a) s Hok)
        as (ok & s1 & Hatt & Hok1 & _).
      fold (attempt a s) in Hatt. rewrite Hatt.
      assert (login_attempts s1 !! username = login_attempts s !! username)
        as Hframe by (by eapply attempt_frame).
      apply IH; unfold recorded_failures, lock_time in *;
        rewrite ?Hframe; done.
Qed.

(** X12. Three failed attempts lock a user out for fifteen minutes.  From
    a state with no failure recorded for the user, after any series of
    login attempts of which exactly three name the user, all three with
    wrong credentials (attempts for other users interleaved at will), every
    further attempt for the user fails and changes nothing while at most
    15 minutes have passed since the third failure was recorded, the right
    password included; once more than 15 minutes have passed, an attempt
    with the right password logs in and clears the counter. *)
Theorem lockout_after_three_failures l s username third :
  attempts_ok s →
  recorded_failures s username = 0 →
  length (filter (λ a, att_username a = username) l) = 3%nat →
  Forall wrong_credentials (filter (λ a, att_username a = username) l) →
  last (filter (λ a, att_username a = username) l) = Some third →
  ∃ s',
    attempts l s = Ok s'
    ∧ (∀ a, att_username a = username →
            att_now a - att_later third
            ≤ timedelta_minutes lockout_duration_minutes →
            attempt a s' = Ok (false, s'))
    ∧ (∀ a, att_username a = username →
            att_now a - att_later third
            > timedelta_minutes lockout_duration_minutes →
            ¬ wrong_credentials a →
            ∃ s'', attempt a s' = Ok (true, s'')
                   ∧ recorded_failures s'' username = 0).
Proof.
  intros Hok Hzero Hlen Hwrong Hlast.
  destruct (attempts_lock username (att_later third) l s) as (s' & Hrun & Hs');
    [done|lia|rewrite Hzero, Hlen; done|done
    |by unfold lock_time; rewrite Hlast|].
  exists s'. split_and!; [done| |].
  - intros a <- Ht. by eapply attempt_locked.
  - intros a <- Ht Hright. unfold wrong_credentials in Hright.
    destruct (load_users (att_store a) !! att_username a) as [user|] eqn:Hu;
      [|done].
    apply not_false_is_true in Hright.
    destruct (attempt_unlocked a s' _ _ user Hs') as (s'' & -> & Hc & _);
      [done|done|done|done|].
    by exists s''.
Qed.

End lockout.

(** ** Authentication: sessions and the users *)

Section users.
Context `{Sha256}.

Lemma load_users_save users store :
  users_json_writable store = true →
  load_users (save_users users store) = users.
Proof. unfold save_users, load_users. by intros ->. Qed.

Lemma recorded_failures_not_locked name now s :
  recorded_failures s name < max_login_attempts →
  is_user_locked_out name now s = Ok (false, s).
Proof.
  unfold recorded_failures, is_user_locked_out.
  destruct (login_attempts s !! name) as [d|]; simpl; [|done].
  intros Hlt. by destruct (Z.ltb_spec (count d) max_login_attempts); [|lia].
Qed.

Lemma recorded_failures_reset name s :
  recorded_failures (reset_login_attempts name s) name = 0.
Proof.
  unfold recorded_failures, reset_login_attempts.
  destruct (login_attempts s !! name) eqn:Hd; simpl.
  - by rewrite lookup_insert_eq.
  - by rewrite Hd.
Qed.

(** X13. A user created by an administrator can log in.  When the file can
    be written and the name is new, [create_new_user] returns [True] and
    leaves the other users as they were; from then on an attempt for the
    new name, the user not being at the limit of failed attempts, succeeds
    exactly when the password has the digest of the one given at the
    creation: then the session is authenticated under the new name with
    the role given at the creation and the counter of the user is cleared,
    otherwise the failure is recorded. *)
Theorem created_user_can_login new_username new_password new_role now s store :
  user_role s = Some "admin" →
  load_users store !! new_username = None →
  users_json_writable store = true →
  ∃ store',
    create_new_user new_username new_password new_role now s store
    = (true, store')
    ∧ (∀ other, other ≠ new_username →
                load_users store' !! other = load_users store !! other)
    ∧ ∀ s2 password now2 later token,
        recorded_failures s2 new_username < max_login_attempts →
        ∃ s3,
          authenticate_user new_username password now2 later token store' s2
          = Ok (bool_decide (hash_password password = hash_password new_password),
                s3)
          ∧ (hash_password password = hash_password new_password →
             authenticated s3 = true
             ∧ username s3 = Some new_username
             ∧ user_role s3 = Some new_role
             ∧ login_time s3 = Some later
             ∧ recorded_failures s3 new_username = 0)
          ∧ (hash_password password ≠ hash_password new_password →
             s3 = record_failed_login new_username later s2).
Proof.
  intros Hrole Hnew Hw. eexists. unfold create_new_user.
  rewrite decide_False by (by rewrite Hrole; intros ?). rewrite Hnew.
  split_and!; [done| |].
  - intros other Hne. rewrite load_users_save by done.
    by rewrite lookup_insert_ne.
  - intros s2 password now2 later token Hlt. unfold authenticate_user.
    rewrite recorded_failures_not_locked by done.
    rewrite load_users_save by done. rewrite lookup_insert_eq.
    unfold verify_password. simpl.
    destruct (decide (hash_password password = hash_password new_password))
      as [Heq|Hne].
    + rewrite !bool_decide_eq_true_2 by done. simpl.
      eexists. split_and!; [done| |done]. intros _.
      split_and!; [done..|]. apply recorded_failures_reset.
    + rewrite !bool_decide_eq_false_2 by done. simpl.
      eexists. split_and!; [done|done|done].
Qed.

Lemma authenticate_user_success name password now later token store s s1 :
  authenticate_user name password now later token store s = Ok (true, s1) →
  authenticated s1 = true ∧ login_time s1 = Some later
  ∧ username s1 = Some name.
Proof.
  unfold authenticate_user.
  destruct (is_user_locked_out name now s) as [[[] s0]|]; [done| |done].
  destruct (load_users store !! name) as [user|]; [|done].
  destruct (verify_password _ _); simpl; [|done].
  by intros [= <-].
Qed.

(** X14. A login lasts ten minutes from the time it was recorded, or from
    the last refresh: [is_session_valid] accepts the session exactly while
    at most 10 minutes have passed, and logs it out the first time it
    sees more.  After that, or after [logout_user], the session is not
    accepted again whatever the clock reads, [refresh_session] does not
    bring it back, and every function of the user management refuses and
    leaves the users as they are. *)
Theorem session_lifetime name password now later token store s s1 :
  authenticate_user name password now later token store s = Ok (true, s1) →
  (∀ check,
     is_session_valid check s1
     = if decide (check - later ≤ timedelta_minutes session_timeout_minutes)
       then (true, s1) else (false, logout_user s1))
  ∧ (∀ refreshed check,
       is_session_valid check (refresh_session refreshed s1).2
       = if decide (check - refreshed
                    ≤ timedelta_minutes session_timeout_minutes)
         then (true, (refresh_session refreshed s1).2)
         else (false, logout_user s1))
  ∧ (let s2 := logout_user s1 in
     (∀ check, is_session_valid check s2 = (false, s2))
     ∧ (∀ refreshed, refresh_session refreshed s2 = (false, s2))
     ∧ ∀ users,
         get_all_users s2 users = ∅
         ∧ (∀ u p r t, create_new_user u p r t s2 users = (false, users))
         ∧ (∀ u, delete_user u s2 users = (false, users))
         ∧ (∀ u p, update_user_password u p s2 users = (false, users))
         ∧ (∀ u r, update_user_role u r s2 users = (false, users))).
Proof.
  intros (Hauth & Htime & _)%authenticate_user_success.
  split_and!.
  - intros check. unfold is_session_valid. rewrite Hauth, Htime. simpl.
    rewrite Z.gtb_ltb.
    destruct (Z.ltb_spec (timedelta_minutes session_timeout_minutes)
                (check - later));
      [by rewrite decide_False by lia|by rewrite decide_True by lia].
  - intros refreshed check. unfold refresh_session, is_session_valid.
    rewrite Hauth. simpl.
    rewrite Z.gtb_ltb.
    destruct (Z.ltb_spec (timedelta_minutes session_timeout_minutes)
                (check - refreshed));
      [by rewrite decide_False by lia|by rewrite decide_True by lia].
  - done.
Qed.

Lemma load_users_changed name user store :
  let store' :=
    save_users (<[name := user]> (load_users store)) (set_inner name user store)
  in
  load_users store' = load_users store
  ∨ load_users store' = <[name := user]> (load_users store).
Proof.
  unfold save_users, set_inner, load_users.
  destruct store as [defaults [file|] []]; simpl; auto.
Qed.

(** The account named admin keeps its role and its date through a call. *)
Lemma call_keeps_admin c store s store' s' account :
  load_users store !! "admin" = Some account →
  call c (store, s) = Ok (store', s') →
  ∃ account',
    load_users store' !! "admin" = Some account'
    ∧ role account' = role account
    ∧ created_at account' = created_at account.
Proof.
  intros Hadmin Hcall.
  assert (store' = store →
          ∃ account', load_users store' !! "admin" = Some account'
                      ∧ role account' = role account
                      ∧ created_at account' = created_at account) as Hsame
    by (intros ->; by exists account).
  destruct c as [now|now|now|u now|u now|u|u p now later token
                |u p now later token| |u p r now|u|u p|u r]; cbn [call] in Hcall.
  - apply Hsame. by injection Hcall.
  - apply Hsame. by injection Hcall.
  - apply Hsame. destruct (get_session_info now s); [|done]. by injection Hcall.
  - apply Hsame. destruct (is_user_locked_out u now s) as [[? ?]|]; [|done].
    by injection Hcall.
  - apply Hsame. by injection Hcall.
  - apply Hsame. by injection Hcall.
  - apply Hsame.
    destruct (authenticate_user u p now later token store s) as [[? ?]|];
      [|done].
    by injection Hcall.
  - apply Hsame.
    destruct (show_login_form u p now later token store s); [|done].
    by injection Hcall.
  - apply Hsame. by injection Hcall.
  - injection Hcall as <- _. unfold create_new_user.
    destruct (decide _); [by exists account|].
    destruct (load_users store !! u) eqn:Hu; [by exists account|].
    unfold save_users, snd.
    destruct (users_json_writable store); [|by exists account].
    exists account. split_and!; [|done|done].
    unfold load_users at 1. simpl. rewrite lookup_insert_ne; [done|].
    intros ->. by rewrite Hadmin in Hu.
  - injection Hcall as <- _. unfold delete_user.
    destruct (decide _); [by exists account|].
    destruct (decide (u = "admin")); [by exists account|].
    destruct (load_users store !! u) eqn:Hu; [|by exists account].
    unfold save_users, snd.
    destruct (users_json_writable store); [|by exists account].
    exists account. split_and!; [|done|done].
    unfold load_users at 1. simpl. by rewrite lookup_delete_ne.
  - injection Hcall as <- _. unfold update_user_password.
    destruct (decide _); [by exists account|].
    destruct (load_users store !! u) as [user|] eqn:Hu; [|by exists account].
    unfold snd.
    destruct (load_users_changed u
                (mkUser (hash_password p) (role user) (created_at user)) store)
      as [->| ->]; [by exists account|].
    destruct (decide (u = "admin")) as [->|Hne].
    + rewrite lookup_insert_eq. eexists. split; [done|].
      rewrite Hadmin in Hu. by injection Hu as ->.
    + rewrite lookup_insert_ne by done. by exists account.
  - injection Hcall as <- _. unfold update_user_role.
    destruct (decide _); [by exists account|].
    destruct (decide (u = "admin")) as [->|Hne]; [by exists account|].
    destruct (load_users store !! u) as [user|] eqn:Hu; [|by exists account].
    unfold snd.
    destruct (load_users_changed u
                (mkUser (password_hash user) r (created_at user)) store)
      as [->| ->]; [by exists account|].
    rewrite lookup_insert_ne by done. by exists account.
Qed.

(** X15. The account named admin is protected: once it is among the users,
    no series of calls of the module's functions, by whatever session,
    removes it or changes its role or its date of creation, whether
    [users.json] exists or can be written or not.  (Its password can be
    changed.) *)
Theorem admin_account_kept cs store s store' s' account :
  load_users store !! "admin" = Some account →
  calls cs (store, s) = Ok (store', s') →
  ∃ account',
    load_users store' !! "admin" = Some account'
    ∧ role account' = role account
    ∧ created_at account' = created_at account.
Proof.
  revert store s account.
  induction cs as [|c cs IH]; intros store s account Hadmin Hcalls;
    cbn [calls] in Hcalls.
  - injection Hcalls as <- <-. by exists account.
  - destruct (call c (store, s)) as [[store1 s1]|] eqn:Hcall; [|done].
    destruct (call_keeps_admin _ _ _ _ _ _ Hadmin Hcall)
      as (account1 & Hadmin1 & Hrole1 & Hdate1).
    destruct (IH _ _ _ Hadmin1 Hcalls) as (account' & ? & Hrole & Hdate).
    exists account'. split_and!; [done|congruence|congruence].
Qed.

(** X16. What an administrator changes when [users.json] is missing and
    cannot be written.  [create_new_user] and [delete_user] return [True]
    although nothing is saved: the users that [load_users] gives next are
    as before.  [update_user_password] and [update_user_role] also save
    nothing, yet the users that [load_users] gives next carry the new
    password or role: the assignment goes through the shallow copy into
    the dictionaries of [DEFAULT_USERS]. *)
Theorem unsaved_changes store s name :
  users_json store = None →
  users_json_writable store = false →
  user_role s = Some "admin" →
  name ≠ "admin" →
  (∀ p r t,
     load_users store !! name = None →
     ∃ store', create_new_user name p r t s store = (true, store')
               ∧ load_users store' = load_users store)
  ∧ (∀ user,
       load_users store !! name = Some user →
       (∃ store', delete_user name s store = (true, store')
                  ∧ load_users store' = load_users store)
       ∧ (∀ p, ∃ store',
            update_user_password name p s store = (true, store')
            ∧ users_json store' = None
            ∧ load_users store'
              = <[name := mkUser (hash_password p) (role user)
                                 (created_at user)]> (load_users store))
       ∧ (∀ r, ∃ store',
            update_user_role name r s store = (true, store')
            ∧ users_json store' = None
            ∧ load_users store'
              = <[name := mkUser (password_hash user) r (created_at user)]>
                  (load_users store))).
Proof.
  intros Hfile Hw Hrole Hname.
  assert (¬ user_role s ≠ Some "admin") as Hadmin by (by rewrite Hrole; intros ?).
  split.
  - intros p r t Hnew. unfold create_new_user.
    rewrite decide_False, Hnew by done. eexists. split; [done|].
    unfold save_users. by rewrite Hw.
  - intros user Huser. split_and!.
    + unfold delete_user. rewrite decide_False by done.
      rewrite decide_False, Huser by done. eexists. split; [done|].
      unfold save_users. by rewrite Hw.
    + intros p. unfold update_user_password.
      rewrite decide_False, Huser by done. eexists. split; [done|].
      unfold save_users, set_inner, load_users. rewrite Hfile. simpl.
      by rewrite Hw.
    + intros r. unfold update_user_role.
      rewrite decide_False by done.
      rewrite decide_False, Huser by done. eexists. split; [done|].
      unfold save_users, set_inner, load_users. rewrite Hfile. simpl.
      by rewrite Hw.
Qed.

(** X17. The minutes shown for a session.  For an authenticated session,
    [get_session_info] asks for a refresh exactly when 7 minutes or more
    have passed since the login time, and [is_session_valid] warns of the
    expiry exactly when 8 minutes or more have passed; while
    [is_session_valid] accepts the session [minutes_left] is the number
    computed, never cut at 0, and it is at most 10 when the clock has not
    gone back. *)
Theorem session_info_minutes now s t :
  authenticated s = true →
  login_time s = Some t →
  ∃ info,
    get_session_info now s = Ok (Some info)
    ∧ info_needs_refresh info = bool_decide (timedelta_minutes 7 ≤ now - t)
    ∧ (is_Some (expiry_warning now t) ↔ timedelta_minutes 8 ≤ now - t)
    ∧ ((is_session_valid now s).1 = true →
       info_minutes_left info
       = session_timeout_minutes - whole_minutes (now - t)
       ∧ (t ≤ now → 0 ≤ info_minutes_left info ≤ session_timeout_minutes)).
Proof.
  intros Hauth Htime. unfold get_session_info, is_session_valid.
  rewrite Hauth, Htime. simpl. eexists. split; [done|]. simpl.
  unfold expiry_warning, whole_minutes, timedelta_minutes,
    session_timeout_minutes, session_refresh_threshold_minutes,
    auto_logout_warning_minutes.
  split_and!.
  - destruct (Z.leb_spec (10 - (now - t) ÷ 60000000) 3) as [Hle|Hgt].
    + symmetry. apply bool_decide_eq_true_2.
      Z.to_euclidean_division_equations. lia.
    + symmetry. apply bool_decide_eq_false_2.
      Z.to_euclidean_division_equations. lia.
  - destruct (Z.leb_spec (10 - (now - t) ÷ 60000000) 2) as [Hle|Hgt].
    + split; [intros _|by eexists].
      Z.to_euclidean_division_equations. lia.
    + split; [by intros [? ?]|]. intros Hge. exfalso.
      Z.to_euclidean_division_equations. lia.
  - rewrite Z.gtb_ltb.
    destruct (_ <? now - t) eqn:Hge; [done|]. apply Z.ltb_ge in Hge.
    intros _.
    assert ((now - t) ÷ 60000000 ≤ 10) as Hq
      by (Z.to_euclidean_division_equations; lia).
    split; [lia|]. intros Hback.
    assert (0 ≤ (now - t) ÷ 60000000)
      by (Z.to_euclidean_division_equations; lia).
    lia.
Qed.

End users.

(** ** Authentication at the examples *)

Section authentication_examples.
Local Existing Instance ex_digest.

Lemma initialize_session_state_ok : attempts_ok initialize_session_state.
Proof. intros u a Hu. simpl in Hu. by rewrite lookup_empty in Hu. Qed.

Lemma lockout_after_three_failures_witness :
  ∃ s',
    attempts ex_attempts initialize_session_state = Ok s'
    ∧ (∀ a, att_username a = "aman" →
            att_now a - 8 ≤ timedelta_minutes lockout_duration_minutes →
            attempt a s' = Ok (false, s'))
    ∧ (∀ a, att_username a = "aman" →
            att_now a - 8 > timedelta_minutes lockout_duration_minutes →
            ¬ wrong_credentials a →
            ∃ s'', attempt a s' = Ok (true, s'')
                   ∧ recorded_failures s'' "aman" = 0).
Proof.
  apply (lockout_after_three_failures ex_attempts initialize_session_state
           "aman" (ex_wrong 7 8)).
  - exact initialize_session_state_ok.
  - reflexivity.
  - reflexivity.
  - repeat constructor.
  - reflexivity.
Defined.

Lemma created_user_can_login_witness :
  ∃ store',
    create_new_user "carol" "pass" "user" 9 ex_admin ex_writable_store
    = (true, store')
    ∧ (∀ other, other ≠ "carol" →
                load_users store' !! other
                = load_users ex_writable_store !! other)
    ∧ ∀ s2 password now2 later token,
        recorded_failures s2 "carol" < max_login_attempts →
        ∃ s3,
          authenticate_user "carol" password now2 later token store' s2
          = Ok (bool_decide (hash_password password = hash_password "pass"), s3)
          ∧ (hash_password password = hash_password "pass" →
             authenticated s3 = true
             ∧ username s3 = Some "carol"
             ∧ user_role s3 = Some "user"
             ∧ login_time s3 = Some later
             ∧ recorded_failures s3 "carol" = 0)
          ∧ (hash_password password ≠ hash_password "pass" →
             s3 = record_failed_login "carol" later s2).
Proof.
  apply (created_user_can_login "carol" "pass" "user" 9 ex_admin
           ex_writable_store); reflexivity.
Defined.

Lemma session_lifetime_witness :
  let s1 := mkAuth true (Some "bob") (Some "user") (Some 2) ∅ (Some "token") in
  (∀ check,
     is_session_valid check s1
     = if decide (check - 2 ≤ timedelta_minutes session_timeout_minutes)
       then (true, s1) else (false, logout_user s1))
  ∧ (∀ refreshed check,
       is_session_valid check (refresh_session refreshed s1).2
       = if decide (check - refreshed
                    ≤ timedelta_minutes session_timeout_minutes)
         then (true, (refresh_session refreshed s1).2)
         else (false, logout_user s1))
  ∧ (let s2 := logout_user s1 in
     (∀ check, is_session_valid check s2 = (false, s2))
     ∧ (∀ refreshed, refresh_session refreshed s2 = (false, s2))
     ∧ ∀ users,
         get_all_users s2 users = ∅
         ∧ (∀ u p r t, create_new_user u p r t s2 users = (false, users))
         ∧ (∀ u, delete_user u s2 users = (false, users))
         ∧ (∀ u p, update_user_password u p s2 users = (false, users))
         ∧ (∀ u r, update_user_role u r s2 users = (false, users))).
Proof.
  apply (session_lifetime "bob" "secret" 1 2 "token" ex_file_store
           initialize_session_state).
  reflexivity.
Defined.

Lemma admin_account_kept_witness :
  ∃ account',
    load_users
      (mkStore (DEFAULT_USERS_at_import 0)
               (Some {[ "admin" := mkUser "#new" "admin" 0 ]}) true)
    !! "admin" = Some account'
    ∧ role account' = "admin"
    ∧ created_at account' = 0.
Proof.
  apply (admin_account_kept
           [call_delete_user "admin"; call_update_user_role "admin" "user";
            call_delete_user "bob"; call_update_user_password "admin" "new"]
           ex_file_store ex_admin _ ex_admin (mkUser "#root" "admin" 0));
    [reflexivity|vm_compute; reflexivity].
Defined.

Lemma unsaved_changes_witness :
  (∀ p r t,
     load_users ex_store !! "aman" = None →
     ∃ store', create_new_user "aman" p r t ex_admin ex_store = (true, store')
               ∧ load_users store' = load_users ex_store)
  ∧ (∀ user,
       load_users ex_store !! "aman" = Some user →
       (∃ store', delete_user "aman" ex_admin ex_store = (true, store')
                  ∧ load_users store' = load_users ex_store)
       ∧ (∀ p, ∃ store',
            update_user_password "aman" p ex_admin ex_store = (true, store')
            ∧ users_json store' = None
            ∧ load_users store'
              = <["aman" := mkUser (hash_password p) (role user)
                                   (created_at user)]> (load_users ex_store))
       ∧ (∀ r, ∃ store',
            update_user_role "aman" r ex_admin ex_store = (true, store')
            ∧ users_json store' = None
            ∧ load_users store'
              = <["aman" := mkUser (password_hash user) r (created_at user)]>
                  (load_users ex_store))).
Proof.
  apply (unsaved_changes ex_store ex_admin "aman");
    [reflexivity|reflexivity|reflexivity|discriminate].
Defined.

Lemma session_info_minutes_witness :
  ∃ info,
    get_session_info 420000000 ex_admin = Ok (Some info)
    ∧ info_needs_refresh info = bool_decide (timedelta_minutes 7 ≤ 420000000 - 0)
    ∧ (is_Some (expiry_warning 420000000 0)
       ↔ timedelta_minutes 8 ≤ 420000000 - 0)
    ∧ ((is_session_valid 420000000 ex_admin).1 = true →
       info_minutes_left info
       = session_timeout_minutes - whole_minutes (420000000 - 0)
       ∧ (0 ≤ 420000000 →
          0 ≤ info_minutes_left info ≤ session_timeout_minutes)).
Proof.
  apply (session_info_minutes 420000000 ex_admin 0); reflexivity.
Defined.

End authentication_examples.

(** ** The price of a manual selection *)

Section pin_cost.
Context {PS : PriceSort}.

Lemma assignment_qty_cons rx (xs : list (QuoteRow * Z)) :
  assignment_qty (rx :: xs) = rx.2 + assignment_qty xs.
Proof. reflexivity. Qed.

Lemma assignment_cost_cons rx (xs : list (QuoteRow * Z)) :
  assignment_cost (rx :: xs) = rx.2 * quote_UnitPrice rx.1 + assignment_cost xs.
Proof. reflexivity. Qed.

Lemma assignment_qty_app (xs ys : list (QuoteRow * Z)) :
  assignment_qty (xs ++ ys) = assignment_qty xs + assignment_qty ys.
Proof. unfold assignment_qty. by rewrite fmap_app, sum_Z_app. Qed.

Lemma assignment_cost_app (xs ys : list (QuoteRow * Z)) :
  assignment_cost (xs ++ ys) = assignment_cost xs + assignment_cost ys.
Proof. unfold assignment_cost. by rewrite fmap_app, sum_Z_app. Qed.

(** The assignment that takes nothing from the rows. *)
Lemma nothing_taken (rows : list QuoteRow) :
  Forall (λ r, 0 ≤ quote_AvailableQty r) rows →
  ∃ xs, feasible rows xs ∧ assignment_qty xs = 0 ∧ assignment_cost xs = 0.
Proof.
  induction 1 as [|r rows Hr _ (xs & [Hfst Hxs] & Hq & Hc)].
  - exists []. by repeat split.
  - exists ((r, 0) :: xs). split_and!.
    + split; [by rewrite fmap_cons, Hfst|]. constructor; [simpl; lia|done].
    + rewrite assignment_qty_cons, Hq. done.
    + rewrite assignment_cost_cons, Hc. simpl. lia.
Qed.

(** What a walk takes is an assignment over its rows. *)
Lemma auto_walk_assignment part qty_needed rows :
  0 ≤ qty_needed →
  Forall (λ r, 0 ≤ quote_AvailableQty r) rows →
  ∃ xs, feasible rows xs
        ∧ assignment_qty xs = total_qty (auto_walk part qty_needed rows).1
        ∧ assignment_cost xs = total_cost (auto_walk part qty_needed rows).1.
Proof.
  intros Hq Hrows. revert qty_needed Hq.
  induction Hrows as [|r rows Hr _ IH]; intros qty_needed Hq.
  - exists []. by repeat split.
  - destruct (auto_walk_cons part qty_needed r rows Hq Hr) as (-> & -> & _).
    destruct (IH (qty_needed - Z.min qty_needed (quote_AvailableQty r)))
      as (xs & [Hfst Hxs] & <- & <-); [lia|].
    exists ((r, Z.min qty_needed (quote_AvailableQty r)) :: xs). split_and!.
    + split; [by rewrite fmap_cons, Hfst|]. constructor; [simpl; lia|done].
    + by rewrite assignment_qty_cons.
    + by rewrite assignment_cost_cons.
Qed.

(** No assignment over a rearrangement of the rows that takes what the
    walk over the sorted rows takes costs less than the walk. *)
Lemma sorted_walk_optimal part qty_needed rows xs :
  0 ≤ qty_needed →
  Forall (λ r, 0 ≤ quote_AvailableQty r) rows →
  xs.*1 ≡ₚ rows →
  Forall (λ rx, 0 ≤ rx.2 ≤ quote_AvailableQty rx.1) xs →
  assignment_qty xs = total_qty (auto_walk part qty_needed (sort_values rows)).1 →
  total_cost (auto_walk part qty_needed (sort_values rows)).1
  ≤ assignment_cost xs.
Proof.
  intros Hq Hrows Hfst Hxs Hqty.
  destruct (fst_Permutation_inv xs (sort_values rows)) as (xs' & Hperm & Hfst').
  { by rewrite Hfst, sort_values_perm. }
  assert (assignment_qty xs' = assignment_qty xs) as Hq'
    by (apply sum_Z_perm; by rewrite Hperm).
  assert (assignment_cost xs' = assignment_cost xs) as <-
    by (apply sum_Z_perm; by rewrite Hperm).
  apply greedy_optimal.
  - apply Sorted_StronglySorted; [apply _|]. apply sort_values_sorted.
  - by rewrite sort_values_perm.
  - done.
  - split; [done|]. by rewrite Hperm.
  - by rewrite Hq'.
Qed.

(** What the manual branch takes is an assignment over a rearrangement of
    the quotes of the part. *)
Lemma manual_branch_assignment quotes_df part selected_supplier qty_needed :
  Forall (λ r, quote_AvailableQty r > 0) quotes_df →
  0 ≤ qty_needed →
  ∃ xs,
    xs.*1 ≡ₚ quotes_of_part quotes_df part
    ∧ Forall (λ rx, 0 ≤ rx.2 ≤ quote_AvailableQty rx.1) xs
    ∧ assignment_qty xs
      = total_qty (manual_branch quotes_df part selected_supplier qty_needed).1
    ∧ assignment_cost xs
      = total_cost (manual_branch quotes_df part selected_supplier qty_needed).1.
Proof.
  intros Hav Hq.
  assert (∀ P `{!∀ r, Decision (P r)},
            Forall (λ r, 0 ≤ quote_AvailableQty r) (filter P quotes_df))
    as Hnn.
  { intros P ?. apply Forall_forall. intros r [_ Hr]%list_elem_of_filter.
    eapply Forall_forall in Hav; [|exact Hr]. simpl in Hav. lia. }
  assert (quotes_of_selected quotes_df part selected_supplier
          ++ quotes_of_others quotes_df part selected_supplier
          ≡ₚ quotes_of_part quotes_df part) as Hsplit.
  { rewrite quotes_of_selected_of_part.
    assert (quotes_of_others quotes_df part selected_supplier
            = filter (λ r, ¬ quote_Supplier r = selected_supplier)
                     (quotes_of_part quotes_df part)) as ->.
    { unfold quotes_of_others, quotes_of_part. rewrite list_filter_filter.
      apply filter_ext_Forall. eapply Forall_impl; [exact Hav|].
      intros r Hr. simpl in *. tauto. }
    apply filter_app_complement. }
  destruct (nothing_taken (quotes_of_others quotes_df part selected_supplier))
    as (zs & [Hzfst Hzs] & Hzq & Hzc);
    [unfold quotes_of_others; apply Hnn|].
  unfold manual_branch.
  destruct (quotes_of_selected quotes_df part selected_supplier)
    as [|q rest] eqn:Hsel.
  - exists zs. split_and!; [by rewrite Hzfst, <-Hsplit|done|done|done].
  - assert (Forall (λ r, 0 ≤ quote_AvailableQty r) (q :: rest)) as Hsel_nn.
    { rewrite <-Hsel. unfold quotes_of_selected. apply Hnn. }
    apply Forall_cons in Hsel_nn as [Hq_nn Hrest_nn].
    destruct (nothing_taken rest) as (rs & [Hrfst Hrs] & Hrq & Hrc); [done|].
    rewrite Z.geb_leb.
    destruct (Z.leb_spec qty_needed (quote_AvailableQty q)) as [Hle|Hlt].
    + exists ((q, qty_needed) :: rs ++ zs). split_and!.
      * rewrite fmap_cons, fmap_app, Hrfst, Hzfst. simpl. by rewrite <-Hsplit.
      * constructor; [simpl; lia|]. by apply Forall_app.
      * rewrite assignment_qty_cons, assignment_qty_app, Hrq, Hzq. simpl.
        rewrite total_qty_cons. simpl. unfold total_qty, sum_Z. simpl. lia.
      * rewrite assignment_cost_cons, assignment_cost_app, Hrc, Hzc. simpl.
        rewrite total_cost_cons. simpl. unfold total_cost, sum_Z. simpl. lia.
    + rewrite remaining_walk_auto by apply quotes_of_others_positive.
      destruct (auto_walk_assignment part (qty_needed - quote_AvailableQty q)
                  (sort_values
                     (quotes_of_others quotes_df part selected_supplier)))
        as (ws & [Hwfst Hws] & Hwq & Hwc); [lia| |].
      { rewrite sort_values_perm. unfold quotes_of_others. apply Hnn. }
      exists ((q, quote_AvailableQty q) :: rs ++ ws). split_and!.
      * rewrite fmap_cons, fmap_app, Hrfst, Hwfst. simpl.
        by rewrite sort_values_perm, <-Hsplit.
      * constructor; [simpl; lia|]. by apply Forall_app.
      * rewrite assignment_qty_cons, assignment_qty_app, Hrq, Hwq. simpl.
        rewrite total_qty_cons, total_qty_relabel. simpl. lia.
      * rewrite assignment_cost_cons, assignment_cost_app, Hrc, Hwc. simpl.
        rewrite total_cost_cons, total_cost_relabel. simpl. lia.
Qed.

(** The lines of a pinned part against those it gets without the pin. *)
Lemma allocate_part_pin_cost orders quotes_df supplier_selections part
    selected_supplier qty :
  Forall (λ r, quote_AvailableQty r > 0) quotes_df →
  qty_required orders part = Some qty →
  0 < qty →
  supplier_selections !! part = Some selected_supplier →
  let pinned := allocate_part orders quotes_df supplier_selections part in
  let unpinned :=
    allocate_part orders quotes_df (delete part supplier_selections) part in
  let supplied lines := total_qty (filter (λ l, ¬ is_shortage l) lines) in
  supplied pinned ≤ supplied unpinned
  ∧ (supplied pinned = supplied unpinned →
     total_cost unpinned ≤ total_cost pinned)
  ∧ (supplied pinned = qty → supplied unpinned = qty).
Proof.
  intros Hav Hqty Hpos Hsel pinned unpinned supplied.
  subst pinned unpinned supplied. cbv beta.
  rewrite (allocate_part_auto _ _ (delete part supplier_selections) _ qty)
    by (done || apply lookup_delete_eq).
  cbv zeta.
  set (rows := quotes_of_part quotes_df part).
  set (walk := auto_walk part qty (sort_values rows)).
  assert (Forall (λ r, 0 ≤ quote_AvailableQty r) rows) as Hrows.
  { apply Forall_forall. intros r [_ Hr]%list_elem_of_filter.
    eapply Forall_forall in Hav; [|exact Hr]. simpl in Hav. lia. }
  assert (Forall (λ l, ¬ is_shortage l) walk.1) as Hsrc.
  { eapply Forall_impl; [apply auto_walk_source|].
    unfold is_shortage. by intros l ->. }
  rewrite (supplied_lines _ walk.1) by done.
  assert (∀ lines leftover,
            total_cost (lines ++ if leftover >? 0
                                 then [shortage_line part leftover] else [])
            = total_cost lines) as Hcost.
  { intros lines leftover. rewrite total_cost_app.
    destruct (_ >? 0); unfold total_cost, sum_Z; simpl; lia. }
  rewrite Hcost.
  assert (total_qty walk.1 = Z.min qty (sum_Z (quote_AvailableQty <$> rows)))
    as Hwalk.
  { subst walk. rewrite auto_walk_total; [|lia|by rewrite sort_values_perm].
    f_equal. apply sum_Z_perm. by rewrite sort_values_perm. }
  apply qty_required_Some in Hqty as [_ [more Hmore]].
  unfold allocate_part. rewrite Hmore, Hsel.
  pose proof (manual_branch_conserve quotes_df part selected_supplier qty)
    as (Hsum & Hleft & Hman); [lia|].
  destruct (manual_branch_assignment quotes_df part selected_supplier qty)
    as (xs & Hfst & Hxs & Hxq & Hxc); [done|lia|].
  destruct (manual_branch quotes_df part selected_supplier qty)
    as [lines leftover]. simpl in *.
  assert ((if leftover >? 0 then lines ++ [shortage_line part leftover]
           else lines)
          = lines ++ if leftover >? 0 then [shortage_line part leftover] else [])
    as -> by (destruct (leftover >? 0); by rewrite ?app_nil_r).
  rewrite supplied_lines, Hcost by done.
  assert (total_qty lines ≤ sum_Z (quote_AvailableQty <$> rows)) as Hcap.
  { rewrite <-Hxq.
    assert (sum_Z (quote_AvailableQty <$> rows)
            = sum_Z (quote_AvailableQty <$> xs.*1)) as ->
      by (apply sum_Z_perm; by rewrite Hfst).
    by apply (feasible_qty (xs.*1) xs). }
  split_and!.
  - lia.
  - intros Hsame. rewrite <-Hxc.
    apply sorted_walk_optimal; [lia|done|done|done|]. by rewrite Hxq, Hsame.
  - lia.
Qed.

(** X18. A manual selection never makes a part cheaper.  Over quotes with
    positive availability, the lines of a pinned part supply no more than
    the lines the part gets when its pin is removed; and when they supply
    as much (as they do whenever the pinned part has no shortage), they
    cost at least as much. *)
Theorem pin_never_cheaper orders quotes_df supplier_selections part
    selected_supplier qty :
  Forall (λ r, quote_AvailableQty r > 0) quotes_df →
  qty_required orders part = Some qty →
  0 < qty →
  supplier_selections !! part = Some selected_supplier →
  let pinned :=
    lines_of_part part (final_allocation orders quotes_df supplier_selections) in
  let unpinned :=
    lines_of_part part
      (final_allocation orders quotes_df (delete part supplier_selections)) in
  let supplied lines := total_qty (filter (λ l, ¬ is_shortage l) lines) in
  supplied pinned ≤ supplied unpinned
  ∧ (supplied pinned = supplied unpinned →
     total_cost unpinned ≤ total_cost pinned)
  ∧ (supplied pinned = qty → supplied unpinned = qty).
Proof.
  intros Hav Hqty Hpos Hsel pinned unpinned supplied.
  subst pinned unpinned supplied. cbv beta.
  assert (part ∈ order_PartNumber <$> orders) as Hin
    by (by apply qty_required_Some in Hqty as [? _]).
  rewrite !lines_of_part_final by done.
  by apply (allocate_part_pin_cost _ _ _ _ selected_supplier).
Qed.

End pin_cost.

(** ** The lines over cleaned tables *)

Section cleaned_tables.
Context {PS : PriceSort}.






End cleaned_tables.
(** ** The price of a manual selection at the examples *)

Section pin_cost_examples.
Local Existing Instance stable_sort.

Lemma pin_never_cheaper_witness :
  let pinned :=
    lines_of_part "P3" (final_allocation ex3_orders ex3_quotes ex3_selections) in
  let unpinned :=
    lines_of_part "P3"
      (final_allocation ex3_orders ex3_quotes (delete "P3" ex3_selections)) in
  let supplied lines := total_qty (filter (λ l, ¬ is_shortage l) lines) in
  supplied pinned ≤ supplied unpinned
  ∧ (supplied pinned = supplied unpinned →
     total_cost unpinned ≤ total_cost pinned)
  ∧ (supplied pinned = 10 → supplied unpinned = 10).
Proof.
  apply (pin_never_cheaper ex3_orders ex3_quotes ex3_selections "P3"
           "SupplierC" 10);
    [repeat constructor|reflexivity|lia|reflexivity].
Defined.

(** Pinning P3 to SupplierC costs 45 where the optimizer pays 30. *)
Example pin_cost_example :
  total_cost (final_allocation ex3_orders ex3_quotes ex3_selections) = 45
  ∧ total_cost (final_allocation ex3_orders ex3_quotes ∅) = 30.
Proof. split; vm_compute; reflexivity. Qed.

End pin_cost_examples.

(** ** Parts without quotes *)

Section not_available.
Context {PS : PriceSort}.

(** The sheet of the parts without quotes lists the order rows whose part
    no quote names. *)
Lemma create_not_available_sheet_rows order_df quote_df :
  create_not_available_sheet order_df quote_df
  = (λ o, mkNotAvailable (order_PartNumber o) (order_QtyRequired o)
                         "No quotes available")
      <$> filter (λ o, quotes_of_part quote_df (order_PartNumber o) = [])
                 order_df.
Proof.
  unfold create_not_available_sheet.
  set (not_available_parts :=
         (list_to_set (unique (order_PartNumber <$> order_df)) : gset string)
         ∖ list_to_set (unique (quote_PartNumber <$> quote_df))).
  assert (∀ o, o ∈ order_df →
               order_PartNumber o ∈ not_available_parts
               ↔ quotes_of_part quote_df (order_PartNumber o) = []) as Hiff.
  { intros o Ho. subst not_available_parts.
    rewrite elem_of_difference, !elem_of_list_to_set, !unique_elem_of.
    split.
    - intros [_ Hnq]. apply filter_nil_Forall, Forall_forall. intros r Hr Heq.
      apply Hnq. rewrite <-Heq. by apply list_elem_of_fmap_2.
    - intros Hnil. split; [by apply list_elem_of_fmap_2|].
      intros (r & Heq & Hr)%list_elem_of_fmap.
      assert (r ∈ quotes_of_part quote_df (order_PartNumber o)) as Hin
        by (by apply list_elem_of_filter).
      rewrite Hnil in Hin. by apply elem_of_nil in Hin. }
  assert (filter (λ o, order_PartNumber o ∈ not_available_parts) order_df
          = filter (λ o, quotes_of_part quote_df (order_PartNumber o) = [])
                   order_df) as Hfilter.
  { apply filter_ext_Forall, Forall_forall. intros o Ho. by apply Hiff. }
  destruct (decide (not_available_parts ≠ ∅)) as [_|Hempty];
    [by rewrite Hfilter|].
  rewrite <-Hfilter. symmetry.
  assert (filter (λ o, order_PartNumber o ∈ not_available_parts) order_df = [])
    as ->; [|done].
  apply filter_nil_Forall, Forall_forall. intros o _ Hin. apply Hempty. intros Heq.
  rewrite Heq in Hin. by apply elem_of_empty in Hin.
Qed.

Lemma engine_iteration_not_available quotes_df allocation stats order :
  Forall (λ r, quote_AvailableQty r > 0) quotes_df →
  0 < order_QtyRequired order →
  stat_not_available (engine_iteration quotes_df (allocation, stats) order).2
  = stat_not_available stats
    + if decide (quotes_of_part quotes_df (order_PartNumber order) = [])
      then 1 else 0.
Proof.
  intros Hav Hpos. unfold engine_iteration.
  destruct (quotes_of_part quotes_df (order_PartNumber order)) as [|q qs] eqn:Hqs.
  - by rewrite decide_True.
  - rewrite decide_False by done.
    rewrite engine_walk_cost_spec, engine_walk_auto. simpl.
    pose proof (auto_walk_progress (order_PartNumber order)
                  (order_QtyRequired order) (sort_values (q :: qs)) Hpos)
      as Hlt.
    destruct (Z.eqb_spec (auto_walk (order_PartNumber order)
                            (order_QtyRequired order)
                            (sort_values (q :: qs))).2 0); [simpl; lia|].
    destruct (Z.ltb_spec (auto_walk (order_PartNumber order)
                            (order_QtyRequired order)
                            (sort_values (q :: qs))).2
                (order_QtyRequired order)) as [_|Hge]; [simpl; lia|].
    exfalso. apply Z.le_ngt in Hge. apply Hge, Hlt.
    + intros Hnil. pose proof (sort_values_perm (q :: qs)) as Hperm.
      rewrite Hnil in Hperm. by apply Permutation_nil_l in Hperm.
    + rewrite sort_values_perm, <-Hqs. apply Forall_forall.
      intros r [_ Hr]%list_elem_of_filter. by eapply Forall_forall in Hav.
Qed.

(** X20. The engine and the sheet of the parts without quotes agree.  Over
    quotes with positive availability and order rows with positive
    quantities, the "Not Available" items of the optimized allocation are,
    row for row, the rows of [create_not_available_sheet] (same part, same
    quantity required), and the statistic [not_available] is their
    number. *)
Theorem engine_not_available orders quotes_df :
  Forall (λ r, quote_AvailableQty r > 0) quotes_df →
  Forall (λ o, order_QtyRequired o > 0) orders →
  (λ l, mkNotAvailable (eng_PartNumber l) (eng_QtyRequired l)
                       "No quotes available")
    <$> filter (λ l, eng_Status l = "Not Available")
               (optimized_allocation orders quotes_df)
  = create_not_available_sheet orders quotes_df
  ∧ stat_not_available (run_optimization orders quotes_df).2
    = Z.of_nat (length (create_not_available_sheet orders quotes_df)).
Proof.
  intros Hav Hpos. rewrite create_not_available_sheet_rows. split.
  - unfold optimized_allocation.
    induction Hpos as [|o orders Ho _ IH]; [done|].
    rewrite fmap_cons. simpl concat. rewrite filter_app, fmap_app, IH.
    rewrite filter_cons.
    destruct (decide (quotes_of_part quotes_df (order_PartNumber o) = []))
      as [Hnil|Hsome].
    + unfold engine_order. by rewrite Hnil.
    + destruct (engine_order_offers quotes_df o) as [-> _]; [lia|done|done|].
      assert (∀ lines : list EngineLine,
                Forall (λ l, eng_Status l ≠ "Not Available") lines →
                filter (λ l, eng_Status l = "Not Available") lines = [])
        as Hnone.
      { intros lines Hl. by apply filter_nil_Forall. }
      rewrite Hnone; [done|]. apply Forall_app. split.
      * apply Forall_fmap, Forall_true. done.
      * destruct (_ >? 0); by repeat constructor.
  - unfold run_optimization.
    assert (∀ rows allocation stats,
              Forall (λ o, order_QtyRequired o > 0) rows →
              stat_not_available
                (fold_left (engine_iteration quotes_df) rows
                           (allocation, stats)).2
              = stat_not_available stats
                + Z.of_nat (length
                    (filter (λ o, quotes_of_part quotes_df (order_PartNumber o)
                                  = []) rows))) as Hfold.
    { intros rows allocation stats Hrows. revert allocation stats.
      induction Hrows as [|o rows Ho _ IH]; intros allocation stats.
      - simpl. lia.
      - cbn [fold_left].
        pose proof (engine_iteration_not_available quotes_df allocation stats o
                      Hav) as Hstep.
        destruct (engine_iteration quotes_df (allocation, stats) o)
          as [allocation' stats'].
        rewrite IH. simpl in Hstep. rewrite Hstep by lia.
        rewrite filter_cons. destruct (decide _); simpl length; lia. }
    rewrite Hfold by done. by rewrite length_fmap.
Qed.

End not_available.

(** ** The sheet "Order List" *)







Section order_list.
Context {PS : PriceSort}.


Lemma column_sum_app column (df1 df2 : list (list (string * Value))) :
  column_sum column (df1 ++ df2) = column_sum column df1 + column_sum column df2.
Proof. unfold column_sum. by rewrite fmap_app, sum_Z_app. Qed.



End order_list.

(** ** The sheets at the examples *)

Section sheet_examples.
Local Existing Instance stable_sort.

Lemma engine_not_available_witness :
  (λ l, mkNotAvailable (eng_PartNumber l) (eng_QtyRequired l)
                       "No quotes available")
    <$> filter (λ l, eng_Status l = "Not Available")
               (optimized_allocation ex11_orders ex2_quotes)
  = create_not_available_sheet ex11_orders ex2_quotes
  ∧ stat_not_available (run_optimization ex11_orders ex2_quotes).2
    = Z.of_nat (length (create_not_available_sheet ex11_orders ex2_quotes)).
Proof.
  apply (engine_not_available ex11_orders ex2_quotes); repeat constructor.
Defined.


(** The row TOTALS of the sheet for the order of P2 and P5. *)
Example order_list_totals :
  last (create_price_comparison_sheet ex11_orders ex2_quotes
          (final_allocation ex11_orders ex2_quotes ∅))
  = Some [("Part Number", VStr "TOTALS"); ("Qty Required", VStr "");
          ("Allocated Qty", VNum 15); ("Selected Supplier", VStr "");
          ("Selected Price", VStr ""); ("Total Cost", VNum 44);
          ("Allocation Source", VStr ""); ("SupplierA_Price", VStr "");
          ("SupplierA_Qty", VStr ""); ("SupplierB_Price", VStr "");
          ("SupplierB_Qty", VStr "")].
Proof. vm_compute. reflexivity. Qed.

End sheet_examples.

(** ** The cost figures *)

Section cost_figures.
Context {PS : PriceSort}.










End cost_figures.

(** ** The cost figures at the examples *)

Section cost_examples.
Local Existing Instance stable_sort.



(** The three figures for scenario 4: the optimizer pays 10, the pin to
    SupplierE makes it 50. *)
Example cost_figures_example :
  auto_cost (optimized_allocation ex4_orders ex4_quotes) = 10
  ∧ total_final_cost (final_allocation ex4_orders ex4_quotes ∅) = 10
  ∧ total_final_cost (final_allocation ex4_orders ex4_quotes ex4_selections)
    = 50.
Proof. split_and!; vm_compute; reflexivity. Qed.

End cost_examples.

(** ** The reach of the selections *)

Section selections_reach.
Context {PS : PriceSort}.

Lemma select_cell_shape (excel_df : list (list (string * Value)))
    (supplier_selections : gmap string string) row_idx col_name
    is_supplier_column :
  select_cell excel_df supplier_selections row_idx col_name is_supplier_column
  = supplier_selections
  ∨ ∃ part,
      select_cell excel_df supplier_selections row_idx col_name
                  is_supplier_column
      = <[part := col_name]> supplier_selections.
Proof.
  unfold select_cell.
  destruct (excel_df !! Z.to_nat row_idx) as [row|]; [|by left].
  destruct (dict_get "Part Number" row) as [[part|]|]; [|by left..].
  destruct is_supplier_column; [|by left].
  destruct (dict_get col_name row); [|by left].
  destruct (decide _); [right; by exists part|by left].
Qed.

Lemma handle_selection_shape orders quotes_df
    (supplier_selections : gmap string string) event :
  handle_selection orders quotes_df supplier_selections event
  = supplier_selections
  ∨ ∃ part supplier,
      handle_selection orders quotes_df supplier_selections event
      = <[part := supplier]> supplier_selections.
Proof.
  assert (∀ excel_df row_idx col_name is_supplier_column,
            select_cell excel_df supplier_selections row_idx col_name
                        is_supplier_column = supplier_selections
            ∨ ∃ part supplier,
                select_cell excel_df supplier_selections row_idx col_name
                            is_supplier_column
                = <[part := supplier]> supplier_selections) as Hcell.
  { intros excel_df row_idx col_name is_supplier_column.
    destruct (select_cell_shape excel_df supplier_selections row_idx col_name
                is_supplier_column) as [?|[part ?]]; [by left|].
    right. by exists part, col_name. }
  unfold handle_selection.
  destruct (ev_cells event) as [|[row_idx col_identifier] ?].
  - destruct (ev_rows event) as [|row_idx ?]; [by left|].
    destruct (ev_columns event) as [|[?|col_idx] ?]; [by left|by left|].
    destruct (_ && _); [|by left].
    destruct (_ !! Z.to_nat col_idx) as [col_name|]; [apply Hcell|by left].
  - destruct col_identifier as [col_name|col_idx].
    + destruct (decide _); [|by left].
      destruct (_ && _); [apply Hcell|by left].
    + destruct ((0 <=? col_idx) && _); [|by left].
      destruct (_ !! Z.to_nat col_idx) as [col_name|]; [|by left].
      destruct (_ && _); [apply Hcell|by left].
Qed.

(** X24. A selection event pins at most one part and never removes a
    pin: after any series of selection events every part that was pinned
    is still pinned (to the same or to another supplier).  Through the
    table a part cannot be given back to the optimizer; only "Reset All
    Selections" empties the selections. *)
Theorem selections_only_grow orders quotes_df
    (supplier_selections : gmap string string) events :
  (∀ event,
     handle_selection orders quotes_df supplier_selections event
     = supplier_selections
     ∨ ∃ part supplier,
         handle_selection orders quotes_df supplier_selections event
         = <[part := supplier]> supplier_selections)
  ∧ dom supplier_selections
    ⊆ dom (fold_left (handle_selection orders quotes_df) events
                     supplier_selections).
Proof.
  split; [intros event; apply handle_selection_shape|].
  revert supplier_selections.
  induction events as [|event events IH]; intros supplier_selections; [done|].
  cbn [fold_left]. etrans; [|apply IH].
  destruct (handle_selection_shape orders quotes_df supplier_selections event)
    as [->|(part & supplier & ->)]; [done|].
  rewrite dom_insert. set_solver.
Qed.

Lemma allocate_part_selection orders quotes_df
    (selections_1 selections_2 : gmap string string) part :
  selections_1 !! part = selections_2 !! part →
  allocate_part orders quotes_df selections_1 part
  = allocate_part orders quotes_df selections_2 part.
Proof. unfold allocate_part. by intros ->. Qed.

Lemma cost_analysis_iteration_selection orders quotes_df
    (selections_1 selections_2 : gmap string string) state part :
  selections_1 !! part = selections_2 !! part →
  cost_analysis_iteration orders quotes_df selections_1 state part
  = cost_analysis_iteration orders quotes_df selections_2 state part.
Proof. unfold cost_analysis_iteration. by intros ->. Qed.

(** X25. Selections for parts that are not in the order count for
    nothing.  Two dictionaries of selections that agree on the parts
    ordered give the same final allocation, the same cost analysis and the
    same selection table: pins left in the session from other uploads
    change no result. *)
Theorem unordered_selections_ignored orders quotes_df
    (selections_1 selections_2 : gmap string string) :
  (∀ part, part ∈ order_PartNumber <$> orders →
           selections_1 !! part = selections_2 !! part) →
  final_allocation orders quotes_df selections_1
  = final_allocation orders quotes_df selections_2
  ∧ cost_analysis orders quotes_df selections_1
    = cost_analysis orders quotes_df selections_2
  ∧ create_excel_dataframe orders quotes_df selections_1
    = create_excel_dataframe orders quotes_df selections_2.
Proof.
  intros Hagree.
  assert (∀ part, part ∈ unique (order_PartNumber <$> orders) →
                  selections_1 !! part = selections_2 !! part) as Hparts
    by (intros part Hpart; apply Hagree; by rewrite <-unique_elem_of).
  clear Hagree. split_and!.
  - unfold final_allocation. f_equal. apply list_fmap_ext.
    intros i part Hpart. apply allocate_part_selection, Hparts.
    by eapply list_elem_of_lookup_2.
  - unfold cost_analysis.
    generalize (0, @nil ManualLine).
    induction (unique (order_PartNumber <$> orders)) as [|part parts IH];
      intros state; [done|].
    cbn [fold_left].
    rewrite (cost_analysis_iteration_selection _ _ selections_1 selections_2)
      by (apply Hparts; left).
    apply IH. intros p Hp. apply Hparts. by right.
  - unfold create_excel_dataframe.
    induction (unique (order_PartNumber <$> orders)) as [|part parts IH];
      [done|].
    csimpl. rewrite IH by (intros p Hp; apply Hparts; by right).
    unfold excel_row. by rewrite (Hparts part) by left.
Qed.

End selections_reach.

(** ** The reach of the selections at the examples *)

Section selections_reach_examples.
Local Existing Instance stable_sort.

Lemma unordered_selections_ignored_witness :
  final_allocation ex3_orders ex3_quotes ex3_selections
  = final_allocation ex3_orders ex3_quotes
      (<["P4" := "SupplierE"]> ex3_selections)
  ∧ cost_analysis ex3_orders ex3_quotes ex3_selections
    = cost_analysis ex3_orders ex3_quotes
        (<["P4" := "SupplierE"]> ex3_selections)
  ∧ create_excel_dataframe ex3_orders ex3_quotes ex3_selections
    = create_excel_dataframe ex3_orders ex3_quotes
        (<["P4" := "SupplierE"]> ex3_selections).
Proof.
  apply (unordered_selections_ignored ex3_orders ex3_quotes ex3_selections
           (<["P4" := "SupplierE"]> ex3_selections)).
  intros part Hpart. apply list_elem_of_singleton in Hpart. subst part.
  reflexivity.
Defined.

End selections_reach_examples.

(** ** The highlight of the selection table *)

Lemma selections_after_offers orders quotes_df events :
  Forall (λ r, quote_Supplier r ∉ fixed_columns) quotes_df →
  pins_have_offers quotes_df (selections_after orders quotes_df events).
Proof.
  intros Hfixed. unfold selections_after.
  assert (∀ sel, pins_have_offers quotes_df sel →
            pins_have_offers quotes_df
              (fold_left (handle_selection orders quotes_df) events sel))
    as Hfold.
  { induction events as [|event events IH]; intros sel Hs; [done|].
    cbn [fold_left]. by apply IH, selection_keeps_offers_step. }
  apply Hfold. intros p s Hp. by rewrite lookup_empty in Hp.
Qed.

(** X26. The highlight of the selection table.  After any series of
    selection events, from none (no supplier being named like a fixed
    column or "Auto-Optimized"), the row of every pinned part has its
    highlight in the column of the pinned supplier, the rows of the other
    parts have none, and a highlighted cell always shows an offer, never
    "N/A". *)
Theorem highlights_show_offers orders quotes_df events :
  Forall (λ r, (quote_Supplier r ∉ fixed_columns)
               ∧ quote_Supplier r ≠ "Auto-Optimized") quotes_df →
  let supplier_selections := selections_after orders quotes_df events in
  let excel_df := create_excel_dataframe orders quotes_df supplier_selections in
  highlight_selected_prices excel_df supplier_selections
  = (supplier_selections !!.) <$> unique (order_PartNumber <$> orders)
  ∧ ∀ i row supplier,
      excel_df !! i = Some row →
      highlight_selected_prices excel_df supplier_selections !! i
      = Some (Some supplier) →
      ∃ cell_value, dict_get supplier row = Some cell_value
                    ∧ cell_value ≠ VStr "N/A".
Proof.
  intros Hnames supplier_selections excel_df.
  assert (Forall (λ r, quote_Supplier r ∉ fixed_columns) quotes_df) as Hfixed
    by (eapply Forall_impl; [exact Hnames|]; by intros r [? _]).
  pose proof (selections_after_offers orders quotes_df events Hfixed) as Hpins.
  fold supplier_selections in Hpins.
  assert (∀ supplier, supplier ∈ all_suppliers quotes_df →
                      (supplier ∉ fixed_columns) ∧ supplier ≠ "Auto-Optimized")
    as Hsup.
  { intros supplier
      (r & -> & Hr)%all_suppliers_elem%list_elem_of_fmap.
    by eapply Forall_forall in Hnames. }
  assert ("Part Number" ∉ all_suppliers quotes_df) as Hpn.
  { intros [Hin _]%Hsup. apply Hin. left. }
  set (row := λ part, excel_row quotes_df supplier_selections part
                        (default 0 (qty_required orders part))).
  assert (excel_df = row <$> unique (order_PartNumber <$> orders)) as Hdf
    by apply create_excel_dataframe_rows.
  assert (∀ part, part ∈ unique (order_PartNumber <$> orders) →
            ∀ supplier, supplier ∈ all_suppliers quotes_df →
                        supplier ∈ filter (λ col, col ∉ fixed_columns)
                                          (excel_columns excel_df)) as Hcols.
  { intros part Hpart supplier Hin. apply list_elem_of_filter.
    split; [by apply Hsup|]. rewrite Hdf.
    destruct (unique (order_PartNumber <$> orders)) as [|p0 ps];
      [by apply elem_of_nil in Hpart|].
    rewrite fmap_cons. simpl. apply excel_row_keys. by left. }
  assert (∀ part, part ∈ unique (order_PartNumber <$> orders) →
            match dict_get "Part Number" (row part) with
            | Some (VStr part_number) =>
                if decide (default "Auto-Optimized"
                             (supplier_selections !! part_number)
                           ≠ "Auto-Optimized"
                           ∧ default "Auto-Optimized"
                               (supplier_selections !! part_number)
                             ∈ filter (λ col, col ∉ fixed_columns)
                                      (excel_columns excel_df))
                then Some (default "Auto-Optimized"
                             (supplier_selections !! part_number))
                else None
            | _ => None
            end = supplier_selections !! part) as Hrow.
  { intros part Hpart. unfold row. rewrite excel_row_get, decide_False by done.
    assert (dict_get "Part Number"
              [("Part Number", VStr part);
               ("Qty Required", VNum (default 0 (qty_required orders part)));
               ("Current Selection",
                VStr (default "Auto-Optimized" (supplier_selections !! part)))]
            = Some (VStr part)) as -> by done.
    destruct (supplier_selections !! part) as [supplier|] eqn:Hsel;
      cbn [default].
    - destruct (Hpins part supplier Hsel) as (q & Hq & _).
      apply selected_quote_elem in Hq as (Hq & _ & Hqs).
      assert (supplier ∈ all_suppliers quotes_df) as Hall.
      { apply all_suppliers_elem. rewrite <-Hqs. by apply list_elem_of_fmap_2. }
      rewrite decide_True; [done|]. split; [by apply Hsup|by eapply Hcols].
    - by rewrite decide_False by (by intros [? _]). }
  assert (highlight_selected_prices excel_df supplier_selections
          = (supplier_selections !!.)
              <$> unique (order_PartNumber <$> orders)) as Hhigh.
  { unfold highlight_selected_prices.
    set (cols := filter (λ col, col ∉ fixed_columns) (excel_columns excel_df))
      in *.
    rewrite Hdf, <-list_fmap_compose. apply list_fmap_ext. intros i part Hpart.
    apply Hrow. by eapply list_elem_of_lookup_2. }
  split; [done|].
  intros i cells supplier Hcells Hi. rewrite Hhigh in Hi.
  rewrite Hdf in Hcells.
  apply list_lookup_fmap_Some in Hcells as (part & -> & Hpart).
  rewrite list_lookup_fmap, Hpart in Hi. simpl in Hi. injection Hi as Hsel.
  destruct (Hpins part supplier Hsel) as (q & Hq & Hav).
  assert (supplier ∈ all_suppliers quotes_df) as Hall.
  { apply selected_quote_elem in Hq as (Hq' & _ & Hqs).
    apply all_suppliers_elem. rewrite <-Hqs. by apply list_elem_of_fmap_2. }
  exists (excel_cell quotes_df part supplier). split.
  - unfold row. by rewrite excel_row_get, decide_True.
  - apply excel_cell_offer. by exists q.
Qed.

Lemma highlights_show_offers_witness :
  let supplier_selections :=
    selections_after ex3_orders ex3_quotes
                     [ex3_click_D; ex3_click_C_by_position] in
  let excel_df :=
    create_excel_dataframe ex3_orders ex3_quotes supplier_selections in
  highlight_selected_prices excel_df supplier_selections
  = (supplier_selections !!.) <$> unique (order_PartNumber <$> ex3_orders)
  ∧ ∀ i row supplier,
      excel_df !! i = Some row →
      highlight_selected_prices excel_df supplier_selections !! i
      = Some (Some supplier) →
      ∃ cell_value, dict_get supplier row = Some cell_value
                    ∧ cell_value ≠ VStr "N/A".
Proof.
  apply (highlights_show_offers ex3_orders ex3_quotes
           [ex3_click_D; ex3_click_C_by_position]).
  repeat constructor; compute_done.
Defined.

(** ** The colours of the final allocation summary *)

Section colours.
Context {PS : PriceSort}.

Lemma allocate_part_sources orders quotes_df supplier_selections part :
  Forall (λ l, AllocationSource l
               ∈ ["Manual Selection"; "Manual Selection (Partial)";
                  "Auto-Optimized"; "Auto-Optimized (Remaining)"; "Shortage"])
         (allocate_part orders quotes_df supplier_selections part).
Proof.
  unfold allocate_part.
  destruct (part_orders orders part) as [|qty_needed ?]; [constructor|].
  assert (∀ lines leftover,
            Forall (λ l, AllocationSource l
                         ∈ ["Manual Selection"; "Manual Selection (Partial)";
                            "Auto-Optimized"; "Auto-Optimized (Remaining)";
                            "Shortage"]) lines →
            Forall (λ l, AllocationSource l
                         ∈ ["Manual Selection"; "Manual Selection (Partial)";
                            "Auto-Optimized"; "Auto-Optimized (Remaining)";
                            "Shortage"])
                   (if leftover >? 0
                    then lines ++ [shortage_line part leftover] else lines))
    as Hfin.
  { intros lines leftover Hlines. destruct (leftover >? 0); [|done].
    apply Forall_app. split; [done|]. repeat constructor. }
  destruct (supplier_selections !! part) as [selected_supplier|].
  - unfold manual_branch.
    destruct (quotes_of_selected _ _ _) as [|supplier_quote ?];
      [apply Hfin; constructor|].
    destruct (_ >=? _); [apply Hfin; repeat constructor|].
    pose proof (remaining_walk_source part
                  (qty_needed - quote_AvailableQty supplier_quote)
                  (sort_values
                     (quotes_of_others quotes_df part selected_supplier)))
      as Hrest.
    destruct (remaining_walk _ _ _) as [lines leftover]. simpl in Hrest.
    apply Hfin. constructor; [repeat constructor|].
    eapply Forall_impl; [exact Hrest|]. intros line ->. repeat constructor.
  - pose proof (auto_walk_source part qty_needed
                  (sort_values (quotes_of_part quotes_df part))) as Hauto.
    destruct (auto_walk _ _ _) as [lines leftover]. simpl in Hauto.
    apply Hfin. eapply Forall_impl; [exact Hauto|].
    intros line ->. repeat constructor.
Qed.

(** X27. The colours of the final allocation summary.  Every line of a
    final allocation has one of the five sources, and its row is styled as
    the legend says: gold for a full manual selection, orange for a partial
    one, green for the lines the optimizer chose (those that complete a
    partial selection included), and no style for a shortage line. *)
Theorem summary_colours orders quotes_df supplier_selections :
  Forall (λ l,
            AllocationSource l
            ∈ ["Manual Selection"; "Manual Selection (Partial)";
               "Auto-Optimized"; "Auto-Optimized (Remaining)"; "Shortage"]
            ∧ highlight_allocation_source l
              = replicate 6
                  (if decide (AllocationSource l = "Manual Selection")
                   then gold_style
                   else if decide (AllocationSource l
                                   = "Manual Selection (Partial)")
                   then orange_style
                   else if decide (is_shortage l) then ""
                   else green_style))
         (final_allocation orders quotes_df supplier_selections).
Proof.
  apply Forall_forall. intros l Hl. unfold final_allocation in Hl.
  apply elem_of_concat in Hl as (ls & Hls & Hl).
  apply list_elem_of_fmap in Hls as (part & -> & _).
  pose proof (allocate_part_sources orders quotes_df supplier_selections part)
    as Hsources.
  eapply Forall_forall in Hsources; [|exact Hl]. simpl in Hsources.
  split; [done|]. clear Hl.
  destruct l as [part_number supplier qty price total source].
  cbn [AllocationSource] in Hsources.
  rewrite !elem_of_cons, elem_of_nil in Hsources.
  destruct Hsources as [->|[->|[->|[->|[->|[]]]]]]; reflexivity.
Qed.

End colours.
